(** * Bedrock-bank detection: a shallow embedding of [src/river/bedrock_banks.py]

    The module scans elevation profiles taken across a river and reports, for
    each side of each profile, the first sample that rises high enough, steeply
    enough and stays high for long enough.

    Conventions of the embedding.
    - Python [float] values are read as real numbers ([R]); [math.atan] is the
      arctangent of the Standard Library and [math.degrees x] is
      [x * (180 / PI)].  [float('inf')] is an explicit top element.
    - Python [int] values are [Z]; list indices follow Python's rules
      (negative indices count from the end, out of range raises [IndexError]).
    - An exception is a value of [exn]; code that may raise returns
      [result A] and sequencing is the bind of that monad.
    - The insertion-ordered [dict] of profiles is an association list.
    - The geometry engine (QGIS) is a set of section variables. *)

From Stdlib Require Import Reals Lra Lia ZArith List String Bool.
From Stdlib Require Import Sorting.Sorted Sorting.Permutation.
Import ListNotations.

Set Implicit Arguments.

(** ** Python run-time model *)

Module Py.

Inductive exn : Type :=
| IndexError
| ZeroDivisionError
| QgsProcessingException.

Inductive result (A : Type) : Type :=
| Ok (a : A)
| Raise (e : exn).

Arguments Ok {A} a.
Arguments Raise {A} e.

Definition bind {A B : Type} (m : result A) (k : A -> result B) : result B :=
  match m with
  | Ok a => k a
  | Raise e => Raise e
  end.

Definition len {A : Type} (l : list A) : Z := Z.of_nat (List.length l).

(** [l[k]] *)
Definition getitem {A : Type} (l : list A) (k : Z) : result A :=
  let k' := if (k <? 0)%Z then (len l + k)%Z else k in
  if (k' <? 0)%Z then Raise IndexError
  else match nth_error l (Z.to_nat k') with
       | Some a => Ok a
       | None => Raise IndexError
       end.

(** [range(start, stop)] *)
Definition range (start stop : Z) : list Z :=
  map (fun k => (start + Z.of_nat k)%Z) (seq 0 (Z.to_nat (stop - start))).

(** Position denoted by a slice bound [k] on a list of length [n]. *)
Definition slice_bound (n k : Z) : nat :=
  Z.to_nat (if (k <? 0)%Z then Z.max 0 (n + k) else Z.min k n).

(** [l[:k]] *)
Definition slice_to {A : Type} (l : list A) (k : Z) : list A :=
  firstn (slice_bound (len l) k) l.

(** [l[k:]] *)
Definition slice_from {A : Type} (l : list A) (k : Z) : list A :=
  skipn (slice_bound (len l) k) l.

(** [l[::-1]] *)
Definition reversed {A : Type} (l : list A) : list A := rev l.

(** [x < y] on floats, as a boolean. *)
Definition Rltb (x y : R) : bool := if Rlt_dec x y then true else false.

(** [x == y] on floats, as a boolean. *)
Definition Reqb (x y : R) : bool := if Req_dec_T x y then true else false.

(** [x / y] on floats. *)
Definition truediv (x y : R) : result R :=
  if Req_dec_T y 0 then Raise ZeroDivisionError else Ok (x / y)%R.

(** [math.degrees] *)
Definition degrees (x : R) : R := (x * (180 / PI))%R.

(** A float or [float('inf')]. *)
Inductive efloat : Type :=
| Fin (r : R)
| Inf.

(** [x < m] for a finite [x] and a possibly infinite [m]. *)
Definition lt_efloat (x : R) (m : efloat) : bool :=
  match m with
  | Fin r => Rltb x r
  | Inf => true
  end.

End Py.

Import Py.

Declare Scope py_scope.
Delimit Scope py_scope with py.
Notation "x <- m ;; k" := (bind m (fun x => k))
  (at level 61, m at next level, right associativity) : py_scope.
Open Scope py_scope.

(** ** The bank classifier *)

Section BedrockBanks.

(** [QgsPointXY] *)
Variable Point : Type.

(** One entry of a profile: the dict built at lines 211-218. *)
Record Sample : Type := mkSample {
  point : Point;
  elevation : R;
  distance : R;
  profile_id : Z
}.

(** The dict returned at lines 346-353. *)
Record BankPoint : Type := mkBankPoint {
  bp_point : Point;
  bp_elevation : R;
  height_diff : R;
  side : string;
  bp_profile_id : Z;
  distance_along : R
}.

(** Which exit the stability loop (lines 331-342) took. *)
Inductive stability : Type :=
| Stable          (* the loop ran to its end, [is_stable] is still [True] *)
| RanOffEnd       (* line 333: [i + j >= len(points)] *)
| FellBelow.      (* line 340: [next_height_diff < height_threshold] *)

Definition is_stable (s : stability) : bool :=
  match s with
  | Stable => true
  | _ => false
  end.

Section Side.

Variable points : list Sample.
Variable river_elevation height_threshold slope_threshold : R.
Variable min_consecutive : Z.
Variable point_spacing : R.
Variable side_tag : string.
Variable pid : Z.
Variable river_distance : R.

(** Lines 332-342, for the candidate [i] and the remaining values [js] of [j]. *)
Fixpoint stability_loop (i : Z) (js : list Z) : result stability :=
  match js with
  | [] => Ok Stable
  | j :: js' =>
      if (i + j >=? len points)%Z then Ok RanOffEnd
      else
        next_point <- getitem points (i + j) ;;
        let next_height_diff := (elevation next_point - river_elevation)%R in
        if Rltb next_height_diff height_threshold then Ok FellBelow
        else stability_loop i js'
  end.

(** Lines 322-328: [true] when the slope test says [continue]. *)
Definition slope_rejects (i : Z) (current : Sample) : result bool :=
  if (i >? 0)%Z then
    prev <- getitem points (i - 1) ;;
    let elevation_change := (elevation current - elevation prev)%R in
    q <- truediv elevation_change point_spacing ;;
    let slope_degrees := degrees (atan q) in
    Ok (Rltb slope_degrees slope_threshold)
  else Ok false.

(** Lines 314-353: one iteration of the outer loop; [None] is "go on with the
    next index", [Some bp] is [return bp]. *)
Definition candidate (i : Z) : result (option BankPoint) :=
  current <- getitem points i ;;
  let height_diff := (elevation current - river_elevation)%R in
  if Rltb height_diff height_threshold then Ok None
  else
    rejected <- slope_rejects i current ;;
    if rejected then Ok None
    else
      st <- stability_loop i (range 1 min_consecutive) ;;
      if is_stable st then
        Ok (Some {| bp_point := point current;
                    bp_elevation := elevation current;
                    height_diff := height_diff;
                    side := side_tag;
                    bp_profile_id := pid;
                    distance_along := river_distance |})
      else Ok None.

(** Line 313: the outer [for], over the indices still to visit. *)
Fixpoint scan (indices : list Z) : result (option BankPoint) :=
  match indices with
  | [] => Ok None
  | i :: rest =>
      r <- candidate i ;;
      match r with
      | Some bp => Ok (Some bp)
      | None => scan rest
      end
  end.

Definition _find_bedrock_on_side : result (option BankPoint) :=
  scan (range 0 (len points - min_consecutive + 1)).

End Side.

(** ** Profile grouping, anchor location and the per-profile analysis *)

(** [QgsGeometry], with the engine's operations the module calls. *)
Variable Geometry : Type.
(** [a.combine(b)] *)
Variable combine : Geometry -> Geometry -> Geometry.
(** [bool(river_geom)], the truth value tested by [if river_geom:] *)
Variable truthy : Geometry -> bool.
(** [QgsGeometry.fromPointXY(QgsPointXY(p)).distance(river_geom)] *)
Variable geom_distance : Point -> Geometry -> R.
(** [river_geom.lineLocatePoint(QgsGeometry.fromPointXY(QgsPointXY(p)))] *)
Variable lineLocatePoint : Geometry -> Point -> R.

(** A feature of the sampled points layer, with the attributes the module
    reads; an attribute that is [None] is [None] here. *)
Record Feature : Type := mkFeature {
  attr_TR_ID : option Z;
  attr_TR_SEGMENT : option Z;
  attr_fid : option Z;
  feature_id : Z;
  geometry : Point;
  attr_elev_1 : option R;
  attr_distance : R
}.

(** Lines 178-183: the river layer is the list of its features' geometries. *)
Definition river_geometry (rivers_layer : list Geometry) : option Geometry :=
  fold_left
    (fun river_geom g =>
       match river_geom with
       | None => Some g
       | Some r => Some (combine r g)
       end)
    rivers_layer None.

(** Lines 193-199. *)
Definition feature_profile_id (feature : Feature) : Z :=
  match attr_TR_ID feature with
  | Some v => v
  | None =>
      match attr_TR_SEGMENT feature with
      | Some v => v
      | None =>
          match attr_fid feature with
          | Some v => v
          | None => feature_id feature
          end
      end
  end.

(** The [profiles] dict, in insertion order. *)
Definition profiles_dict : Type := list (Z * list Sample).

(** [k in d] *)
Fixpoint dict_mem (k : Z) (d : profiles_dict) : bool :=
  match d with
  | [] => false
  | (k', _) :: d' => if (k =? k')%Z then true else dict_mem k d'
  end.

(** [d[k]], [None] when the key is absent. *)
Fixpoint dict_get (k : Z) (d : profiles_dict) : option (list Sample) :=
  match d with
  | [] => None
  | (k', v) :: d' => if (k =? k')%Z then Some v else dict_get k d'
  end.

(** [d[k].append(s)] for a key that is present. *)
Fixpoint dict_append (k : Z) (s : Sample) (d : profiles_dict) : profiles_dict :=
  match d with
  | [] => []
  | (k', v) :: d' =>
      if (k =? k')%Z then (k', v ++ [s]) :: d'
      else (k', v) :: dict_append k s d'
  end.

(** Lines 192-218: the body of the grouping loop. *)
Definition group_step (profiles : profiles_dict) (feature : Feature)
  : profiles_dict :=
  let profile_id := feature_profile_id feature in
  let profiles :=
    if dict_mem profile_id profiles then profiles
    else profiles ++ [(profile_id, [])] in
  let point := geometry feature in
  match attr_elev_1 feature with
  | None => profiles
  | Some elevation =>
      if Reqb elevation (-9999) then profiles
      else dict_append profile_id
             {| point := point;
                elevation := elevation;
                distance := attr_distance feature;
                profile_id := profile_id |}
             profiles
  end.

(** Lines 190-218. *)
Definition group_profiles (points_layer : list Feature) : profiles_dict :=
  fold_left group_step points_layer [].

(** Line 226: [list.sort(key=...)] is a stable sort that compares keys with
    [<]; a stable insertion sort gives the same list. *)
Fixpoint insert_by_distance (p : Sample) (l : list Sample) : list Sample :=
  match l with
  | [] => [p]
  | q :: l' =>
      if Rltb (distance q) (distance p) then q :: insert_by_distance p l'
      else p :: q :: l'
  end.

Fixpoint sort_by_distance (l : list Sample) : list Sample :=
  match l with
  | [] => []
  | p :: l' => insert_by_distance p (sort_by_distance l')
  end.

(** Lines 232-237: the loop over [enumerate(profile_points)], from position
    [idx] on, with the current [min_dist] and [river_idx]. *)
Fixpoint nearest_loop (river_geom : Geometry) (ps : list Sample) (idx : Z)
    (min_dist : efloat) (river_idx : Z) : Z :=
  match ps with
  | [] => river_idx
  | p :: ps' =>
      let dist := geom_distance (point p) river_geom in
      if lt_efloat dist min_dist
      then nearest_loop river_geom ps' (idx + 1) (Fin dist) idx
      else nearest_loop river_geom ps' (idx + 1) min_dist river_idx
  end.

(** Lines 229-239. *)
Definition locate_river_idx (river_geom : Geometry)
    (profile_points : list Sample) : Z :=
  if truthy river_geom then
    nearest_loop river_geom profile_points 0 Inf (len profile_points / 2)%Z
  else (len profile_points / 2)%Z.

(** [if x: bedrock_points.append(x)] *)
Definition append_if_found (bedrock_points : list BankPoint)
    (found : option BankPoint) : list BankPoint :=
  match found with
  | Some bp => bedrock_points ++ [bp]
  | None => bedrock_points
  end.

Section Analysis.

Variable river_geom : Geometry.
Variable height_threshold slope_threshold : R.
Variable min_consecutive : Z.
Variable point_spacing : R.

(** Lines 250-280: both sides of one profile, scanned away from
    [river_idx]. *)
Definition classify_sides (pid : Z) (profile_points : list Sample)
    (river_idx : Z) (river_elevation river_distance : R)
    (bedrock_points : list BankPoint) : result (list BankPoint) :=
  left_bedrock <-
    _find_bedrock_on_side
      (reversed (slice_to profile_points river_idx))
      river_elevation height_threshold slope_threshold min_consecutive
      point_spacing "left"%string pid river_distance ;;
  let bedrock_points := append_if_found bedrock_points left_bedrock in
  right_bedrock <-
    _find_bedrock_on_side
      (slice_from profile_points (river_idx + 1))
      river_elevation height_threshold slope_threshold min_consecutive
      point_spacing "right"%string pid river_distance ;;
  Ok (append_if_found bedrock_points right_bedrock).

(** Lines 222-280: the body of the loop over [profiles.items()], as a
    transformer of [bedrock_points]. *)
Definition analyze_profile (pid : Z) (profile_points : list Sample)
    (bedrock_points : list BankPoint) : result (list BankPoint) :=
  if (len profile_points <? min_consecutive + 1)%Z then Ok bedrock_points
  else
    let profile_points := sort_by_distance profile_points in
    let river_idx := locate_river_idx river_geom profile_points in
    river_point <- getitem profile_points river_idx ;;
    let river_elevation := elevation river_point in
    let river_distance :=
      if truthy river_geom
      then lineLocatePoint river_geom (point river_point)
      else 0%R in
    classify_sides pid profile_points river_idx river_elevation
      river_distance bedrock_points.

(** Lines 221-282. *)
Fixpoint analyze_profiles (profiles : profiles_dict)
    (bedrock_points : list BankPoint) : result (list BankPoint) :=
  match profiles with
  | [] => Ok bedrock_points
  | (pid, profile_points) :: rest =>
      bedrock_points <- analyze_profile pid profile_points bedrock_points ;;
      analyze_profiles rest bedrock_points
  end.

End Analysis.

Definition _analyze_transects_for_bedrock
    (points_layer : list Feature) (rivers_layer : list Geometry)
    (height_threshold slope_threshold : R) (min_consecutive : Z)
    (point_spacing : R) : result (list BankPoint) :=
  match river_geometry rivers_layer with
  | None => Ok []
  | Some river_geom =>
      analyze_profiles river_geom height_threshold slope_threshold
        min_consecutive point_spacing (group_profiles points_layer) []
  end.

(** ** The pipeline around the analysis *)

Inductive QVariantType : Type := Double | String_ | Int.

Inductive QVariant : Type :=
| VDouble (r : R)
| VString (s : string)
| VInt (z : Z).

Record QgsFeature : Type := mkQgsFeature {
  feature_geometry : Point;
  attributes : list QVariant
}.

(** A vector layer: a memory layer holds its fields and features, an OGR
    layer is backed by the file at its path. *)
Inductive QgsVectorLayer : Type :=
| MemoryLayer (uri base_name : string)
    (fields : list (string * QVariantType)) (features : list QgsFeature)
| OgrLayer (path base_name : string).

(** Lines 358-396. *)
Definition _create_points_layer (bedrock_points : list BankPoint)
  : QgsVectorLayer :=
  MemoryLayer "Point?crs=EPSG:3857" "bedrock_points"
    [("elevation"%string, Double); ("height_diff"%string, Double);
     ("side"%string, String_); ("profile_id"%string, Int);
     ("distance_along"%string, Double)]
    (map (fun point_data =>
            {| feature_geometry := bp_point point_data;
               attributes :=
                 [VDouble (bp_elevation point_data);
                  VDouble (height_diff point_data);
                  VString (side point_data);
                  VInt (bp_profile_id point_data);
                  VDouble (distance_along point_data)] |})
         bedrock_points).

(** The processing algorithms and the formatting of numbers belong to the
    engine and the interpreter. *)
Variable QgsRasterLayer TransectsLayer PointsLayer : Type.
(** INPUT, LENGTH, ANGLE, SIDE, DISTANCE *)
Variable native_transect :
  list Geometry -> R -> R -> Z -> R -> result TransectsLayer.
(** INPUT, DISTANCE, START_OFFSET, END_OFFSET *)
Variable native_pointsalonglines :
  TransectsLayer -> R -> Z -> Z -> result PointsLayer.
(** INPUT, RASTERCOPY, COLUMN_PREFIX *)
Variable native_rastersampling :
  PointsLayer -> QgsRasterLayer -> string -> result (list Feature).
(** INPUT, ORDER_FIELD, GROUP_FIELD *)
Variable native_pointstopath :
  QgsVectorLayer -> string -> string -> result QgsVectorLayer.
(** INPUT, ITERATIONS, OFFSET, MAX_ANGLE, OUTPUT *)
Variable native_smoothgeometry :
  QgsVectorLayer -> Z -> R -> Z -> string -> result unit.
Variable format_float : R -> string.
Variable format_int : Z -> string.

(** Lines 21-160; the value carries what was printed and the layer returned. *)
Definition detect_bedrock_banks
    (rivers_layer : list Geometry) (dem_layer : QgsRasterLayer)
    (output_path : string)
    (buffer_distance height_threshold slope_threshold : R)
    (transect_spacing point_spacing : R) (min_consecutive : Z)
  : result (list string * QgsVectorLayer) :=
  let stdout :=
    ["Начало выделения коренных берегов с параметрами:";
     "  buffer_distance=" ++ format_float buffer_distance ++ "м";
     "  height_threshold=" ++ format_float height_threshold ++ "м";
     "  slope_threshold=" ++ format_float slope_threshold ++ "°";
     "Создание поперечных профилей..."]%string in
  transects_layer <-
    native_transect rivers_layer buffer_distance 90 2 transect_spacing ;;
  let stdout := stdout ++ ["Создание точек вдоль профилей..."%string] in
  points_layer <-
    native_pointsalonglines transects_layer point_spacing 0 0 ;;
  let stdout := stdout ++ ["Извлечение высот из DEM..."%string] in
  points_with_z <- native_rastersampling points_layer dem_layer "elev_" ;;
  let stdout :=
    stdout ++ ["Анализ профилей и поиск коренных берегов..."%string] in
  bedrock_points <-
    _analyze_transects_for_bedrock points_with_z rivers_layer
      height_threshold slope_threshold min_consecutive point_spacing ;;
  match bedrock_points with
  | [] =>
      let stdout := stdout ++ ["Коренные берега не обнаружены"%string] in
      let empty_layer :=
        MemoryLayer "LineString?crs=EPSG:3857" "bedrock_banks" [] [] in
      Ok (stdout, empty_layer)
  | _ :: _ =>
      let stdout :=
        stdout ++
        [("Найдено " ++ format_int (len bedrock_points)
          ++ " точек коренных берегов")%string] in
      let bedrock_points_layer := _create_points_layer bedrock_points in
      let stdout := stdout ++ ["Соединение точек в линию..."%string] in
      bedrock_line_layer <-
        native_pointstopath bedrock_points_layer "distance_along" "side" ;;
      let stdout := stdout ++ ["Сглаживание линии..."%string] in
      _ <- native_smoothgeometry bedrock_line_layer 5 0.25 180 output_path ;;
      let bedrock_banks_layer := OgrLayer output_path "bedrock_banks" in
      let stdout :=
        stdout ++ ["Выделение коренных берегов завершено"%string] in
      Ok (stdout, bedrock_banks_layer)
  end.

(** [layers/bedrock_banks_layer.py], lines 12-43: the call leaves
    [transect_spacing], [point_spacing] and [min_consecutive] to the defaults
    of [detect_bedrock_banks] (75.0, 15.0 and 3). *)
Definition build_bedrock_banks_layer
    (rivers_layer : list Geometry) (dem_layer : QgsRasterLayer)
    (output_path : string)
    (buffer_distance height_threshold slope_threshold : R)
  : result (list string * QgsVectorLayer) :=
  detect_bedrock_banks rivers_layer dem_layer output_path buffer_distance
    height_threshold slope_threshold 75 15 3.

End BedrockBanks.

Arguments Sample : clear implicits.
Arguments BankPoint : clear implicits.
Arguments Feature : clear implicits.

(** ** The criteria of the bank classifier, as the specification words them *)

Section Criteria.

Variable Point : Type.
Variable points : list (Sample Point).
Variable river_elevation height_threshold slope_threshold : R.
Variable min_consecutive : Z.
Variable point_spacing : R.

(** The sample at scan index [i], when there is one. *)
Definition sample_at (i : Z) : option (Sample Point) :=
  if (i <? 0)%Z then None else nth_error points (Z.to_nat i).

(** Criterion 1: the sample exists and rises at least [height_threshold]
    above the anchor. *)
Definition height_criterion (i : Z) : Prop :=
  exists s, sample_at i = Some s /\
            (elevation s - river_elevation >= height_threshold)%R.

(** Criterion 2: for [i > 0] the slope from the preceding sample, in degrees,
    is at least [slope_threshold]; nothing is asked at [i = 0]. *)
Definition slope_criterion (i : Z) : Prop :=
  (i > 0)%Z ->
  exists cur prev,
    sample_at i = Some cur /\ sample_at (i - 1) = Some prev /\
    (degrees (atan ((elevation cur - elevation prev) / point_spacing))
     >= slope_threshold)%R.

(** Criterion 3: each of the [min_consecutive - 1] following samples exists
    and passes the height criterion. *)
Definition stability_criterion (i : Z) : Prop :=
  forall j, (1 <= j <= min_consecutive - 1)%Z -> height_criterion (i + j).

Definition qualifies (i : Z) : Prop :=
  (0 <= i)%Z /\ height_criterion i /\ slope_criterion i /\
  stability_criterion i.

(** The bank point reported for the sample [current]. *)
Definition bank_point_of (current : Sample Point) (side_tag : string)
    (pid : Z) (river_distance : R) : BankPoint Point :=
  {| bp_point := point current;
     bp_elevation := elevation current;
     height_diff := (elevation current - river_elevation)%R;
     side := side_tag;
     bp_profile_id := pid;
     distance_along := river_distance |}.

End Criteria.

(** A profile whose elevations mirror each other about the index [a]: the
    samples [k] places before and after [a] are both missing or have the same
    elevation. *)
Definition symmetric_about (Point : Type) (profile : list (Sample Point))
    (a : Z) : Prop :=
  forall k, (1 <= k)%Z ->
    option_map (@elevation Point) (sample_at profile (a - k))
    = option_map (@elevation Point) (sample_at profile (a + k)).

(** ** Grouping and anchoring, as the specification words them *)

Section Specification.

Variable Point : Type.

(** An ordered list of optional values tried in sequence, stopping at the
    first present one. *)
Fixpoint first_present (candidates : list (option Z)) (fallback : Z) : Z :=
  match candidates with
  | [] => fallback
  | Some v :: _ => v
  | None :: rest => first_present rest fallback
  end.

(** A feature carries an elevation: the attribute is present and is not the
    NODATA sentinel. *)
Definition has_elevation (feature : Feature Point) : bool :=
  match attr_elev_1 feature with
  | Some e => negb (Reqb e (-9999))
  | None => false
  end.

(** The sample made from a feature that carries an elevation. *)
Definition valid_sample (feature : Feature Point) : option (Sample Point) :=
  match attr_elev_1 feature with
  | Some e =>
      if Reqb e (-9999) then None
      else Some {| point := geometry feature;
                   elevation := e;
                   distance := attr_distance feature;
                   profile_id := feature_profile_id feature |}
  | None => None
  end.

(** The samples of transect [pid], in the order of the input. *)
Definition samples_of (pid : Z) (features : list (Feature Point))
  : list (Sample Point) :=
  flat_map
    (fun f =>
       if (feature_profile_id f =? pid)%Z then
         match valid_sample f with
         | Some s => [s]
         | None => []
         end
       else [])
    features.

(** Ascending along-transect offsets. *)
Definition by_distance (s1 s2 : Sample Point) : Prop :=
  (distance s1 <= distance s2)%R.

(** [idx] is the first position of [profile] at which the distance [dist] to
    the centerline is least. *)
Definition first_nearest (dist : Point -> R) (profile : list (Sample Point))
    (idx : Z) : Prop :=
  exists s,
    sample_at profile idx = Some s /\
    (forall k s', sample_at profile k = Some s' ->
                  (dist (point s) <= dist (point s'))%R) /\
    (forall k s', (k < idx)%Z -> sample_at profile k = Some s' ->
                  (dist (point s) < dist (point s'))%R).

(** The bank points of one sorted profile when no centerline is supplied,
    following sections 4.2 and 4.3 of the specification: the anchor is the
    sample at the midpoint index and the along-river distance is 0. *)
Definition midpoint_anchored_banks (height_threshold slope_threshold : R)
    (min_consecutive : Z) (point_spacing : R) (pid : Z)
    (profile : list (Sample Point)) : result (list (BankPoint Point)) :=
  let anchor := (len profile / 2)%Z in
  river_point <- getitem profile anchor ;;
  classify_sides height_threshold slope_threshold min_consecutive
    point_spacing pid profile anchor (elevation river_point) 0 [].

End Specification.

(** ** The underground channel: [src/river/underground_channel.py] *)

Section UndergroundChannel.

Variable Point Geometry : Type.
Variable QgsRasterLayer BufferLayer GridLayer HullLayer QgsRectangle : Type.

(** The output of [qgis:basicstatisticsforfields], with the two entries the
    module reads. *)
Record FieldStatistics : Type := mkFieldStatistics {
  stat_MIN : R;
  stat_MAX : R
}.

(** INPUT, DISTANCE, SEGMENTS, END_CAP_STYLE, JOIN_STYLE, MITER_LIMIT,
    DISSOLVE *)
Variable native_buffer :
  list Geometry -> R -> Z -> Z -> Z -> Z -> bool -> result BufferLayer.
(** [buffer_layer.extent()] *)
Variable layer_extent : BufferLayer -> QgsRectangle.
(** INPUT_RASTER, RASTER_BAND, FIELD_NAME *)
Variable native_pixelstopoints :
  QgsRasterLayer -> Z -> string -> result GridLayer.
(** INPUT, OVERLAY *)
Variable native_clip : GridLayer -> BufferLayer -> result GridLayer.
(** INPUT_LAYER, FIELD_NAME *)
Variable qgis_basicstatisticsforfields :
  GridLayer -> string -> result FieldStatistics.
(** INPUT, EXPRESSION *)
Variable native_extractbyexpression :
  GridLayer -> string -> result GridLayer.
(** INPUT, ALPHA, HOLES, NO_MULTIGEOMETRY *)
Variable qgis_concavehull :
  GridLayer -> R -> bool -> bool -> result HullLayer.
(** INPUT, ITERATIONS, OFFSET, MAX_ANGLE, OUTPUT *)
Variable smooth_hull : HullLayer -> Z -> R -> Z -> string -> result unit.
Variable format_threshold : R -> string.

(** Line 96. *)
Definition percentile_30 (stats_result : FieldStatistics) : R :=
  (stat_MIN stats_result
   + (stat_MAX stats_result - stat_MIN stats_result) * 0.3)%R.

(** The double-quote character of the expression at line 103. *)
Definition double_quote : string :=
  String (Ascii.ascii_of_nat 34) EmptyString.

(** Line 103: the f-string handed to [native:extractbyexpression]. *)
Definition low_elevation_expression (threshold : R) : string :=
  (double_quote ++ "elevation" ++ double_quote ++ " <= "
   ++ format_threshold threshold)%string.

(** Lines 15-141. *)
Definition detect_underground_channel
    (rivers_layer : list Geometry) (dem_layer : QgsRasterLayer)
    (output_path : string) (buffer_distance : R)
  : result (QgsVectorLayer Point) :=
  buffer_layer <-
    native_buffer rivers_layer buffer_distance 20 0 0 2 true ;;
  let extent := layer_extent buffer_layer in
  let spacing := 10%Z in
  grid_points <- native_pixelstopoints dem_layer 1 "elevation" ;;
  points_in_buffer <- native_clip grid_points buffer_layer ;;
  stats_result <-
    qgis_basicstatisticsforfields points_in_buffer "elevation" ;;
  let threshold := percentile_30 stats_result in
  low_points <-
    native_extractbyexpression points_in_buffer
      (low_elevation_expression threshold) ;;
  channel_hull <- qgis_concavehull low_points 0.5 true false ;;
  _ <- smooth_hull channel_hull 5 0.25 180 output_path ;;
  let underground_channel_layer :=
    OgrLayer Point output_path "underground_channel_raw" in
  Ok underground_channel_layer.

End UndergroundChannel.

(** ** What the analysis reports *)

Section Reports.

Variable Point : Type.

(** [bp] is a bank point of transect [pid] taken from [profile]: its position
    and elevation are those of a sample of the profile, its height is
    measured from another sample of the profile, the anchor, and is at least
    [height_threshold], and its along-river distance is the one computed
    from the anchor. *)
Definition bank_of_profile (height_threshold : R)
    (along_river : Sample Point -> R) (pid : Z)
    (profile : list (Sample Point)) (bp : BankPoint Point) : Prop :=
  exists anchor s,
    In anchor profile /\ In s profile /\
    bp_point bp = point s /\
    bp_elevation bp = elevation s /\
    height_diff bp = (elevation s - elevation anchor)%R /\
    (height_diff bp >= height_threshold)%R /\
    bp_profile_id bp = pid /\
    distance_along bp = along_river anchor.

(** Nothing, one bank point, or a left bank point followed by a right one. *)
Definition one_per_side (found : list (BankPoint Point)) : Prop :=
  found = [] \/
  (exists b, found = [b] /\
             (side b = "left"%string \/ side b = "right"%string)) \/
  (exists bl br, found = [bl; br] /\
                 side bl = "left"%string /\ side br = "right"%string).

End Reports.

(** ** Sample data *)

(** A geometry engine for a run without any river feature. *)
Definition no_combine (a b : unit) : unit := tt.
Definition always_truthy (g : unit) : bool := true.
Definition zero_distance (p : unit) (g : unit) : R := 0%R.
Definition zero_locate (g : unit) (p : unit) : R := 0%R.

(** Five sampled points of transect 1: flat up to the middle, then a rise. *)
Definition rising_layer : list (Feature unit) :=
  [mkFeature (Some 1%Z) None None 10 tt (Some 100%R) 0;
   mkFeature (Some 1%Z) None None 11 tt (Some 100%R) 15;
   mkFeature (Some 1%Z) None None 12 tt (Some 100%R) 30;
   mkFeature (Some 1%Z) None None 13 tt (Some 104%R) 45;
   mkFeature (Some 1%Z) None None 14 tt (Some 105%R) 60].

Definition rising_profile : list (Sample unit) :=
  [mkSample tt 100 0 1; mkSample tt 100 15 1; mkSample tt 100 30 1;
   mkSample tt 104 45 1; mkSample tt 105 60 1].

(** Three sampled points of transect 4, two of them without an elevation. *)
Definition gappy_layer : list (Feature unit) :=
  [mkFeature (Some 4%Z) None None 20 tt (Some (-9999)%R) 0;
   mkFeature (Some 4%Z) None None 21 tt None 15;
   mkFeature (Some 4%Z) None None 22 tt (Some 100%R) 30].

(** Processing algorithms that always succeed, on layers without content. *)
Definition ok_transect (rivers : list unit) (length angle : R) (side : Z)
    (spacing : R) : result unit := Ok tt.
Definition ok_pointsalonglines (transects : unit) (spacing : R)
    (start_offset end_offset : Z) : result unit := Ok tt.
Definition ok_rastersampling (points dem : unit) (prefix : string)
  : result (list (Feature unit)) := Ok rising_layer.
Definition ok_pointstopath (layer : QgsVectorLayer unit)
    (order_field group_field : string) : result (QgsVectorLayer unit) :=
  Ok layer.
Definition ok_smoothgeometry (layer : QgsVectorLayer unit) (iterations : Z)
    (offset : R) (max_angle : Z) (output : string) : result unit := Ok tt.
Definition plain_float (x : R) : string := "x".
Definition plain_int (n : Z) : string := "n".

(** A profile of five samples, symmetric about its middle sample. *)
Definition symmetric_profile : list (Sample unit) :=
  [mkSample tt 105 0 1; mkSample tt 104 15 1; mkSample tt 100 30 1;
   mkSample tt 104 45 1; mkSample tt 105 60 1].

(** Four sampled points of transect 2 with a steep rise after the first, and
    the profile they make. *)
Definition steep_layer : list (Feature unit) :=
  [mkFeature (Some 2%Z) None None 30 tt (Some 100%R) 0;
   mkFeature (Some 2%Z) None None 31 tt (Some 110%R) 15;
   mkFeature (Some 2%Z) None None 32 tt (Some 111%R) 30;
   mkFeature (Some 2%Z) None None 33 tt (Some 112%R) 45].

Definition steep_profile : list (Sample unit) :=
  [mkSample tt 100 0 2; mkSample tt 110 15 2; mkSample tt 111 30 2;
   mkSample tt 112 45 2].

(** The samples of [steep_profile] after its first. *)
Definition steep_side : list (Sample unit) :=
  [mkSample tt 110 15 2; mkSample tt 111 30 2; mkSample tt 112 45 2].

(** The sampled points that make [symmetric_profile], and a geometry test
    that always answers false. *)
Definition symmetric_layer : list (Feature unit) :=
  [mkFeature (Some 1%Z) None None 40 tt (Some 105%R) 0;
   mkFeature (Some 1%Z) None None 41 tt (Some 104%R) 15;
   mkFeature (Some 1%Z) None None 42 tt (Some 100%R) 30;
   mkFeature (Some 1%Z) None None 43 tt (Some 104%R) 45;
   mkFeature (Some 1%Z) None None 44 tt (Some 105%R) 60].
Definition never_truthy (g : unit) : bool := false.

(** A sampling step that returns [steep_layer], and a transect step that
    fails with an [IndexError]. *)
Definition steep_rastersampling (points dem : unit) (prefix : string)
  : result (list (Feature unit)) := Ok steep_layer.
Definition failing_transect (rivers : list unit) (length angle : R)
    (side : Z) (spacing : R) : result unit := Raise IndexError.

(** Processing algorithms of the underground-channel pipeline that always
    succeed; the statistics report elevations between 90 and 130. *)
Definition ok_buffer (rivers : list unit) (distance : R)
    (segments cap join miter : Z) (dissolve : bool) : result unit := Ok tt.
Definition unit_extent (layer : unit) : unit := tt.
Definition ok_pixelstopoints (dem : unit) (band : Z) (field : string)
  : result unit := Ok tt.
Definition ok_clip (points overlay : unit) : result unit := Ok tt.
Definition ok_statistics (points : unit) (field : string)
  : result FieldStatistics := Ok (mkFieldStatistics 90 130).
Definition ok_extract (points : unit) (expression : string) : result unit :=
  Ok tt.
Definition ok_concavehull (points : unit) (alpha : R) (holes single : bool)
  : result unit := Ok tt.
Definition ok_smooth_hull (hull : unit) (iterations : Z) (offset : R)
    (max_angle : Z) (output : string) : result unit := Ok tt.

(** * Properties *)

(** ** The run-time model *)

Lemma Rltb_true (x y : R) : (x < y)%R -> Rltb x y = true.
Proof. intros H. unfold Rltb. destruct (Rlt_dec x y); [reflexivity | contradiction]. Qed.

Lemma Rltb_false (x y : R) : (x >= y)%R -> Rltb x y = false.
Proof. intros H. unfold Rltb. destruct (Rlt_dec x y); [lra | reflexivity]. Qed.

Lemma Rltb_true_inv (x y : R) : Rltb x y = true -> (x < y)%R.
Proof. unfold Rltb. destruct (Rlt_dec x y); [trivial | discriminate]. Qed.

Lemma Rltb_false_inv (x y : R) : Rltb x y = false -> (x >= y)%R.
Proof. unfold Rltb. destruct (Rlt_dec x y); [discriminate | lra]. Qed.

Lemma len_nonneg {A : Type} (l : list A) : (0 <= len l)%Z.
Proof. unfold len. lia. Qed.

Lemma range_nil (a b : Z) : (b <= a)%Z -> range a b = [].
Proof.
  intros H. unfold range.
  replace (Z.to_nat (b - a)) with 0%nat by lia. reflexivity.
Qed.

Lemma range_cons (a b : Z) : (a < b)%Z -> range a b = a :: range (a + 1) b.
Proof.
  intros H. unfold range.
  replace (Z.to_nat (b - a)) with (S (Z.to_nat (b - (a + 1)))) by lia.
  cbn [seq map]. f_equal; [lia |].
  rewrite <- seq_shift, map_map.
  apply map_ext. intros k. lia.
Qed.

Lemma In_range (a b k : Z) : In k (range a b) <-> (a <= k < b)%Z.
Proof.
  unfold range. rewrite in_map_iff. split.
  - intros (n & <- & Hn). apply in_seq in Hn. lia.
  - intros H. exists (Z.to_nat (k - a)). split; [lia |].
    apply in_seq. lia.
Qed.

(** Induction over the integer interval [[a, b)], from the left. *)
Lemma range_ind (P : Z -> Z -> Prop) :
  (forall a b, (b <= a)%Z -> P a b) ->
  (forall a b, (a < b)%Z -> P (a + 1)%Z b -> P a b) ->
  forall a b, P a b.
Proof.
  intros Hnil Hcons a b.
  remember (Z.to_nat (b - a)) as n eqn:Hn.
  revert a Hn. induction n as [| n IH]; intros a Hn.
  - apply Hnil. lia.
  - apply Hcons; [lia |]. apply IH. lia.
Qed.

Section SideFacts.

Variable Point : Type.
Variable points : list (Sample Point).

Lemma getitem_sample_at (i : Z) (s : Sample Point) :
  (0 <= i)%Z -> sample_at points i = Some s -> getitem points i = Ok s.
Proof.
  intros Hi. unfold sample_at, getitem.
  destruct (i <? 0)%Z eqn:E; [lia |]. rewrite E.
  intros ->. reflexivity.
Qed.

Lemma sample_at_in_range (i : Z) :
  (0 <= i < len points)%Z -> exists s, sample_at points i = Some s.
Proof.
  intros Hi. unfold sample_at.
  destruct (i <? 0)%Z eqn:E; [lia |].
  destruct (nth_error points (Z.to_nat i)) as [s |] eqn:Hn; [eauto |].
  apply nth_error_None in Hn. unfold len in Hi. lia.
Qed.

Lemma sample_at_Some_range (i : Z) (s : Sample Point) :
  sample_at points i = Some s -> (0 <= i < len points)%Z.
Proof.
  unfold sample_at. destruct (i <? 0)%Z eqn:E; [discriminate |].
  intros H. assert (Hn : nth_error points (Z.to_nat i) <> None) by congruence.
  apply nth_error_Some in Hn. unfold len. lia.
Qed.

Lemma getitem_out_of_range (i : Z) :
  (len points <= i)%Z -> getitem points i = Raise IndexError.
Proof.
  intros Hi. pose proof (len_nonneg points) as Hl. unfold getitem.
  destruct (i <? 0)%Z eqn:E; [lia |]. rewrite E.
  destruct (nth_error points (Z.to_nat i)) eqn:Hn; [| reflexivity].
  assert (Hs : nth_error points (Z.to_nat i) <> None) by congruence.
  apply nth_error_Some in Hs. unfold len in Hi. lia.
Qed.

End SideFacts.

(** ** The bank classifier *)

Section ClassifierFacts.

Variable Point : Type.
Variable points : list (Sample Point).
Variable river_elevation height_threshold slope_threshold : R.
Variable min_consecutive : Z.
Variable point_spacing : R.
Variable side_tag : string.
Variable pid : Z.
Variable river_distance : R.

Local Abbreviation height_ok :=
  (height_criterion points river_elevation height_threshold).
Local Abbreviation slope_ok :=
  (slope_criterion points slope_threshold point_spacing).
Local Abbreviation stable_ok :=
  (stability_criterion points river_elevation height_threshold
     min_consecutive).
Local Abbreviation qualifying :=
  (qualifies points river_elevation height_threshold slope_threshold
     min_consecutive point_spacing).
Local Abbreviation bank s :=
  (bank_point_of river_elevation s side_tag pid river_distance).
Local Abbreviation candidate_at :=
  (candidate points river_elevation height_threshold slope_threshold
     min_consecutive point_spacing side_tag pid river_distance).
Local Abbreviation scan_over :=
  (scan points river_elevation height_threshold slope_threshold
     min_consecutive point_spacing side_tag pid river_distance).
Local Abbreviation find_bedrock :=
  (_find_bedrock_on_side points river_elevation height_threshold
     slope_threshold min_consecutive point_spacing side_tag pid
     river_distance).

(** What each exit of the stability loop means. *)
Lemma stability_loop_spec (i : Z) :
  (0 <= i)%Z ->
  forall a b, (1 <= a)%Z ->
  match stability_loop points river_elevation height_threshold i (range a b) with
  | Ok Stable => forall j, (a <= j < b)%Z -> height_ok (i + j)%Z
  | Ok RanOffEnd => exists j, (a <= j < b)%Z /\ (len points <= i + j)%Z
  | Ok FellBelow =>
      exists j s, (a <= j < b)%Z /\ sample_at points (i + j) = Some s /\
                  (elevation s - river_elevation < height_threshold)%R
  | Raise _ => False
  end.
Proof.
  intros Hi a b. pattern a, b. apply range_ind; clear a b.
  - intros a b Hab _. rewrite range_nil by assumption. cbn. intros j Hj. lia.
  - intros a b Hab IH Ha. rewrite range_cons by assumption.
    cbn [stability_loop].
    destruct (i + a >=? len points)%Z eqn:Hge.
    + exists a. split; lia.
    + destruct (sample_at_in_range points (i := i + a)) as [s Hs]; [lia |].
      rewrite (getitem_sample_at points (i := i + a) (s := s)) by (lia || assumption).
      cbn [bind].
      destruct (Rltb (elevation s - river_elevation) height_threshold) eqn:Hlt.
      * exists a, s. repeat split; try lia; [assumption |].
        now apply Rltb_true_inv.
      * specialize (IH ltac:(lia)).
        destruct (stability_loop points river_elevation height_threshold i
                    (range (a + 1) b)) as [[| |] | e].
        -- intros j Hj. destruct (Z.eq_dec j a) as [-> | Hne].
           ++ exists s. split; [assumption | now apply Rltb_false_inv].
           ++ apply IH. lia.
        -- destruct IH as (j & Hj & Hlen). exists j. split; lia.
        -- destruct IH as (j & s' & Hj & Hs' & Hlt').
           exists j, s'. repeat split; try lia; assumption.
        -- exact IH.
Qed.

(** The stability loop accepts exactly when criterion 3 holds. *)
Lemma stability_loop_stable_iff (i : Z) :
  (0 <= i)%Z ->
  stability_loop points river_elevation height_threshold i
    (range 1 min_consecutive) = Ok Stable <-> stable_ok i.
Proof.
  intros Hi.
  pose proof (stability_loop_spec Hi (a := 1) min_consecutive ltac:(lia)) as H.
  split.
  - intros E. rewrite E in H. intros j Hj. apply H. lia.
  - intros Hst.
    destruct (stability_loop points river_elevation height_threshold i
                (range 1 min_consecutive)) as [[| |] | e].
    + reflexivity.
    + exfalso. destruct H as (j & Hj & Hlen).
      destruct (Hst j ltac:(lia)) as (s & Hs & _).
      apply sample_at_Some_range in Hs. lia.
    + exfalso. destruct H as (j & s & Hj & Hs & Hlt).
      destruct (Hst j ltac:(lia)) as (s' & Hs' & Hge).
      rewrite Hs in Hs'. injection Hs' as <-. lra.
    + contradiction.
Qed.

(** The slope test rejects exactly when criterion 2 fails; it raises only on
    a zero spacing. *)
Lemma slope_rejects_spec (i : Z) (current : Sample Point) :
  (0 <= i)%Z -> sample_at points i = Some current ->
  match slope_rejects points slope_threshold point_spacing i current with
  | Ok false => slope_ok i
  | Ok true => ~ slope_ok i
  | Raise e => e = ZeroDivisionError /\ point_spacing = 0%R /\ (i > 0)%Z
  end.
Proof.
  intros Hi Hcur. unfold slope_rejects.
  destruct (i >? 0)%Z eqn:Hpos.
  - pose proof (sample_at_Some_range _ _ Hcur) as Hr.
    destruct (sample_at_in_range points (i := i - 1)) as [prev Hprev]; [lia |].
    rewrite (getitem_sample_at points (i := i - 1) (s := prev)) by (lia || assumption).
    cbn [bind]. unfold truediv.
    destruct (Req_dec_T point_spacing 0) as [Hz | Hnz]; cbn [bind].
    + repeat split; [assumption | lia].
    + destruct (Rltb _ slope_threshold) eqn:Hlt.
      * intros Hs. destruct (Hs ltac:(lia)) as (c & p & Hc & Hp & Hge).
        rewrite Hcur in Hc. injection Hc as <-.
        rewrite Hprev in Hp. injection Hp as <-.
        apply Rltb_true_inv in Hlt. lra.
      * intros _. exists current, prev. repeat split; try assumption.
        now apply Rltb_false_inv.
  - intros Hgt. lia.
Qed.

(** One iteration of the scan, at an index inside the list. *)
Lemma candidate_spec (i : Z) :
  (0 <= i < len points)%Z ->
  match candidate_at i with
  | Ok (Some bp) =>
      qualifying i /\ exists s, sample_at points i = Some s /\ bp = bank s
  | Ok None => ~ qualifying i
  | Raise e => e = ZeroDivisionError /\ point_spacing = 0%R
  end.
Proof.
  intros Hi. unfold candidate.
  destruct (sample_at_in_range points Hi) as [s Hs].
  rewrite (getitem_sample_at points (i := i) (s := s)) by (lia || assumption).
  cbn [bind].
  destruct (Rltb (elevation s - river_elevation) height_threshold) eqn:Hh.
  - intros (_ & (s' & Hs' & Hge) & _). rewrite Hs in Hs'. injection Hs' as <-.
    apply Rltb_true_inv in Hh. lra.
  - apply Rltb_false_inv in Hh.
    pose proof (slope_rejects_spec (i := i) ltac:(lia) Hs) as Hsl.
    destruct (slope_rejects points slope_threshold point_spacing i s)
      as [[|] | e]; cbn [bind].
    + intros (_ & _ & Hq & _). contradiction.
    + pose proof (stability_loop_stable_iff (i := i) ltac:(lia)) as Hst.
      pose proof (stability_loop_spec (i := i) ltac:(lia) (a := 1)
                    min_consecutive ltac:(lia)) as Hno.
      destruct (stability_loop points river_elevation height_threshold i
                  (range 1 min_consecutive)) as [st | e]; cbn [bind].
      * destruct st; cbn [is_stable].
        -- split.
           ++ repeat split; try lia; try assumption.
              ** exists s. split; assumption.
              ** apply Hst. reflexivity.
           ++ exists s. split; [assumption | reflexivity].
        -- intros (_ & _ & _ & Hq). apply Hst in Hq. discriminate.
        -- intros (_ & _ & _ & Hq). apply Hst in Hq. discriminate.
      * contradiction.
    + destruct Hsl as (He & Hz & _). split; assumption.
Qed.

(** The scan over [[a, b)]: the first qualifying index is returned, nothing
    is returned when none qualifies, and an exception has one of two causes. *)
Lemma scan_spec (a b : Z) :
  (0 <= a)%Z ->
  match scan_over (range a b) with
  | Ok (Some bp) =>
      exists i s, (a <= i < b)%Z /\ sample_at points i = Some s /\
                  qualifying i /\
                  (forall k, (a <= k < i)%Z -> ~ qualifying k) /\
                  bp = bank s
  | Ok None => forall k, (a <= k < b)%Z -> (k < len points)%Z /\ ~ qualifying k
  | Raise e =>
      (e = ZeroDivisionError /\ point_spacing = 0%R) \/
      (e = IndexError /\ (len points < b)%Z /\
       forall k, (a <= k < len points)%Z -> ~ qualifying k)
  end.
Proof.
  pattern a, b. apply range_ind; clear a b.
  - intros a b Hab _. rewrite range_nil by assumption. cbn. intros k Hk. lia.
  - intros a b Hab IH Ha. rewrite range_cons by assumption.
    cbn [scan]. specialize (IH ltac:(lia)).
    destruct (Z_lt_ge_dec a (len points)) as [Hin | Hout].
    + pose proof (candidate_spec (i := a) ltac:(lia)) as Hc.
      destruct (candidate_at a) as [[bp |] | e]; cbn [bind].
      * destruct Hc as (Hq & s & Hs & ->).
        exists a, s.
        split; [lia | split; [exact Hs | split; [exact Hq | split]]];
          [| reflexivity].
        intros k Hk. lia.
      * destruct (scan_over (range (a + 1) b)) as [[bp |] | e].
        -- destruct IH as (i & s & Hi & Hs & Hq & Hmin & ->).
           exists i, s.
           split; [lia | split; [exact Hs | split; [exact Hq | split]]];
             [| reflexivity].
           intros k Hk. destruct (Z.eq_dec k a) as [-> | Hne];
             [assumption | apply Hmin; lia].
        -- intros k Hk. destruct (Z.eq_dec k a) as [-> | Hne].
           ++ split; assumption.
           ++ apply IH. lia.
        -- destruct IH as [IH | (He & Hlen & Hnone)]; [left; exact IH |].
           right. split; [exact He | split; [exact Hlen |]].
           intros k Hk. destruct (Z.eq_dec k a) as [-> | Hne];
             [assumption | apply Hnone; lia].
      * left. exact Hc.
    + unfold candidate. rewrite getitem_out_of_range by lia. cbn [bind].
      right. split; [reflexivity | split; [lia |]].
      intros k Hk. lia.
Qed.

(** No index at or beyond the end of the scanned range qualifies. *)
Lemma beyond_range_not_qualifying (k : Z) :
  (1 <= min_consecutive)%Z ->
  (len points - min_consecutive + 1 <= k)%Z -> ~ qualifying k.
Proof.
  intros Hmc Hk (Hk0 & (s & Hs & _) & _ & Hst).
  apply sample_at_Some_range in Hs.
  destruct (Hst (min_consecutive - 1)%Z ltac:(lia)) as (s' & Hs' & _).
  apply sample_at_Some_range in Hs'. lia.
Qed.

(** The classifier, on every input. *)
Lemma find_bedrock_spec :
  match find_bedrock with
  | Ok (Some bp) =>
      exists i s, (0 <= i)%Z /\
                  (i + (min_consecutive - 1) < len points)%Z /\
                  sample_at points i = Some s /\
                  qualifying i /\
                  (forall k, (0 <= k < i)%Z -> ~ qualifying k) /\
                  bp = bank s
  | Ok None => (1 <= min_consecutive)%Z /\ forall k, ~ qualifying k
  | Raise e =>
      (e = ZeroDivisionError /\ point_spacing = 0%R) \/
      (e = IndexError /\ (min_consecutive <= 0)%Z /\
       forall k, ~ qualifying k)
  end.
Proof.
  unfold _find_bedrock_on_side.
  pose proof (scan_spec (a := 0) (len points - min_consecutive + 1)
                ltac:(lia)) as H.
  pose proof (len_nonneg points) as Hl.
  destruct (scan_over (range 0 (len points - min_consecutive + 1)))
    as [[bp |] | e].
  - destruct H as (i & s & Hi & Hs & Hq & Hmin & ->).
    exists i, s.
    split; [lia | split; [lia | split; [exact Hs | split; [exact Hq |]]]].
    split; [| reflexivity].
    intros k Hk. apply Hmin. lia.
  - assert (Hmc : (1 <= min_consecutive)%Z).
    { destruct (Z_lt_ge_dec min_consecutive 1) as [Hlt | Hge]; [| lia].
      destruct (H (len points) ltac:(lia)) as [Hc _]. lia. }
    split; [assumption |].
    intros k Hq.
    destruct (Z_lt_ge_dec k (len points - min_consecutive + 1)) as [Hlt | Hge].
    + destruct Hq as (Hk0 & Hrest). apply (H k ltac:(lia)).
      split; assumption.
    + revert Hq. apply beyond_range_not_qualifying; lia.
  - destruct H as [H | (He & Hlt & Hnone)]; [left; exact H | right].
    split; [assumption | split; [lia |]].
    intros k (Hk0 & (s & Hs & Hh) & Hrest).
    pose proof (sample_at_Some_range _ _ Hs) as Hr.
    apply (Hnone k); [lia |].
    split; [assumption | split; [exists s; split; assumption | exact Hrest]].
Qed.

(** With a spacing other than zero, the first qualifying index decides the
    result. *)
Lemma find_bedrock_at (i : Z) (s : Sample Point) :
  point_spacing <> 0%R ->
  sample_at points i = Some s ->
  qualifying i ->
  (forall k, (0 <= k < i)%Z -> ~ qualifying k) ->
  find_bedrock = Ok (Some (bank s)).
Proof.
  intros Hps Hs Hq Hmin. pose proof find_bedrock_spec as H.
  destruct find_bedrock as [[bp |] | e].
  - destruct H as (i' & s' & Hi' & _ & Hs' & Hq' & Hmin' & ->).
    assert (Hi0 : (0 <= i)%Z) by (destruct Hq; assumption).
    assert (i' = i) as ->.
    { destruct (Z.lt_trichotomy i' i) as [Hlt | [Heq | Hgt]]; [| exact Heq |].
      - exfalso. apply (Hmin i'); [lia | exact Hq'].
      - exfalso. apply (Hmin' i); [lia | exact Hq]. }
    rewrite Hs in Hs'. injection Hs' as <-. reflexivity.
  - exfalso. destruct H as [_ H]. exact (H i Hq).
  - exfalso. destruct H as [[_ Hz] | (_ & _ & Hnone)];
      [contradiction | exact (Hnone i Hq)].
Qed.

(** When nothing qualifies, and no exception can occur, nothing is found. *)
Lemma find_bedrock_none :
  (1 <= min_consecutive)%Z ->
  point_spacing <> 0%R ->
  (forall k, ~ qualifying k) ->
  find_bedrock = Ok None.
Proof.
  intros Hmc Hps Hnone. pose proof find_bedrock_spec as H.
  destruct find_bedrock as [[bp |] | e].
  - exfalso. destruct H as (i & s & _ & _ & _ & Hq & _). exact (Hnone i Hq).
  - reflexivity.
  - exfalso. destruct H as [[_ Hz] | (_ & Hle & _)]; [contradiction | lia].
Qed.

End ClassifierFacts.

(** ** Slopes in degrees *)

Lemma tan_8_degrees_lt : (tan (2 * PI / 45) < 3 / 10)%R.
Proof.
  pose proof PI_RGT_0 as Hpos. pose proof PI_4 as H4.
  set (h := (PI / 45)%R).
  assert (Hh : (0 < h <= 4 / 45)%R) by (unfold h; lra).
  replace (2 * PI / 45)%R with (2 * h)%R by (unfold h; lra).
  assert (Hs1 : (sin h < h)%R) by (apply sin_lt_x; lra).
  assert (Hs0 : (0 < sin h)%R) by (apply sin_gt_0; unfold h; lra).
  assert (Hs2 : (sin (2 * h) < 2 * h)%R) by (apply sin_lt_x; lra).
  assert (Hc : cos (2 * h) = (1 - 2 * sin h * sin h)%R) by apply cos_2a_sin.
  assert (Hsq : (sin h * sin h < h * h)%R) by nra.
  assert (Hhh : (h * h <= 16 / 2025)%R) by nra.
  assert (Hcpos : (0 < cos (2 * h))%R) by lra.
  unfold tan. apply (Rmult_lt_reg_r (cos (2 * h))); [exact Hcpos |].
  unfold Rdiv at 1. rewrite Rmult_assoc, Rinv_l, Rmult_1_r by lra.
  lra.
Qed.

(** A rise of at least 3 in 10 is a slope of more than 8 degrees. *)
Lemma degrees_atan_ge_8 (q : R) : (3 / 10 <= q)%R -> (degrees (atan q) >= 8)%R.
Proof.
  intros Hq. pose proof PI_RGT_0 as Hpos.
  assert (Hlt : (2 * PI / 45 < atan q)%R).
  { rewrite <- (atan_tan (2 * PI / 45)) by lra.
    apply atan_increasing. pose proof tan_8_degrees_lt. lra. }
  unfold degrees.
  assert (He : 8%R = ((2 * PI / 45) * (180 / PI))%R) by (field; lra).
  rewrite He. apply Rle_ge, Rmult_le_compat_r; [| lra].
  apply Rlt_le, Rdiv_lt_0_compat; lra.
Qed.

(** ** The two sides of a profile *)

Section Sides.

Variable Point : Type.
Variable profile : list (Sample Point).
Variable a : Z.

(** Scan index [n] of the left side is the sample [n + 1] places before the
    anchor. *)
Lemma left_side_sample (n : Z) :
  (0 <= a <= len profile)%Z -> (0 <= n)%Z ->
  sample_at (reversed (slice_to profile a)) n
  = sample_at profile (a - 1 - n).
Proof.
  intros Ha Hn. unfold reversed, slice_to, slice_bound, sample_at.
  destruct (a <? 0)%Z eqn:Ea; [lia |].
  destruct (n <? 0)%Z eqn:En; [lia |].
  rewrite Z.min_l by lia.
  rewrite nth_error_rev.
  assert (Hlen : List.length (firstn (Z.to_nat a) profile) = Z.to_nat a).
  { apply firstn_length_le. unfold len in Ha. lia. }
  rewrite Hlen.
  destruct (Nat.ltb_spec (Z.to_nat n) (Z.to_nat a)) as [Hlt | Hge].
  - destruct (a - 1 - n <? 0)%Z eqn:E; [lia |].
    rewrite nth_error_firstn.
    destruct (Nat.ltb_spec (Z.to_nat a - S (Z.to_nat n)) (Z.to_nat a));
      [| lia].
    f_equal. lia.
  - destruct (a - 1 - n <? 0)%Z eqn:E; [reflexivity | lia].
Qed.

(** Scan index [n] of the right side is the sample [n + 1] places after the
    anchor. *)
Lemma right_side_sample (n : Z) :
  (0 <= a)%Z -> (0 <= n)%Z ->
  sample_at (slice_from profile (a + 1)) n = sample_at profile (a + 1 + n).
Proof.
  intros Ha Hn. unfold slice_from, slice_bound, sample_at.
  destruct (a + 1 <? 0)%Z eqn:Ea; [lia |].
  destruct (n <? 0)%Z eqn:En; [lia |].
  destruct (a + 1 + n <? 0)%Z eqn:E; [lia |].
  rewrite nth_error_skipn.
  destruct (Z_le_gt_dec (a + 1) (len profile)) as [Hle | Hgt].
  - rewrite Z.min_l by lia. f_equal. lia.
  - rewrite Z.min_r by lia.
    transitivity (@None (Sample Point)).
    + apply nth_error_None. unfold len. lia.
    + symmetry. apply nth_error_None. unfold len in Hgt. lia.
Qed.

Lemma sample_at_of_nat (l : list (Sample Point)) (n : nat) :
  sample_at l (Z.of_nat n) = nth_error l n.
Proof.
  unfold sample_at. destruct (Z.ltb_spec (Z.of_nat n) 0) as [E | E]; [lia |].
  now rewrite Nat2Z.id.
Qed.

(** On a symmetric profile both sides show the same elevations to the scan. *)
Lemma symmetric_sides_same_elevations :
  (0 <= a < len profile)%Z ->
  symmetric_about profile a ->
  map (@elevation Point) (reversed (slice_to profile a))
  = map (@elevation Point) (slice_from profile (a + 1)).
Proof.
  intros Ha Hsym. apply nth_error_ext. intros n.
  rewrite !nth_error_map, <- !sample_at_of_nat.
  rewrite left_side_sample, right_side_sample by lia.
  replace (a - 1 - Z.of_nat n)%Z with (a - (Z.of_nat n + 1))%Z by lia.
  replace (a + 1 + Z.of_nat n)%Z with (a + (Z.of_nat n + 1))%Z by lia.
  apply Hsym. lia.
Qed.

End Sides.

(** The criteria read elevations only. *)
Section SameElevations.

Variable Point : Type.
Variable l r : list (Sample Point).
Hypothesis Hsame : map (@elevation Point) l = map (@elevation Point) r.
Variable river_elevation height_threshold slope_threshold : R.
Variable min_consecutive : Z.
Variable point_spacing : R.

Lemma same_elevations_sample (i : Z) (s : Sample Point) :
  sample_at l i = Some s ->
  exists s', sample_at r i = Some s' /\ elevation s' = elevation s.
Proof.
  unfold sample_at. destruct (i <? 0)%Z; [discriminate |].
  intros Hs.
  assert (H : nth_error (map (@elevation Point) r) (Z.to_nat i)
              = Some (elevation s)).
  { rewrite <- Hsame, nth_error_map, Hs. reflexivity. }
  rewrite nth_error_map in H.
  destruct (nth_error r (Z.to_nat i)) as [s' |]; [| discriminate H].
  exists s'. split; [reflexivity |]. cbn in H. congruence.
Qed.

Lemma same_elevations_height (i : Z) :
  height_criterion l river_elevation height_threshold i ->
  height_criterion r river_elevation height_threshold i.
Proof.
  intros (s & Hs & Hge).
  destruct (same_elevations_sample _ Hs) as (s' & Hs' & He).
  exists s'. split; [exact Hs' | rewrite He; exact Hge].
Qed.

Lemma same_elevations_qualifies (i : Z) :
  qualifies l river_elevation height_threshold slope_threshold
    min_consecutive point_spacing i ->
  qualifies r river_elevation height_threshold slope_threshold
    min_consecutive point_spacing i.
Proof.
  intros (Hi & Hh & Hsl & Hst).
  split; [exact Hi | split; [| split]].
  - now apply same_elevations_height.
  - intros Hpos. destruct (Hsl Hpos) as (c & p & Hc & Hp & Hge).
    destruct (same_elevations_sample _ Hc) as (c' & Hc' & Hec).
    destruct (same_elevations_sample _ Hp) as (p' & Hp' & Hep).
    exists c', p'. split; [exact Hc' | split; [exact Hp' |]].
    rewrite Hec, Hep. exact Hge.
  - intros j Hj. apply same_elevations_height. exact (Hst j Hj).
Qed.

End SameElevations.

(** ** Grouping into profiles *)

Lemma Reqb_true (x y : R) : x = y -> Reqb x y = true.
Proof. intros H. unfold Reqb. destruct (Req_dec_T x y); [reflexivity | contradiction]. Qed.

Lemma Reqb_false (x y : R) : x <> y -> Reqb x y = false.
Proof. intros H. unfold Reqb. destruct (Req_dec_T x y); [contradiction | reflexivity]. Qed.

Lemma Reqb_false_inv (x y : R) : Reqb x y = false -> x <> y.
Proof. unfold Reqb. destruct (Req_dec_T x y); [discriminate | trivial]. Qed.

Section GroupingFacts.

Variable Point : Type.

Local Abbreviation dict := (profiles_dict Point).

Lemma dict_mem_get (k : Z) (d : dict) :
  dict_mem k d = match dict_get k d with Some _ => true | None => false end.
Proof.
  induction d as [| [k' v] d IH]; cbn; [reflexivity |].
  destruct (k =? k')%Z; [reflexivity | exact IH].
Qed.

Lemma dict_get_new_key (k k' : Z) (v : list (Sample Point)) (d : dict) :
  dict_get k (d ++ [(k', v)])
  = match dict_get k d with
    | Some x => Some x
    | None => if (k =? k')%Z then Some v else None
    end.
Proof.
  induction d as [| [k0 v0] d IH]; cbn.
  - destruct (k =? k')%Z; reflexivity.
  - destruct (k =? k0)%Z; [reflexivity | exact IH].
Qed.

Lemma dict_get_append (k k' : Z) (s : Sample Point) (d : dict) :
  dict_get k (dict_append k' s d)
  = if (k =? k')%Z then option_map (fun v => v ++ [s]) (dict_get k d)
    else dict_get k d.
Proof.
  induction d as [| [k0 v0] d IH]; cbn.
  - destruct (k =? k')%Z; reflexivity.
  - destruct (Z.eqb_spec k' k0) as [-> | Hne]; cbn.
    + destruct (Z.eqb_spec k k0) as [-> | Hne']; reflexivity.
    + destruct (Z.eqb_spec k k0) as [-> | Hne'].
      * destruct (Z.eqb_spec k0 k') as [E | _]; [congruence | reflexivity].
      * exact IH.
Qed.

Lemma dict_append_keys (k : Z) (s : Sample Point) (d : dict) :
  map fst (dict_append k s d) = map fst d.
Proof.
  induction d as [| [k0 v0] d IH]; cbn; [reflexivity |].
  destruct (k =? k0)%Z; cbn; [reflexivity | now rewrite IH].
Qed.

Lemma dict_get_None_keys (k : Z) (d : dict) :
  dict_get k d = None <-> ~ In k (map fst d).
Proof.
  induction d as [| [k0 v0] d IH]; cbn.
  - split; [intros _ [] | reflexivity].
  - destruct (Z.eqb_spec k k0) as [-> | Hne].
    + split; [discriminate | intros H; exfalso; apply H; now left].
    + rewrite IH. split.
      * intros H [E | Hin]; [congruence | contradiction].
      * intros H Hin. apply H. now right.
Qed.

Lemma dict_get_In (k : Z) (v : list (Sample Point)) (d : dict) :
  NoDup (map fst d) -> In (k, v) d -> dict_get k d = Some v.
Proof.
  induction d as [| [k0 v0] d IH]; cbn; [intros _ [] |].
  intros Hnd [E | Hin].
  - injection E as -> ->. now rewrite Z.eqb_refl.
  - inversion Hnd as [| ? ? Hnotin Hnd']; subst.
    destruct (Z.eqb_spec k k0) as [-> | Hne].
    + exfalso. apply Hnotin. apply (in_map fst) in Hin. exact Hin.
    + now apply IH.
Qed.

Lemma dict_get_Some_In (k : Z) (v : list (Sample Point)) (d : dict) :
  dict_get k d = Some v -> In (k, v) d.
Proof.
  induction d as [| [k0 v0] d IH]; cbn; [discriminate |].
  destruct (Z.eqb_spec k k0) as [-> | Hne].
  - intros E. injection E as ->. now left.
  - intros H. right. now apply IH.
Qed.

(** One step of the grouping loop, seen from the key [pid]. *)
Lemma group_step_get (pid : Z) (d : dict) (f : Feature Point) :
  dict_get pid (group_step d f)
  = if (feature_profile_id f =? pid)%Z then
      Some (match dict_get pid d with Some v => v | None => [] end
            ++ match valid_sample f with Some s => [s] | None => [] end)
    else dict_get pid d.
Proof.
  unfold group_step, valid_sample.
  set (k := feature_profile_id f).
  assert (Hafter :
    dict_get pid (if dict_mem k d then d else d ++ [(k, [])])
    = if (k =? pid)%Z then
        Some (match dict_get pid d with Some v => v | None => [] end)
      else dict_get pid d).
  { rewrite dict_mem_get.
    destruct (Z.eqb_spec k pid) as [-> | Hne].
    - destruct (dict_get pid d) as [v |] eqn:Hg; [exact Hg |].
      rewrite dict_get_new_key, Hg, Z.eqb_refl. reflexivity.
    - destruct (dict_get k d) eqn:Hk; [reflexivity |].
      rewrite dict_get_new_key.
      destruct (dict_get pid d); [reflexivity |].
      destruct (Z.eqb_spec pid k); [congruence | reflexivity]. }
  destruct (attr_elev_1 f) as [e |].
  - destruct (Reqb e (-9999)).
    + rewrite Hafter. destruct (k =? pid)%Z; [| reflexivity].
      now rewrite app_nil_r.
    + rewrite dict_get_append, Hafter. rewrite (Z.eqb_sym pid k).
      destruct (k =? pid)%Z; reflexivity.
  - rewrite Hafter. destruct (k =? pid)%Z; [| reflexivity].
    now rewrite app_nil_r.
Qed.

Lemma group_step_keys (d : dict) (f : Feature Point) :
  NoDup (map fst d) -> NoDup (map fst (group_step d f)).
Proof.
  intros Hnd. unfold group_step.
  set (k := feature_profile_id f).
  assert (Hd : NoDup (map fst (if dict_mem k d then d else d ++ [(k, [])]))).
  { rewrite dict_mem_get. destruct (dict_get k d) eqn:Hk; [exact Hnd |].
    rewrite map_app. cbn. apply NoDup_app; [exact Hnd | | ].
    - constructor; [intros [] | constructor].
    - intros x Hx [<- | []]. apply dict_get_None_keys in Hk. contradiction. }
  destruct (attr_elev_1 f) as [e |]; [| exact Hd].
  destruct (Reqb e (-9999)); [exact Hd |].
  now rewrite dict_append_keys.
Qed.

(** The grouping loop from any dict on. *)
Lemma fold_group_step_get (pid : Z) (features : list (Feature Point)) :
  forall d : dict,
    dict_get pid (fold_left (@group_step Point) features d)
    = match dict_get pid d with
      | Some v => Some (v ++ samples_of pid features)
      | None =>
          if existsb (fun f => (feature_profile_id f =? pid)%Z) features
          then Some (samples_of pid features)
          else None
      end.
Proof.
  induction features as [| f features IH]; intros d; cbn [fold_left].
  - cbn. destruct (dict_get pid d); [now rewrite app_nil_r | reflexivity].
  - rewrite IH, group_step_get. unfold samples_of. cbn [flat_map existsb].
    destruct (feature_profile_id f =? pid)%Z; cbn [orb app].
    + destruct (dict_get pid d); [now rewrite app_assoc | reflexivity].
    + reflexivity.
Qed.

Lemma group_profiles_get (pid : Z) (features : list (Feature Point)) :
  dict_get pid (group_profiles features)
  = if existsb (fun f => (feature_profile_id f =? pid)%Z) features
    then Some (samples_of pid features)
    else None.
Proof. unfold group_profiles. now rewrite fold_group_step_get. Qed.

Lemma group_profiles_keys (features : list (Feature Point)) :
  NoDup (map fst (group_profiles features)).
Proof.
  unfold group_profiles.
  assert (H : forall d : dict, NoDup (map fst d) ->
                NoDup (map fst (fold_left (@group_step Point) features d))).
  { induction features as [| f features IH]; intros d Hd; cbn; [exact Hd |].
    apply IH. now apply group_step_keys. }
  apply H. constructor.
Qed.

(** Every entry of the dict holds exactly the samples of its transect. *)
Lemma group_profiles_entry (pid : Z) (profile : list (Sample Point))
    (features : list (Feature Point)) :
  In (pid, profile) (group_profiles features) ->
  profile = samples_of pid features.
Proof.
  intros Hin.
  apply dict_get_In in Hin; [| apply group_profiles_keys].
  rewrite group_profiles_get in Hin.
  destruct (existsb _ features); [congruence | discriminate].
Qed.

Lemma valid_sample_has_elevation (f : Feature Point) :
  has_elevation f = false -> valid_sample f = None.
Proof.
  unfold has_elevation, valid_sample.
  destruct (attr_elev_1 f) as [e |]; [| reflexivity].
  destruct (Reqb e (-9999)); [reflexivity | discriminate].
Qed.

(** Features without an elevation add nothing to any profile. *)
Lemma samples_of_filter (pid : Z) (features : list (Feature Point)) :
  samples_of pid (filter (@has_elevation Point) features)
  = samples_of pid features.
Proof.
  unfold samples_of. induction features as [| f features IH]; [reflexivity |].
  cbn [filter flat_map]. destruct (has_elevation f) eqn:Hv.
  - cbn [flat_map]. now rewrite IH.
  - rewrite IH, (valid_sample_has_elevation f Hv).
    destruct (feature_profile_id f =? pid)%Z; reflexivity.
Qed.

Lemma samples_of_In (pid : Z) (features : list (Feature Point))
    (s : Sample Point) :
  In s (samples_of pid features) <->
  exists f, In f features /\ feature_profile_id f = pid /\
            valid_sample f = Some s.
Proof.
  unfold samples_of. rewrite in_flat_map. split.
  - intros (f & Hf & Hs). exists f. split; [exact Hf |].
    destruct (Z.eqb_spec (feature_profile_id f) pid) as [E | _]; [| destruct Hs].
    destruct (valid_sample f) as [s' |]; [| destruct Hs].
    destruct Hs as [-> | []]. split; [exact E | reflexivity].
  - intros (f & Hf & E & Hs). exists f. split; [exact Hf |].
    rewrite E, Z.eqb_refl, Hs. now left.
Qed.

End GroupingFacts.

(** ** Sorting a profile by offset *)

Section SortingFacts.

Variable Point : Type.

Local Abbreviation insert_sample := (@insert_by_distance Point).
Local Abbreviation sort_samples := (@sort_by_distance Point).
Local Abbreviation ascending := (@by_distance Point).

Lemma insert_by_distance_perm (p : Sample Point) (l : list (Sample Point)) :
  Permutation (p :: l) (insert_sample p l).
Proof.
  induction l as [| q l IH]; cbn; [apply Permutation_refl |].
  destruct (Rltb (distance q) (distance p)).
  - eapply perm_trans; [apply perm_swap |]. now apply perm_skip.
  - apply Permutation_refl.
Qed.

Lemma sort_by_distance_perm (l : list (Sample Point)) :
  Permutation l (sort_samples l).
Proof.
  induction l as [| p l IH]; cbn; [constructor |].
  eapply perm_trans; [apply perm_skip, IH | apply insert_by_distance_perm].
Qed.

Lemma sort_by_distance_len (l : list (Sample Point)) :
  len (sort_samples l) = len l.
Proof.
  unfold len. f_equal. symmetry.
  apply Permutation_length, sort_by_distance_perm.
Qed.

Lemma insert_by_distance_sorted (p : Sample Point) (l : list (Sample Point)) :
  Sorted ascending l -> Sorted ascending (insert_sample p l).
Proof.
  induction l as [| q l IH]; intros Hs; cbn.
  - constructor; constructor.
  - destruct (Rltb (distance q) (distance p)) eqn:Hlt.
    + inversion Hs as [| ? ? Hs' Hhd]; subst.
      constructor; [now apply IH |].
      apply Rltb_true_inv in Hlt.
      destruct l as [| q' l]; cbn.
      * constructor. unfold by_distance. lra.
      * destruct (Rltb (distance q') (distance p)).
        -- constructor. now inversion Hhd.
        -- constructor. unfold by_distance. lra.
    + apply Rltb_false_inv in Hlt.
      constructor; [exact Hs |]. constructor. unfold by_distance. lra.
Qed.

Lemma sort_by_distance_sorted (l : list (Sample Point)) :
  Sorted ascending (sort_samples l).
Proof.
  induction l as [| p l IH]; cbn; [constructor |].
  now apply insert_by_distance_sorted.
Qed.

(** Sorting leaves a list in ascending order alone. *)
Lemma sort_by_distance_fixed (l : list (Sample Point)) :
  Sorted ascending l -> sort_samples l = l.
Proof.
  induction l as [| p l IH]; intros Hs; cbn; [reflexivity |].
  inversion Hs as [| ? ? Hs' Hhd]; subst.
  rewrite IH by assumption.
  destruct l as [| q l]; cbn; [reflexivity |].
  inversion Hhd as [| ? ? Hle]; subst. unfold by_distance in Hle.
  now rewrite Rltb_false by lra.
Qed.

Lemma sort_by_distance_idempotent (l : list (Sample Point)) :
  sort_samples (sort_samples l) = sort_samples l.
Proof. apply sort_by_distance_fixed, sort_by_distance_sorted. Qed.

(** The sort is stable: samples at one offset keep their order. *)
Lemma sort_by_distance_stable (d : R) (l : list (Sample Point)) :
  filter (fun s => Reqb (distance s) d) (sort_samples l)
  = filter (fun s => Reqb (distance s) d) l.
Proof.
  induction l as [| p l IH]; cbn [sort_by_distance filter]; [reflexivity |].
  rewrite <- IH. generalize (sort_samples l) as m. clear IH.
  induction m as [| q m IHm]; cbn [insert_by_distance filter];
    [reflexivity |].
  destruct (Rltb (distance q) (distance p)) eqn:Hlt; cbn [filter];
    [| reflexivity].
  rewrite IHm. apply Rltb_true_inv in Hlt.
  destruct (Reqb (distance p) d) eqn:Hp; [| reflexivity].
  unfold Reqb in Hp. destruct (Req_dec_T (distance p) d); [| discriminate].
  rewrite (@Reqb_false (distance q) d) by lra. reflexivity.
Qed.

End SortingFacts.

(** ** Locating the anchor and analysing the profiles *)

Section AnalysisFacts.

Variable Point Geometry : Type.
Variable combine : Geometry -> Geometry -> Geometry.
Variable truthy : Geometry -> bool.
Variable geom_distance : Point -> Geometry -> R.
Variable lineLocatePoint : Geometry -> Point -> R.
Variable river_geom : Geometry.

Local Abbreviation dist s := (geom_distance (point s) river_geom).

(** The nearest-sample loop from any state on: either nothing beats
    [min_dist] and [river_idx] is kept, or the result is the first position
    of least distance among the remaining samples. *)
Lemma nearest_loop_spec (ps : list (Sample Point)) :
  forall (idx : Z) (min_dist : efloat) (river_idx : Z),
    (nearest_loop geom_distance river_geom ps idx min_dist river_idx
     = river_idx /\
     forall s, In s ps -> lt_efloat (dist s) min_dist = false)
    \/
    (exists n s,
        nth_error ps n = Some s /\
        nearest_loop geom_distance river_geom ps idx min_dist river_idx
        = (idx + Z.of_nat n)%Z /\
        lt_efloat (dist s) min_dist = true /\
        (forall k s', nth_error ps k = Some s' -> (dist s <= dist s')%R) /\
        (forall k s', (k < n)%nat -> nth_error ps k = Some s' ->
                      (dist s < dist s')%R)).
Proof.
  induction ps as [| p ps IH]; intros idx m ri.
  - left. split; [reflexivity | intros s []].
  - cbn [nearest_loop].
    destruct (lt_efloat (dist p) m) eqn:Hp.
    + destruct (IH (idx + 1)%Z (Fin (dist p)) idx)
        as [[Hr Hall] | (n & s & Hn & Hr & Hlt & Hmin & Hstrict)].
      * right. exists 0%nat, p.
        split; [reflexivity | split; [rewrite Hr; lia | split; [exact Hp |]]].
        split; [| intros k s' Hk; lia].
        intros [| k] s' Hk; cbn in Hk.
        -- injection Hk as <-. lra.
        -- apply nth_error_In, Hall in Hk. cbn in Hk.
           apply Rltb_false_inv in Hk. lra.
      * right. exists (S n), s. cbn in Hlt. apply Rltb_true_inv in Hlt.
        split; [exact Hn | split; [rewrite Hr; lia | split]].
        -- destruct m as [mv |]; [| reflexivity]. cbn in Hp |- *.
           apply Rltb_true_inv in Hp. apply Rltb_true. lra.
        -- split.
           ++ intros [| k] s' Hk; cbn in Hk.
              ** injection Hk as <-. lra.
              ** exact (Hmin k s' Hk).
           ++ intros [| k] s' Hlt' Hk; cbn in Hk.
              ** injection Hk as <-. exact Hlt.
              ** apply (Hstrict k s'); [lia | exact Hk].
    + destruct (IH (idx + 1)%Z m ri)
        as [[Hr Hall] | (n & s & Hn & Hr & Hlt & Hmin & Hstrict)].
      * left. split; [exact Hr |].
        intros s [<- | Hin]; [exact Hp | now apply Hall].
      * right. exists (S n), s.
        assert (Hsp : (dist s < dist p)%R).
        { destruct m as [mv |]; [| discriminate Hp]. cbn in Hp, Hlt.
          apply Rltb_false_inv in Hp. apply Rltb_true_inv in Hlt. lra. }
        split; [exact Hn | split; [rewrite Hr; lia | split; [exact Hlt |]]].
        split.
        -- intros [| k] s' Hk; cbn in Hk.
           ++ injection Hk as <-. lra.
           ++ exact (Hmin k s' Hk).
        -- intros [| k] s' Hlt' Hk; cbn in Hk.
           ++ injection Hk as <-. exact Hsp.
           ++ apply (Hstrict k s'); [lia | exact Hk].
Qed.

(** With a geometry that tests true, the anchor of a non-empty profile is
    its first sample of least distance to the centerline. *)
Lemma locate_river_idx_nearest (profile : list (Sample Point)) :
  truthy river_geom = true -> profile <> [] ->
  first_nearest (fun p => geom_distance p river_geom) profile
    (locate_river_idx truthy geom_distance river_geom profile).
Proof.
  intros Ht Hne. unfold locate_river_idx. rewrite Ht.
  destruct (nearest_loop_spec profile 0 Inf (len profile / 2))
    as [[_ Hall] | (n & s & Hn & Hr & _ & Hmin & Hstrict)].
  - exfalso. destruct profile as [| p profile]; [now apply Hne |].
    specialize (Hall p (or_introl eq_refl)). discriminate Hall.
  - rewrite Hr. exists s.
    assert (Hat : forall k s', sample_at profile k = Some s' ->
                    (0 <= k)%Z /\ nth_error profile (Z.to_nat k) = Some s').
    { intros k s'. unfold sample_at.
      destruct (Z.ltb_spec k 0) as [Hneg | Hpos];
        [discriminate | intros Hk; split; [lia | exact Hk]]. }
    split; [| split].
    + replace (0 + Z.of_nat n)%Z with (Z.of_nat n) by lia.
      now rewrite sample_at_of_nat.
    + intros k s' Hk. destruct (Hat k s' Hk) as [_ Hk'].
      exact (Hmin _ _ Hk').
    + intros k s' Hlt Hk. destruct (Hat k s' Hk) as [Hk0 Hk'].
      assert (Hkn : (Z.to_nat k < n)%nat) by lia.
      exact (Hstrict _ _ Hkn Hk').
Qed.

(** With a geometry that tests false, the anchor is the midpoint index. *)
Lemma locate_river_idx_midpoint (profile : list (Sample Point)) :
  truthy river_geom = false ->
  locate_river_idx truthy geom_distance river_geom profile
  = (len profile / 2)%Z.
Proof. intros Hf. unfold locate_river_idx. now rewrite Hf. Qed.

Variable height_threshold slope_threshold : R.
Variable min_consecutive : Z.
Variable point_spacing : R.

Local Abbreviation analyze_one :=
  (analyze_profile truthy geom_distance lineLocatePoint river_geom
     height_threshold slope_threshold min_consecutive point_spacing).
Local Abbreviation analyze_all :=
  (analyze_profiles truthy geom_distance lineLocatePoint river_geom
     height_threshold slope_threshold min_consecutive point_spacing).

(** A profile that is too short leaves the result as it was. *)
Lemma analyze_profile_short (pid : Z) (profile : list (Sample Point))
    (bedrock_points : list (BankPoint Point)) :
  (len profile < min_consecutive + 1)%Z ->
  analyze_one pid profile bedrock_points = Ok bedrock_points.
Proof.
  intros Hshort. unfold analyze_profile.
  destruct (Z.ltb_spec (len profile) (min_consecutive + 1)); [reflexivity | lia].
Qed.

(** The analysis reads a profile through its sorted form only. *)
Lemma analyze_profile_sorted (pid : Z) (profile : list (Sample Point))
    (bedrock_points : list (BankPoint Point)) :
  analyze_one pid (sort_by_distance profile) bedrock_points
  = analyze_one pid profile bedrock_points.
Proof.
  unfold analyze_profile.
  now rewrite sort_by_distance_len, sort_by_distance_idempotent.
Qed.

(** A short profile can be dropped from the dict without changing the
    outcome of the loop over the profiles. *)
Lemma analyze_profiles_drop_short (pid : Z) (profile : list (Sample Point))
    (before after : profiles_dict Point) :
  (len profile < min_consecutive + 1)%Z ->
  forall bedrock_points,
    analyze_all (before ++ (pid, profile) :: after) bedrock_points
    = analyze_all (before ++ after) bedrock_points.
Proof.
  intros Hshort. induction before as [| [k v] before IH]; intros acc.
  - cbn [app analyze_profiles]. rewrite analyze_profile_short by exact Hshort.
    reflexivity.
  - cbn [app analyze_profiles].
    destruct (analyze_one k v acc) as [acc' | e]; cbn [bind];
      [apply IH | reflexivity].
Qed.

End AnalysisFacts.

(** ** Evaluation on the sample data *)

Lemma group_step_valid (Point : Type) (d : profiles_dict Point)
    (f : Feature Point) (e : R) :
  attr_elev_1 f = Some e -> e <> (-9999)%R ->
  group_step d f
  = dict_append (feature_profile_id f)
      {| point := geometry f; elevation := e; distance := attr_distance f;
         profile_id := feature_profile_id f |}
      (if dict_mem (feature_profile_id f) d then d
       else d ++ [(feature_profile_id f, [])]).
Proof.
  intros He Hne. unfold group_step. rewrite He.
  now rewrite Reqb_false by exact Hne.
Qed.

Lemma group_rising_layer :
  group_profiles rising_layer = [(1%Z, rising_profile)].
Proof.
  unfold group_profiles, rising_layer. cbn [fold_left].
  repeat (erewrite group_step_valid; [| reflexivity | cbn; lra]).
  reflexivity.
Qed.

Lemma rising_profile_sorted : sort_by_distance rising_profile = rising_profile.
Proof.
  apply sort_by_distance_fixed. unfold rising_profile.
  repeat (constructor; [| first [constructor; unfold by_distance; cbn; lra
                              | constructor]]).
  constructor.
Qed.

(** Scanned from its midpoint, the sample profile has no bank on the left
    and the bank at 104 on the right. *)
Lemma rising_profile_midpoint_banks :
  midpoint_anchored_banks 3 8 2 15 1 rising_profile
  = Ok [mkBankPoint tt 104 (104 - 100) "right" 1 0].
Proof.
  unfold midpoint_anchored_banks.
  change (len rising_profile / 2)%Z with 2%Z.
  change (getitem rising_profile 2) with (Ok (mkSample tt 100 30 1)).
  cbn [bind elevation]. unfold classify_sides.
  change (reversed (slice_to rising_profile 2))
    with [mkSample tt 100 15 1; mkSample tt 100 0 1].
  change (slice_from rising_profile (2 + 1))
    with [mkSample tt 104 45 1; mkSample tt 105 60 1].
  rewrite (@find_bedrock_none unit
             [mkSample tt 100 15 1; mkSample tt 100 0 1] 100 3 8 2 15
             "left" 1 0); [| lia | lra |].
  - cbn [bind append_if_found].
    rewrite (@find_bedrock_at unit
               [mkSample tt 104 45 1; mkSample tt 105 60 1] 100 3 8 2 15
               "right" 1 0 0 (mkSample tt 104 45 1)).
    + reflexivity.
    + lra.
    + reflexivity.
    + split; [lia | split; [| split]].
      * eexists. split; [reflexivity | cbn; lra].
      * intros Hpos. lia.
      * intros j Hj. replace j with 1%Z by lia.
        eexists. split; [reflexivity | cbn; lra].
    + intros k Hk. lia.
  - intros k (_ & (s & Hs & Hge) & _).
    pose proof (sample_at_Some_range _ _ Hs) as Hr.
    change (len [mkSample tt 100 15 1; mkSample tt 100 0 1]) with 2%Z in Hr.
    assert (Hcases : k = 0%Z \/ k = 1%Z) by lia.
    destruct Hcases as [-> | ->]; cbn in Hs; injection Hs as <-;
      cbn in Hge; lra.
Qed.

(** * The claims *)

(** ** The bank classifier *)

(** C1: with a sample spacing other than zero and [min_consecutive >= 1], the
    classifier returns the bank point of the smallest scan index that passes
    the height, slope and stability criteria, built from that sample with the
    height above the anchor, the side tag, the transect id and the anchor's
    along-river distance as given; when no index passes the three criteria it
    returns no bank point. *)
Theorem C1_first_qualifying_sample_returned :
  forall (Point : Type) (points : list (Sample Point))
         (river_elevation height_threshold slope_threshold : R)
         (min_consecutive : Z) (point_spacing : R)
         (side_tag : string) (pid : Z) (river_distance : R),
    (1 <= min_consecutive)%Z ->
    point_spacing <> 0%R ->
    (exists i current,
        sample_at points i = Some current /\
        qualifies points river_elevation height_threshold slope_threshold
          min_consecutive point_spacing i /\
        (forall k, (k < i)%Z ->
                   ~ qualifies points river_elevation height_threshold
                       slope_threshold min_consecutive point_spacing k) /\
        _find_bedrock_on_side points river_elevation height_threshold
          slope_threshold min_consecutive point_spacing side_tag pid
          river_distance
        = Ok (Some {| bp_point := point current;
                      bp_elevation := elevation current;
                      height_diff := (elevation current - river_elevation)%R;
                      side := side_tag;
                      bp_profile_id := pid;
                      distance_along := river_distance |}))
    \/
    ((forall k, ~ qualifies points river_elevation height_threshold
                    slope_threshold min_consecutive point_spacing k) /\
     _find_bedrock_on_side points river_elevation height_threshold
       slope_threshold min_consecutive point_spacing side_tag pid
       river_distance = Ok None).
Proof.
  intros Point points re ht st mc ps side_tag pid rd Hmc Hps.
  pose proof (find_bedrock_spec points re ht st mc ps side_tag pid rd) as H.
  destruct (_find_bedrock_on_side points re ht st mc ps side_tag pid rd)
    as [[bp |] | e].
  - left. destruct H as (i & s & Hi & _ & Hs & Hq & Hmin & ->).
    exists i, s. split; [exact Hs | split; [exact Hq | split]];
      [| reflexivity].
    intros k Hk Hqk. destruct (Z_lt_ge_dec k 0) as [Hneg | Hpos].
    + destruct Hqk as [Hk0 _]. lia.
    + apply (Hmin k); [lia | exact Hqk].
  - right. destruct H as [_ H]. split; [exact H | reflexivity].
  - exfalso. destruct H as [[_ Hz] | (_ & Hle & _)]; [contradiction | lia].
Qed.

Lemma C1_witness :
  (1 <= 2)%Z /\ 15%R <> 0%R /\
  ((exists i current,
        sample_at [mkSample tt 100 0 7; mkSample tt 115 15 7;
                   mkSample tt 116 30 7] i = Some current /\
        qualifies [mkSample tt 100 0 7; mkSample tt 115 15 7;
                   mkSample tt 116 30 7] 100 3 8 2 15 i /\
        (forall k, (k < i)%Z ->
                   ~ qualifies [mkSample tt 100 0 7; mkSample tt 115 15 7;
                                mkSample tt 116 30 7] 100 3 8 2 15 k) /\
        _find_bedrock_on_side
          [mkSample tt 100 0 7; mkSample tt 115 15 7; mkSample tt 116 30 7]
          100 3 8 2 15 "right" 7 40
        = Ok (Some {| bp_point := point current;
                      bp_elevation := elevation current;
                      height_diff := (elevation current - 100)%R;
                      side := "right";
                      bp_profile_id := 7;
                      distance_along := 40 |}))
   \/
   ((forall k, ~ qualifies [mkSample tt 100 0 7; mkSample tt 115 15 7;
                            mkSample tt 116 30 7] 100 3 8 2 15 k) /\
    _find_bedrock_on_side
      [mkSample tt 100 0 7; mkSample tt 115 15 7; mkSample tt 116 30 7]
      100 3 8 2 15 "right" 7 40 = Ok None)).
Proof.
  split; [lia | split; [lra |]].
  apply C1_first_qualifying_sample_returned; [lia | lra].
Defined.

(** C2: anchor at 100.0, outward elevations 101.0, 102.0, 106.5, 107.0,
    107.2, 107.5 at 15 m spacing, height threshold 3.0, slope threshold 8.0
    and three consecutive samples: the classifier returns the sample at
    index 2, with elevation 106.5 and height above the anchor 6.5. *)
Theorem C2_worked_example :
  forall (Point : Type) (points : list (Sample Point))
         (side_tag : string) (pid : Z) (river_distance : R),
    map (@elevation Point) points = [101; 102; 106.5; 107; 107.2; 107.5]%R ->
    exists current,
      sample_at points 2 = Some current /\
      _find_bedrock_on_side points 100 3 8 3 15 side_tag pid river_distance
      = Ok (Some {| bp_point := point current;
                    bp_elevation := 106.5;
                    height_diff := 6.5;
                    side := side_tag;
                    bp_profile_id := pid;
                    distance_along := river_distance |}).
Proof.
  intros Point points side_tag pid rd Hel.
  destruct points as [| p0 [| p1 [| p2 [| p3 [| p4 [| p5 [| p6 l]]]]]]];
    try discriminate Hel.
  injection Hel as E0 E1 E2 E3 E4 E5.
  exists p2. split; [reflexivity |].
  rewrite (@find_bedrock_at Point [p0; p1; p2; p3; p4; p5] 100 3 8 3 15
             side_tag pid rd 2 p2).
  - unfold bank_point_of. rewrite E2. do 2 f_equal. f_equal. lra.
  - lra.
  - reflexivity.
  - split; [lia | split; [| split]].
    + exists p2. split; [reflexivity | rewrite E2; lra].
    + intros _. exists p2, p1. split; [reflexivity | split; [reflexivity |]].
      rewrite E1, E2. apply degrees_atan_ge_8. lra.
    + intros j Hj.
      assert (Hcases : j = 1%Z \/ j = 2%Z) by lia.
      destruct Hcases as [-> | ->].
      * exists p3. split; [reflexivity | rewrite E3; lra].
      * exists p4. split; [reflexivity | rewrite E4; lra].
  - intros k Hk (_ & (s & Hs & Hge) & _).
    assert (Hcases : k = 0%Z \/ k = 1%Z) by lia.
    destruct Hcases as [-> | ->]; cbn in Hs; injection Hs as <-.
    + rewrite E0 in Hge. lra.
    + rewrite E1 in Hge. lra.
Qed.

Lemma C2_witness :
  map (@elevation unit)
      [mkSample tt 101 15 1; mkSample tt 102 30 1; mkSample tt 106.5 45 1;
       mkSample tt 107 60 1; mkSample tt 107.2 75 1; mkSample tt 107.5 90 1]
  = [101; 102; 106.5; 107; 107.2; 107.5]%R /\
  exists current,
    sample_at [mkSample tt 101 15 1; mkSample tt 102 30 1;
               mkSample tt 106.5 45 1; mkSample tt 107 60 1;
               mkSample tt 107.2 75 1; mkSample tt 107.5 90 1] 2
    = Some current /\
    _find_bedrock_on_side
      [mkSample tt 101 15 1; mkSample tt 102 30 1; mkSample tt 106.5 45 1;
       mkSample tt 107 60 1; mkSample tt 107.2 75 1; mkSample tt 107.5 90 1]
      100 3 8 3 15 "left" 1 0
    = Ok (Some {| bp_point := point current;
                  bp_elevation := 106.5;
                  height_diff := 6.5;
                  side := "left";
                  bp_profile_id := 1;
                  distance_along := 0 |}).
Proof.
  split; [reflexivity |].
  apply C2_worked_example. reflexivity.
Defined.

(** C3: a returned candidate is followed by [min_consecutive - 1] samples
    that each pass the height criterion; an index followed by fewer than
    [min_consecutive - 1] samples is never accepted; and a side on which every
    sample that passes the height criterion has, within its window, a sample
    that is missing or below the threshold yields no bank point. *)
Theorem C3_stability_window :
  forall (Point : Type) (points : list (Sample Point))
         (river_elevation height_threshold slope_threshold : R)
         (min_consecutive : Z) (point_spacing : R)
         (side_tag : string) (pid : Z) (river_distance : R),
    (forall bp,
        _find_bedrock_on_side points river_elevation height_threshold
          slope_threshold min_consecutive point_spacing side_tag pid
          river_distance = Ok (Some bp) ->
        exists i current,
          sample_at points i = Some current /\
          bp = bank_point_of river_elevation current side_tag pid
                 river_distance /\
          forall j, (1 <= j <= min_consecutive - 1)%Z ->
            exists next,
              sample_at points (i + j) = Some next /\
              (elevation next - river_elevation >= height_threshold)%R)
    /\
    (forall i bp,
        (0 <= i)%Z ->
        (len points - (i + 1) < min_consecutive - 1)%Z ->
        candidate points river_elevation height_threshold slope_threshold
          min_consecutive point_spacing side_tag pid river_distance i
        <> Ok (Some bp))
    /\
    ((1 <= min_consecutive)%Z ->
     point_spacing <> 0%R ->
     (forall i,
         height_criterion points river_elevation height_threshold i ->
         exists j, (1 <= j <= min_consecutive - 1)%Z /\
                   ~ height_criterion points river_elevation
                       height_threshold (i + j)) ->
     _find_bedrock_on_side points river_elevation height_threshold
       slope_threshold min_consecutive point_spacing side_tag pid
       river_distance = Ok None).
Proof.
  intros Point points re ht st mc ps side_tag pid rd.
  split; [| split].
  - intros bp Hfind.
    pose proof (find_bedrock_spec points re ht st mc ps side_tag pid rd) as H.
    rewrite Hfind in H.
    destruct H as (i & s & _ & _ & Hs & (_ & _ & _ & Hst) & _ & ->).
    exists i, s. split; [exact Hs | split; [reflexivity |]].
    intros j Hj. exact (Hst j Hj).
  - intros i bp Hi Hfew Hc.
    destruct (Z_lt_ge_dec i (len points)) as [Hin | Hout].
    + pose proof (candidate_spec points re ht st mc ps side_tag pid rd
                    (i := i) ltac:(lia)) as H.
      rewrite Hc in H. destruct H as ((_ & _ & _ & Hst) & _).
      destruct (Hst (mc - 1)%Z ltac:(lia)) as (s & Hs & _).
      apply sample_at_Some_range in Hs. lia.
    + unfold candidate in Hc. rewrite getitem_out_of_range in Hc by lia.
      discriminate Hc.
  - intros Hmc Hps Hbrief.
    apply find_bedrock_none; [exact Hmc | exact Hps |].
    intros k (_ & Hh & _ & Hst).
    destruct (Hbrief k Hh) as (j & Hj & Hfail).
    exact (Hfail (Hst j Hj)).
Qed.

Lemma C3_witness :
  _find_bedrock_on_side
    [mkSample tt 100 15 1; mkSample tt 104 30 1; mkSample tt 100 45 1;
     mkSample tt 100 60 1]
    100 3 8 3 15 "right" 1 0 = Ok None.
Proof.
  apply (C3_stability_window
           [mkSample tt 100 15 1; mkSample tt 104 30 1; mkSample tt 100 45 1;
            mkSample tt 100 60 1]
           100 3 8 3 15 "right" 1 0); [lia | lra |].
  intros i (s & Hs & Hge).
  pose proof (sample_at_Some_range _ _ Hs) as Hr. cbn in Hr.
  assert (Hcases : i = 0%Z \/ i = 1%Z \/ i = 2%Z \/ i = 3%Z) by lia.
  destruct Hcases as [-> | [-> | [-> | ->]]];
    cbn in Hs; injection Hs as <-; cbn in Hge; try (exfalso; lra).
  exists 1%Z. split; [lia |].
  intros (s' & Hs' & Hge'). cbn in Hs'. injection Hs' as <-.
  cbn in Hge'. lra.
Defined.

(** C10: with [min_consecutive >= 1], every index the scan visits leaves room
    for its whole window, so the stability loop never takes its
    out-of-samples exit there; the classifier never raises [IndexError]; an
    empty side yields no bank point; and a returned sample is followed by at
    least [min_consecutive - 1] samples. *)
Theorem C10_scan_stays_in_bounds :
  forall (Point : Type) (points : list (Sample Point))
         (river_elevation height_threshold slope_threshold : R)
         (min_consecutive : Z) (point_spacing : R)
         (side_tag : string) (pid : Z) (river_distance : R),
    (1 <= min_consecutive)%Z ->
    (forall i,
        In i (range 0 (len points - min_consecutive + 1)) ->
        (0 <= i)%Z /\ (i + min_consecutive - 1 < len points)%Z /\
        stability_loop points river_elevation height_threshold i
          (range 1 min_consecutive) <> Ok RanOffEnd)
    /\
    _find_bedrock_on_side points river_elevation height_threshold
      slope_threshold min_consecutive point_spacing side_tag pid
      river_distance <> Raise IndexError
    /\
    (points = [] ->
     _find_bedrock_on_side points river_elevation height_threshold
       slope_threshold min_consecutive point_spacing side_tag pid
       river_distance = Ok None)
    /\
    (forall bp,
        _find_bedrock_on_side points river_elevation height_threshold
          slope_threshold min_consecutive point_spacing side_tag pid
          river_distance = Ok (Some bp) ->
        exists i current,
          sample_at points i = Some current /\
          bp = bank_point_of river_elevation current side_tag pid
                 river_distance /\
          (i + (min_consecutive - 1) < len points)%Z).
Proof.
  intros Point points re ht st mc ps side_tag pid rd Hmc.
  pose proof (find_bedrock_spec points re ht st mc ps side_tag pid rd) as H.
  split; [| split; [| split]].
  - intros i Hin. apply In_range in Hin.
    split; [lia | split; [lia |]].
    intros Hoff.
    pose proof (stability_loop_spec points re ht (i := i) ltac:(lia)
                  (a := 1) mc ltac:(lia)) as Hs.
    rewrite Hoff in Hs. destruct Hs as (j & Hj & Hlen). lia.
  - intros Hraise. rewrite Hraise in H.
    destruct H as [[He _] | (_ & Hle & _)]; [discriminate He | lia].
  - intros ->. unfold _find_bedrock_on_side.
    rewrite range_nil by (cbn; lia). reflexivity.
  - intros bp Hfind. rewrite Hfind in H.
    destruct H as (i & s & _ & Hroom & Hs & _ & _ & ->).
    exists i, s. split; [exact Hs | split; [reflexivity | exact Hroom]].
Qed.

Lemma C10_witness :
  (1 <= 3)%Z /\
  _find_bedrock_on_side
    [mkSample tt 101 15 1; mkSample tt 105 30 1]
    100 3 8 3 15 "left" 1 0 <> Raise IndexError.
Proof.
  split; [lia |].
  apply (C10_scan_stays_in_bounds
           [mkSample tt 101 15 1; mkSample tt 105 30 1]
           100 3 8 15 "left" 1 0 (min_consecutive := 3)).
  lia.
Defined.

(** ** Symmetric profiles *)

(** C7: on a profile whose elevations are symmetric about the anchor, the
    left scan (the samples before the anchor, reversed) and the right scan
    (the samples after it, in order) either both find nothing, or find the
    samples the same number of places away from the anchor, with the same
    elevation and height above the anchor, the same transect id and
    along-river distance, and the side tags "left" and "right". *)
Theorem C7_symmetric_profile_mirrored_banks :
  forall (Point : Type) (profile : list (Sample Point)) (river_idx : Z)
         (river_elevation height_threshold slope_threshold : R)
         (min_consecutive : Z) (point_spacing : R) (pid : Z)
         (river_distance : R) (bedrock_points : list (BankPoint Point)),
    (1 <= min_consecutive)%Z ->
    point_spacing <> 0%R ->
    (0 <= river_idx < len profile)%Z ->
    symmetric_about profile river_idx ->
    (_find_bedrock_on_side (reversed (slice_to profile river_idx))
       river_elevation height_threshold slope_threshold min_consecutive
       point_spacing "left" pid river_distance = Ok None /\
     _find_bedrock_on_side (slice_from profile (river_idx + 1))
       river_elevation height_threshold slope_threshold min_consecutive
       point_spacing "right" pid river_distance = Ok None /\
     classify_sides height_threshold slope_threshold min_consecutive
       point_spacing pid profile river_idx river_elevation river_distance
       bedrock_points = Ok bedrock_points)
    \/
    (exists i cl cr bl br,
        (0 <= i)%Z /\
        sample_at profile (river_idx - 1 - i) = Some cl /\
        sample_at profile (river_idx + 1 + i) = Some cr /\
        _find_bedrock_on_side (reversed (slice_to profile river_idx))
          river_elevation height_threshold slope_threshold min_consecutive
          point_spacing "left" pid river_distance = Ok (Some bl) /\
        _find_bedrock_on_side (slice_from profile (river_idx + 1))
          river_elevation height_threshold slope_threshold min_consecutive
          point_spacing "right" pid river_distance = Ok (Some br) /\
        bp_point bl = point cl /\ bp_point br = point cr /\
        bp_elevation bl = bp_elevation br /\
        height_diff bl = height_diff br /\
        bp_profile_id bl = bp_profile_id br /\
        distance_along bl = distance_along br /\
        side bl = "left"%string /\ side br = "right"%string /\
        classify_sides height_threshold slope_threshold min_consecutive
          point_spacing pid profile river_idx river_elevation river_distance
          bedrock_points = Ok (bedrock_points ++ [bl] ++ [br])).
Proof.
  intros Point profile a re ht st mc ps pid rd acc Hmc Hps Ha Hsym.
  pose proof (symmetric_sides_same_elevations Ha Hsym) as Hsame.
  set (lside := reversed (slice_to profile a)) in *.
  set (rside := slice_from profile (a + 1)) in *.
  unfold classify_sides. fold lside rside.
  pose proof (find_bedrock_spec lside re ht st mc ps "left" pid rd) as Hl.
  destruct (_find_bedrock_on_side lside re ht st mc ps "left" pid rd)
    as [[bl |] | e].
  - right. destruct Hl as (i & cl & Hi & _ & Hcl & Hq & Hmin & ->).
    destruct (same_elevations_sample lside rside Hsame i Hcl)
      as (cr & Hcr & He).
    assert (Hr : _find_bedrock_on_side rside re ht st mc ps "right" pid rd
                 = Ok (Some (bank_point_of re cr "right" pid rd))).
    { apply (find_bedrock_at "right" pid rd (i := i));
        [exact Hps | exact Hcr | |].
      - now apply (same_elevations_qualifies rside Hsame).
      - intros k Hk Hqk. apply (Hmin k Hk).
        now apply (same_elevations_qualifies lside (eq_sym Hsame)). }
    exists i, cl, cr, (bank_point_of re cl "left" pid rd),
      (bank_point_of re cr "right" pid rd).
    rewrite Hr. cbn [bind append_if_found bank_point_of bp_point bp_elevation
                     height_diff bp_profile_id distance_along side].
    unfold lside in Hcl. rewrite left_side_sample in Hcl by lia.
    unfold rside in Hcr. rewrite right_side_sample in Hcr by lia.
    rewrite He, <- app_assoc.
    repeat (split; [first [assumption | reflexivity] |]). reflexivity.
  - left. destruct Hl as [_ Hnone].
    assert (Hr : _find_bedrock_on_side rside re ht st mc ps "right" pid rd
                 = Ok None).
    { apply find_bedrock_none; [exact Hmc | exact Hps |].
      intros k Hqk. apply (Hnone k).
      now apply (same_elevations_qualifies lside (eq_sym Hsame)). }
    rewrite Hr. cbn [bind append_if_found].
    split; [reflexivity | split; reflexivity].
  - exfalso. destruct Hl as [[_ Hz] | (_ & Hle & _)]; [contradiction | lia].
Qed.

Lemma C7_witness :
  (1 <= 2)%Z /\ 15%R <> 0%R /\
  (0 <= 2 < len symmetric_profile)%Z /\
  symmetric_about symmetric_profile 2 /\
  (classify_sides 3 8 2 15 1 symmetric_profile 2 100 0 [] = Ok [] \/
   exists bl br,
     classify_sides 3 8 2 15 1 symmetric_profile 2 100 0 []
     = Ok ([] ++ [bl] ++ [br]) /\
     height_diff bl = height_diff br /\
     side bl = "left"%string /\ side br = "right"%string).
Proof.
  assert (Hlen : (0 <= 2 < len symmetric_profile)%Z)
    by (unfold len, symmetric_profile; cbn; lia).
  assert (Hsym : symmetric_about symmetric_profile 2).
  { intros k Hk.
    assert (Hcases : k = 1%Z \/ k = 2%Z \/ (3 <= k)%Z) by lia.
    destruct Hcases as [-> | [-> | Hbig]]; [reflexivity | reflexivity |].
    unfold sample_at.
    destruct (Z.ltb_spec (2 - k) 0) as [_ | Hge]; [| lia].
    destruct (Z.ltb_spec (2 + k) 0) as [Hlt | _]; [lia |].
    assert (Hnone : nth_error symmetric_profile (Z.to_nat (2 + k)) = None)
      by (apply nth_error_None;
          change (List.length symmetric_profile) with 5%nat; lia).
    rewrite Hnone. reflexivity. }
  split; [lia | split; [lra | split; [exact Hlen | split; [exact Hsym |]]]].
  destruct (@C7_symmetric_profile_mirrored_banks unit symmetric_profile 2
              100 3 8 2 15 1 0 [] ltac:(lia) ltac:(lra) Hlen Hsym)
    as [(_ & _ & Hnone) | (i & cl & cr & bl & br & H)].
  - left. exact Hnone.
  - right. exists bl, br.
    destruct H as (_ & _ & _ & _ & _ & _ & _ & _ & Hh & _ & _ & Hsl & Hsr & Hc).
    split; [exact Hc | split; [exact Hh | split; [exact Hsl | exact Hsr]]].
Defined.

(** ** Anchor selection *)

(** C4, as stated, fails when the river layer has no feature: the analysis
    then returns an empty list, although the one profile of the input has a
    bank point when its midpoint sample is taken as the anchor. *)
Lemma C4_counterexample :
  river_geometry no_combine [] = None /\
  group_profiles rising_layer = [(1%Z, rising_profile)] /\
  (2 + 1 <= len rising_profile)%Z /\
  midpoint_anchored_banks 3 8 2 15 1 (sort_by_distance rising_profile)
  = Ok [mkBankPoint tt 104 (104 - 100) "right" 1 0] /\
  _analyze_transects_for_bedrock no_combine always_truthy zero_distance
    zero_locate rising_layer [] 3 8 2 15 = Ok [].
Proof.
  split; [reflexivity |].
  split; [exact group_rising_layer |].
  split; [unfold len, rising_profile; cbn; lia |].
  split; [| reflexivity].
  rewrite rising_profile_sorted. exact rising_profile_midpoint_banks.
Qed.

(** C4, amended: with a centerline geometry that tests true, the anchor of a
    non-empty profile is the first sample, in offset-sorted order, of least
    distance to the centerline; with a geometry that tests false the anchor
    is the midpoint index, the length integer-divided by two; and with no
    river feature at all the analysis returns an empty list. *)
Theorem C4_anchor_selection :
  forall (Point Geometry : Type)
         (combine : Geometry -> Geometry -> Geometry)
         (truthy : Geometry -> bool)
         (geom_distance : Point -> Geometry -> R)
         (lineLocatePoint : Geometry -> Point -> R)
         (river_geom : Geometry) (profile_points : list (Sample Point))
         (points_layer : list (Feature Point))
         (height_threshold slope_threshold : R) (min_consecutive : Z)
         (point_spacing : R),
    (truthy river_geom = true -> profile_points <> [] ->
     first_nearest (fun p => geom_distance p river_geom)
       (sort_by_distance profile_points)
       (locate_river_idx truthy geom_distance river_geom
          (sort_by_distance profile_points)))
    /\
    (truthy river_geom = false ->
     locate_river_idx truthy geom_distance river_geom
       (sort_by_distance profile_points)
     = (len profile_points / 2)%Z)
    /\
    _analyze_transects_for_bedrock combine truthy geom_distance
      lineLocatePoint points_layer [] height_threshold slope_threshold
      min_consecutive point_spacing = Ok [].
Proof.
  intros Point Geometry combine truthy geom_distance lineLocatePoint g
    profile layer ht st mc ps.
  split; [| split].
  - intros Ht Hne. apply locate_river_idx_nearest; [exact Ht |].
    intros Hnil. apply Hne.
    pose proof (sort_by_distance_perm profile) as Hperm.
    rewrite Hnil in Hperm. now apply Permutation_nil.
  - intros Hf. rewrite locate_river_idx_midpoint by exact Hf.
    now rewrite sort_by_distance_len.
  - reflexivity.
Qed.

Lemma C4_witness :
  first_nearest (fun p => zero_distance p tt)
    (sort_by_distance rising_profile)
    (locate_river_idx always_truthy zero_distance tt
       (sort_by_distance rising_profile)).
Proof.
  apply (C4_anchor_selection no_combine always_truthy zero_distance
           zero_locate tt rising_profile rising_layer 3 8 2 15).
  - reflexivity.
  - discriminate.
Defined.

(** ** Short profiles *)

(** C5: a profile with fewer than [min_consecutive + 1] samples leaves the
    list of bank points as it was and raises nothing, and the loop over the
    profiles gives the same outcome with or without it. *)
Theorem C5_short_profiles_skipped :
  forall (Point Geometry : Type)
         (truthy : Geometry -> bool)
         (geom_distance : Point -> Geometry -> R)
         (lineLocatePoint : Geometry -> Point -> R)
         (river_geom : Geometry)
         (height_threshold slope_threshold : R) (min_consecutive : Z)
         (point_spacing : R) (pid : Z) (profile : list (Sample Point))
         (before after : profiles_dict Point)
         (bedrock_points : list (BankPoint Point)),
    (len profile < min_consecutive + 1)%Z ->
    analyze_profile truthy geom_distance lineLocatePoint river_geom
      height_threshold slope_threshold min_consecutive point_spacing
      pid profile bedrock_points = Ok bedrock_points
    /\
    analyze_profiles truthy geom_distance lineLocatePoint river_geom
      height_threshold slope_threshold min_consecutive point_spacing
      (before ++ (pid, profile) :: after) bedrock_points
    = analyze_profiles truthy geom_distance lineLocatePoint river_geom
        height_threshold slope_threshold min_consecutive point_spacing
        (before ++ after) bedrock_points.
Proof.
  intros Point Geometry truthy geom_distance lineLocatePoint g ht st mc ps
    pid profile before after acc Hshort.
  split.
  - now apply analyze_profile_short.
  - now apply analyze_profiles_drop_short.
Qed.

Lemma C5_witness :
  (len [mkSample tt 100 0 1; mkSample tt 110 15 1; mkSample tt 120 30 1]
   < 3 + 1)%Z /\
  analyze_profile always_truthy zero_distance zero_locate tt 3 8 3 15 1
    [mkSample tt 100 0 1; mkSample tt 110 15 1; mkSample tt 120 30 1] []
  = Ok [].
Proof.
  assert (Hshort :
    (len [mkSample tt 100 0 1; mkSample tt 110 15 1; mkSample tt 120 30 1]
     < 3 + 1)%Z) by (unfold len; cbn; lia).
  split; [exact Hshort |].
  exact (proj1 (@C5_short_profiles_skipped unit unit always_truthy
                  zero_distance zero_locate tt 3 8 3 15 1
                  [mkSample tt 100 0 1; mkSample tt 110 15 1;
                   mkSample tt 120 30 1] [] [] [] Hshort)).
Defined.

(** ** Missing elevations *)

(** C6: every profile of the grouping is built from the features that carry
    an elevation alone: it is the list of their samples, each sample has the
    elevation attribute of such a feature, never the NODATA value, and a
    non-empty profile is the same entry the grouping would have had if the
    features without elevation had not been in the input. *)
Theorem C6_nodata_excluded :
  forall (Point : Type) (features : list (Feature Point)) (pid : Z)
         (profile : list (Sample Point)),
    In (pid, profile) (group_profiles features) ->
    profile = samples_of pid (filter (@has_elevation Point) features)
    /\
    Forall (fun s =>
              elevation s <> (-9999)%R /\
              exists f, In f features /\ has_elevation f = true /\
                        attr_elev_1 f = Some (elevation s))
           profile
    /\
    (profile <> [] ->
     In (pid, profile)
        (group_profiles (filter (@has_elevation Point) features))).
Proof.
  intros Point features pid profile Hin.
  apply group_profiles_entry in Hin. subst profile.
  split; [now rewrite samples_of_filter | split].
  - apply Forall_forall. intros s Hs.
    apply samples_of_In in Hs. destruct Hs as (f & Hf & _ & Hv).
    unfold valid_sample in Hv. unfold has_elevation.
    destruct (attr_elev_1 f) as [e |] eqn:He; [| discriminate Hv].
    destruct (Reqb e (-9999)) eqn:Hnd; [discriminate Hv |].
    injection Hv as <-. cbn [elevation].
    split; [now apply Reqb_false_inv |].
    exists f. rewrite He, Hnd. repeat split; assumption.
  - intros Hne. apply dict_get_Some_In.
    rewrite group_profiles_get, samples_of_filter.
    destruct (samples_of pid features) as [| s rest] eqn:Hs;
      [now contradiction Hne |].
    assert (Hex : existsb (fun f => (feature_profile_id f =? pid)%Z)
                    (filter (@has_elevation Point) features) = true).
    { assert (Hs' : In s (samples_of pid features))
        by (rewrite Hs; now left).
      apply samples_of_In in Hs'. destruct Hs' as (f & Hf & Hid & Hv).
      apply existsb_exists. exists f. split.
      - apply filter_In. split; [exact Hf |].
        destruct (has_elevation f) eqn:Hh; [reflexivity |].
        rewrite (valid_sample_has_elevation f Hh) in Hv. discriminate Hv.
      - now apply Z.eqb_eq. }
    now rewrite Hex.
Qed.

Lemma C6_witness :
  In (4%Z, [mkSample tt 100 30 4]) (group_profiles gappy_layer) /\
  [mkSample tt 100 30 4]
  = samples_of 4 (filter (@has_elevation unit) gappy_layer).
Proof.
  assert (Hin : In (4%Z, [mkSample tt 100 30 4])
                   (group_profiles gappy_layer)).
  { apply dict_get_Some_In. rewrite group_profiles_get.
    unfold gappy_layer, samples_of, valid_sample.
    cbn [existsb flat_map feature_profile_id attr_TR_ID attr_elev_1 Z.eqb
         Pos.eqb orb geometry attr_distance].
    rewrite (@Reqb_true (-9999) (-9999)) by reflexivity.
    rewrite (@Reqb_false 100 (-9999)) by lra.
    reflexivity. }
  split; [exact Hin |].
  exact (proj1 (C6_nodata_excluded gappy_layer 4 [mkSample tt 100 30 4] Hin)).
Defined.

(** ** Grouping and ordering *)

(** C9: the transect identifier of a feature is the first present value of
    the chain explicit transect id, segment id, row id, with the feature id
    as the last resort; the grouping has one entry per identifier, holding
    the samples of exactly the features with that identifier, in input
    order; every sample lands in the entry of its identifier; and the
    analysis of a profile works on the profile sorted ascending by offset:
    the sorted list is in ascending order and a permutation of the profile,
    and for a profile that is long enough the anchor is located in the
    sorted list, looked up in it, and both sides are sliced from it. *)
Theorem C9_grouping_partitions_and_sorts :
  forall (Point Geometry : Type) (features : list (Feature Point))
         (truthy : Geometry -> bool)
         (geom_distance : Point -> Geometry -> R)
         (lineLocatePoint : Geometry -> Point -> R)
         (river_geom : Geometry)
         (height_threshold slope_threshold : R) (min_consecutive : Z)
         (point_spacing : R),
    (forall f : Feature Point,
        feature_profile_id f
        = first_present [attr_TR_ID f; attr_TR_SEGMENT f; attr_fid f]
            (feature_id f))
    /\
    NoDup (map fst (group_profiles features))
    /\
    (forall pid profile,
        In (pid, profile) (group_profiles features) ->
        profile = samples_of pid features /\
        Forall (fun s => profile_id s = pid) profile)
    /\
    (forall f s,
        In f features -> valid_sample f = Some s ->
        exists profile,
          In (feature_profile_id f, profile) (group_profiles features) /\
          In s profile)
    /\
    (forall pid profile bedrock_points,
        Sorted (@by_distance Point) (sort_by_distance profile) /\
        Permutation profile (sort_by_distance profile) /\
        analyze_profile truthy geom_distance lineLocatePoint river_geom
          height_threshold slope_threshold min_consecutive point_spacing
          pid profile bedrock_points
        = analyze_profile truthy geom_distance lineLocatePoint river_geom
            height_threshold slope_threshold min_consecutive point_spacing
            pid (sort_by_distance profile) bedrock_points /\
        analyze_profile truthy geom_distance lineLocatePoint river_geom
          height_threshold slope_threshold min_consecutive point_spacing
          pid profile bedrock_points
        = if (len profile <? min_consecutive + 1)%Z then Ok bedrock_points
          else
            river_point <-
              getitem (sort_by_distance profile)
                (locate_river_idx truthy geom_distance river_geom
                   (sort_by_distance profile)) ;;
            classify_sides height_threshold slope_threshold min_consecutive
              point_spacing pid (sort_by_distance profile)
              (locate_river_idx truthy geom_distance river_geom
                 (sort_by_distance profile))
              (elevation river_point)
              (if truthy river_geom
               then lineLocatePoint river_geom (point river_point)
               else 0%R)
              bedrock_points).
Proof.
  intros Point Geometry features truthy geom_distance lineLocatePoint g
    ht st mc ps.
  split; [| split; [| split; [| split]]].
  - intros f. unfold feature_profile_id. cbn [first_present].
    destruct (attr_TR_ID f), (attr_TR_SEGMENT f), (attr_fid f); reflexivity.
  - apply group_profiles_keys.
  - intros pid profile Hin. apply group_profiles_entry in Hin. subst profile.
    split; [reflexivity |].
    apply Forall_forall. intros s Hs. apply samples_of_In in Hs.
    destruct Hs as (f & _ & Hid & Hv). unfold valid_sample in Hv.
    destruct (attr_elev_1 f) as [e |]; [| discriminate Hv].
    destruct (Reqb e (-9999)); [discriminate Hv |].
    injection Hv as <-. exact Hid.
  - intros f s Hf Hv. exists (samples_of (feature_profile_id f) features).
    split.
    + apply dict_get_Some_In. rewrite group_profiles_get.
      assert (Hex : existsb (fun f' => (feature_profile_id f'
                                        =? feature_profile_id f)%Z)
                      features = true).
      { apply existsb_exists. exists f. split; [exact Hf |].
        apply Z.eqb_refl. }
      now rewrite Hex.
    + apply samples_of_In. exists f. repeat split; assumption.
  - intros pid profile acc.
    split; [apply sort_by_distance_sorted | split; [| split]].
    + apply sort_by_distance_perm.
    + symmetry. apply analyze_profile_sorted.
    + unfold analyze_profile.
      destruct (len profile <? mc + 1)%Z; reflexivity.
Qed.

(** ** An empty detection *)

Section EmptyDetection.

Variable Point Geometry : Type.
Variable combine : Geometry -> Geometry -> Geometry.
Variable truthy : Geometry -> bool.
Variable geom_distance : Point -> Geometry -> R.
Variable lineLocatePoint : Geometry -> Point -> R.
Variable QgsRasterLayer TransectsLayer PointsLayer : Type.
Variable native_transect :
  list Geometry -> R -> R -> Z -> R -> result TransectsLayer.
Variable native_pointsalonglines :
  TransectsLayer -> R -> Z -> Z -> result PointsLayer.
Variable native_rastersampling :
  PointsLayer -> QgsRasterLayer -> string -> result (list (Feature Point)).
Variable native_pointstopath :
  QgsVectorLayer Point -> string -> string -> result (QgsVectorLayer Point).
Variable native_smoothgeometry :
  QgsVectorLayer Point -> Z -> R -> Z -> string -> result unit.
Variable format_float : R -> string.
Variable format_int : Z -> string.

Local Abbreviation analyze :=
  (_analyze_transects_for_bedrock combine truthy geom_distance
     lineLocatePoint).
Local Abbreviation detect :=
  (detect_bedrock_banks combine truthy geom_distance lineLocatePoint
     native_transect native_pointsalonglines native_rastersampling
     native_pointstopath native_smoothgeometry format_float format_int).

(** C8: when the sampling steps succeed and the analysis produces no bank
    point, the detection prints that no bedrock banks were detected and
    returns a layer object, the memory line layer "bedrock_banks" without
    fields or features; it raises nothing. *)
Theorem C8_no_banks_gives_empty_layer :
  forall (rivers_layer : list Geometry) (dem_layer : QgsRasterLayer)
         (output_path : string)
         (buffer_distance height_threshold slope_threshold : R)
         (transect_spacing point_spacing : R) (min_consecutive : Z)
         (transects_layer : TransectsLayer) (points_layer : PointsLayer)
         (points_with_z : list (Feature Point)),
    native_transect rivers_layer buffer_distance 90 2 transect_spacing
    = Ok transects_layer ->
    native_pointsalonglines transects_layer point_spacing 0 0
    = Ok points_layer ->
    native_rastersampling points_layer dem_layer "elev_"
    = Ok points_with_z ->
    analyze points_with_z rivers_layer height_threshold slope_threshold
      min_consecutive point_spacing = Ok [] ->
    exists stdout,
      detect rivers_layer dem_layer output_path buffer_distance
        height_threshold slope_threshold transect_spacing point_spacing
        min_consecutive
      = Ok (stdout ++ ["Коренные берега не обнаружены"%string],
            MemoryLayer "LineString?crs=EPSG:3857" "bedrock_banks" [] []).
Proof.
  intros rivers dem out bd ht st ts ps mc tl pl pz Ht Hp Hr Ha.
  unfold detect_bedrock_banks.
  rewrite Ht. cbn [bind]. rewrite Hp. cbn [bind]. rewrite Hr. cbn [bind].
  rewrite Ha. cbn [bind].
  eexists. reflexivity.
Qed.

End EmptyDetection.

Lemma C8_witness :
  exists stdout,
    detect_bedrock_banks no_combine always_truthy zero_distance zero_locate
      ok_transect ok_pointsalonglines ok_rastersampling ok_pointstopath
      ok_smoothgeometry plain_float plain_int
      [] tt "banks.gpkg" 200 3 8 75 15 3
    = Ok (stdout ++ ["Коренные берега не обнаружены"%string],
          MemoryLayer "LineString?crs=EPSG:3857" "bedrock_banks" [] []).
Proof.
  apply (@C8_no_banks_gives_empty_layer unit unit no_combine always_truthy
           zero_distance zero_locate unit unit unit ok_transect
           ok_pointsalonglines ok_rastersampling ok_pointstopath
           ok_smoothgeometry plain_float plain_int
           [] tt "banks.gpkg" 200 3 8 75 15 3 tt tt rising_layer);
    reflexivity.
Defined.

(** * Further properties of the code *)

(** ** The classifier on longer lists and at the edges of its parameters *)

Section ClassifierEdges.

Variable Point : Type.
Variable points : list (Sample Point).
Variable river_elevation height_threshold slope_threshold : R.
Variable min_consecutive : Z.
Variable point_spacing : R.
Variable side_tag : string.
Variable pid : Z.
Variable river_distance : R.

Lemma sample_at_app_l (extra : list (Sample Point)) (k : Z) :
  (k < len points)%Z ->
  sample_at (points ++ extra) k = sample_at points k.
Proof.
  intros Hk. unfold sample_at. destruct (Z.ltb_spec k 0); [reflexivity |].
  apply nth_error_app1. unfold len in Hk. lia.
Qed.

Lemma sample_at_app_Some (extra : list (Sample Point)) (k : Z)
    (s : Sample Point) :
  sample_at points k = Some s -> sample_at (points ++ extra) k = Some s.
Proof.
  intros Hs. pose proof (sample_at_Some_range _ _ Hs) as Hr.
  rewrite sample_at_app_l by lia. exact Hs.
Qed.

(** An index that qualifies keeps qualifying when samples are added at the
    outer end. *)
Lemma qualifies_app (extra : list (Sample Point)) (i : Z) :
  qualifies points river_elevation height_threshold slope_threshold
    min_consecutive point_spacing i ->
  qualifies (points ++ extra) river_elevation height_threshold
    slope_threshold min_consecutive point_spacing i.
Proof.
  intros (Hi & (s & Hs & Hge) & Hsl & Hst).
  split; [exact Hi | split; [| split]].
  - exists s. split; [now apply sample_at_app_Some | exact Hge].
  - intros Hpos. destruct (Hsl Hpos) as (c & p & Hc & Hp & Hd).
    exists c, p. split; [now apply sample_at_app_Some |].
    split; [now apply sample_at_app_Some | exact Hd].
  - intros j Hj. destruct (Hst j Hj) as (n & Hn & Hgn).
    exists n. split; [now apply sample_at_app_Some | exact Hgn].
Qed.

(** An index whose whole window lies inside the shorter list qualifies there
    as soon as it qualifies in the longer one. *)
Lemma qualifies_app_inv (extra : list (Sample Point)) (k : Z) :
  (k < len points)%Z ->
  (k + (min_consecutive - 1) < len points)%Z ->
  qualifies (points ++ extra) river_elevation height_threshold
    slope_threshold min_consecutive point_spacing k ->
  qualifies points river_elevation height_threshold slope_threshold
    min_consecutive point_spacing k.
Proof.
  intros Hk Hroom (Hk0 & (s & Hs & Hge) & Hsl & Hst).
  split; [exact Hk0 | split; [| split]].
  - exists s. rewrite sample_at_app_l in Hs by lia. split; assumption.
  - intros Hpos. destruct (Hsl Hpos) as (c & p & Hc & Hp & Hd).
    rewrite sample_at_app_l in Hc by lia.
    rewrite sample_at_app_l in Hp by lia.
    exists c, p. split; [exact Hc | split; [exact Hp | exact Hd]].
  - intros j Hj. destruct (Hst j Hj) as (n & Hn & Hgn).
    rewrite sample_at_app_l in Hn by lia.
    exists n. split; assumption.
Qed.

(** The loop body at index 0 never divides, so it never raises. *)
Lemma candidate_first_returns :
  (0 < len points)%Z ->
  exists r,
    candidate points river_elevation height_threshold slope_threshold
      min_consecutive point_spacing side_tag pid river_distance 0 = Ok r.
Proof.
  intros Hlen. unfold candidate.
  destruct (sample_at_in_range points (i := 0) ltac:(lia)) as [s Hs].
  rewrite (@getitem_sample_at Point points 0 s) by (lia || assumption).
  cbn [bind].
  destruct (Rltb (elevation s - river_elevation) height_threshold);
    [eexists; reflexivity |].
  unfold slope_rejects. change (0 >? 0)%Z with false. cbn [bind].
  pose proof (@stability_loop_spec Point points river_elevation
                height_threshold 0 ltac:(lia) 1 min_consecutive ltac:(lia))
    as Hst.
  destruct (stability_loop points river_elevation height_threshold 0
              (range 1 min_consecutive)) as [st | e]; [| contradiction].
  cbn [bind]. destruct (is_stable st); eexists; reflexivity.
Qed.

End ClassifierEdges.

Section ZeroSpacing.

Variable Point : Type.
Variable points : list (Sample Point).
Variable river_elevation height_threshold slope_threshold : R.
Variable min_consecutive : Z.
Variable side_tag : string.
Variable pid : Z.
Variable river_distance : R.

Local Abbreviation height_ok :=
  (height_criterion points river_elevation height_threshold).
Local Abbreviation candidate0 :=
  (candidate points river_elevation height_threshold slope_threshold
     min_consecutive 0 side_tag pid river_distance).
Local Abbreviation scan0 :=
  (scan points river_elevation height_threshold slope_threshold
     min_consecutive 0 side_tag pid river_distance).

(** With a spacing of zero, the loop body at an index after the first
    either skips a sample that is too low or divides by zero. *)
Lemma candidate_zero_spacing (i : Z) :
  (1 <= i < len points)%Z ->
  (candidate0 i = Ok None /\ ~ height_ok i) \/
  (candidate0 i = Raise ZeroDivisionError /\ height_ok i).
Proof.
  intros Hi. unfold candidate.
  destruct (sample_at_in_range points (i := i) ltac:(lia)) as [s Hs].
  rewrite (@getitem_sample_at Point points i s) by (lia || assumption).
  cbn [bind].
  destruct (Rltb (elevation s - river_elevation) height_threshold) eqn:Hh.
  - left. split; [reflexivity |].
    intros (s' & Hs' & Hge). rewrite Hs in Hs'. injection Hs' as <-.
    apply Rltb_true_inv in Hh. lra.
  - right. split.
    + unfold slope_rejects.
      destruct (Z.gtb_spec i 0) as [_ | Hle]; [| lia].
      destruct (sample_at_in_range points (i := i - 1) ltac:(lia))
        as [p Hp].
      rewrite (@getitem_sample_at Point points (i - 1) p)
        by (lia || assumption).
      cbn [bind]. unfold truediv.
      destruct (Req_dec_T 0 0) as [_ | Hne]; [reflexivity | now contradiction Hne].
    + exists s. split; [exact Hs | now apply Rltb_false_inv].
Qed.

Lemma scan_zero_spacing (a b : Z) :
  (1 <= a)%Z -> (b <= len points)%Z ->
  match scan0 (range a b) with
  | Ok None => forall i, (a <= i < b)%Z -> ~ height_ok i
  | Ok (Some _) => False
  | Raise e =>
      e = ZeroDivisionError /\ exists i, (a <= i < b)%Z /\ height_ok i
  end.
Proof.
  pattern a, b. apply range_ind; clear a b.
  - intros a b Hab _ _. rewrite range_nil by assumption. cbn. intros i Hi. lia.
  - intros a b Hab IH Ha Hb. rewrite range_cons by assumption.
    cbn [scan]. specialize (IH ltac:(lia) Hb).
    destruct (candidate_zero_spacing (i := a) ltac:(lia))
      as [[Hc Hlow] | [Hc Hhigh]]; rewrite Hc; cbn [bind].
    + destruct (scan0 (range (a + 1) b)) as [[bp |] | e].
      * exact IH.
      * intros i Hi. destruct (Z.eq_dec i a) as [-> | Hne];
          [exact Hlow | apply IH; lia].
      * destruct IH as (He & i & Hi & Hh).
        split; [exact He |]. exists i. split; [lia | exact Hh].
    + split; [reflexivity |]. exists a. split; [lia | exact Hhigh].
Qed.

End ZeroSpacing.

(** No slope reaches 90 degrees. *)
Lemma degrees_atan_lt_90 (q : R) : (degrees (atan q) < 90)%R.
Proof.
  pose proof PI_RGT_0 as Hpos. destruct (atan_bound q) as [_ Hub].
  unfold degrees.
  assert (He : 90%R = ((PI / 2) * (180 / PI))%R) by (field; lra).
  rewrite He. apply Rmult_lt_compat_r; [| exact Hub].
  apply Rdiv_lt_0_compat; lra.
Qed.

(** The first sample of [steep_side] is a bank for any slope threshold. *)
Lemma steep_side_bank (slope_threshold : R) :
  _find_bedrock_on_side steep_side 100 3 slope_threshold 2 15 "right" 2 0
  = Ok (Some (mkBankPoint tt 110 (110 - 100) "right" 2 0)).
Proof.
  rewrite (@find_bedrock_at unit steep_side 100 3 slope_threshold 2 15
             "right" 2 0 0 (mkSample tt 110 15 2)).
  - reflexivity.
  - lra.
  - reflexivity.
  - split; [lia | split; [| split]].
    + eexists. split; [reflexivity | cbn; lra].
    + intros Hpos. lia.
    + intros j Hj. replace j with 1%Z by lia.
      eexists. split; [reflexivity | cbn; lra].
  - intros k Hk. lia.
Qed.

(** X1: a bank point found on a side stays the result when further samples
    are added at the outer end of the side. *)
Theorem X1_found_bank_survives_longer_side :
  forall (Point : Type) (points extra : list (Sample Point))
         (river_elevation height_threshold slope_threshold : R)
         (min_consecutive : Z) (point_spacing : R)
         (side_tag : string) (pid : Z) (river_distance : R)
         (bp : BankPoint Point),
    point_spacing <> 0%R ->
    _find_bedrock_on_side points river_elevation height_threshold
      slope_threshold min_consecutive point_spacing side_tag pid
      river_distance = Ok (Some bp) ->
    _find_bedrock_on_side (points ++ extra) river_elevation height_threshold
      slope_threshold min_consecutive point_spacing side_tag pid
      river_distance = Ok (Some bp).
Proof.
  intros Point points extra re ht st mc ps side_tag pid rd bp Hps Hfind.
  pose proof (find_bedrock_spec points re ht st mc ps side_tag pid rd) as H.
  rewrite Hfind in H.
  destruct H as (i & s & Hi & Hroom & Hs & Hq & Hmin & ->).
  pose proof (sample_at_Some_range _ _ Hs) as Hr.
  apply (@find_bedrock_at Point (points ++ extra) re ht st mc ps side_tag
           pid rd i s Hps).
  - now apply sample_at_app_Some.
  - now apply qualifies_app.
  - intros k Hk Hqk. apply (Hmin k Hk).
    apply (@qualifies_app_inv Point points re ht st mc ps extra k);
      [lia | lia | exact Hqk].
Qed.

Lemma X1_witness :
  _find_bedrock_on_side (steep_side ++ [mkSample tt 90 60 2]) 100 3 8 2 15
    "right" 2 0
  = Ok (Some (mkBankPoint tt 110 (110 - 100) "right" 2 0)).
Proof.
  apply X1_found_bank_survives_longer_side; [lra |].
  apply steep_side_bank.
Defined.

(** X2: with a sample spacing of zero and [min_consecutive >= 1], the
    classifier raises [ZeroDivisionError] exactly when the first sample is
    not accepted and some later scanned sample passes the height criterion;
    the first sample is handled without any division. *)
Theorem X2_zero_spacing_division_error :
  forall (Point : Type) (points : list (Sample Point))
         (river_elevation height_threshold slope_threshold : R)
         (min_consecutive : Z) (side_tag : string) (pid : Z)
         (river_distance : R),
    (1 <= min_consecutive)%Z ->
    (_find_bedrock_on_side points river_elevation height_threshold
       slope_threshold min_consecutive 0 side_tag pid river_distance
     = Raise ZeroDivisionError
     <->
     ~ qualifies points river_elevation height_threshold slope_threshold
         min_consecutive 0 0 /\
     exists i, (0 < i < len points - min_consecutive + 1)%Z /\
               height_criterion points river_elevation height_threshold i).
Proof.
  intros Point points re ht st mc side_tag pid rd Hmc.
  unfold _find_bedrock_on_side.
  destruct (Z_le_gt_dec (len points - mc + 1) 0) as [Hempty | Hsome].
  - rewrite range_nil by lia. cbn [scan]. split; [discriminate |].
    intros (_ & i & Hi & _). lia.
  - rewrite range_cons by lia. cbn [scan].
    change (0 + 1)%Z with 1%Z.
    destruct (@candidate_first_returns Point points re ht st mc 0 side_tag
                pid rd ltac:(lia)) as [r Hr].
    pose proof (@candidate_spec Point points re ht st mc 0 side_tag pid rd
                  0 ltac:(lia)) as Hc.
    rewrite Hr in Hc |- *. cbn [bind]. destruct r as [bp |].
    + destruct Hc as [Hq _]. split; [discriminate |].
      intros (Hnq & _). contradiction.
    + pose proof (@scan_zero_spacing Point points re ht st mc side_tag pid
                    rd 1 (len points - mc + 1) ltac:(lia) ltac:(lia)) as Hs.
      destruct (scan points re ht st mc 0 side_tag pid rd
                  (range 1 (len points - mc + 1))) as [[bp |] | e].
      * contradiction.
      * split; [discriminate |].
        intros (_ & i & Hi & Hh). exfalso. apply (Hs i); [lia | exact Hh].
      * destruct Hs as (-> & i & Hi & Hh). split; [| reflexivity].
        intros _. split; [exact Hc |]. exists i. split; [lia | exact Hh].
Qed.

Lemma X2_witness :
  _find_bedrock_on_side [mkSample tt 100 15 1; mkSample tt 110 15 1]
    100 3 8 1 0 "left" 1 0
  = Raise ZeroDivisionError.
Proof.
  apply (X2_zero_spacing_division_error
           [mkSample tt 100 15 1; mkSample tt 110 15 1] 100 3 8 "left" 1 0
           (min_consecutive := 1)); [lia |].
  split.
  - intros (_ & (s & Hs & Hge) & _). cbn in Hs. injection Hs as <-.
    cbn in Hge. lra.
  - exists 1%Z. split; [unfold len; cbn; lia |].
    eexists. split; [reflexivity | cbn; lra].
Defined.

(** X3: with [min_consecutive <= 0] and a spacing other than zero the
    classifier never returns None: it returns the sample at the least scan
    index that passes the criteria, no earlier index passing them, and
    raises [IndexError] when no index passes (also on an empty side). *)
Theorem X3_nonpositive_window_index_error :
  forall (Point : Type) (points : list (Sample Point))
         (river_elevation height_threshold slope_threshold : R)
         (min_consecutive : Z) (point_spacing : R)
         (side_tag : string) (pid : Z) (river_distance : R),
    (min_consecutive <= 0)%Z ->
    point_spacing <> 0%R ->
    (exists i current,
        sample_at points i = Some current /\
        qualifies points river_elevation height_threshold slope_threshold
          min_consecutive point_spacing i /\
        (forall k, (k < i)%Z ->
                   ~ qualifies points river_elevation height_threshold
                       slope_threshold min_consecutive point_spacing k) /\
        _find_bedrock_on_side points river_elevation height_threshold
          slope_threshold min_consecutive point_spacing side_tag pid
          river_distance
        = Ok (Some (bank_point_of river_elevation current side_tag pid
                      river_distance)))
    \/
    ((forall k, ~ qualifies points river_elevation height_threshold
                    slope_threshold min_consecutive point_spacing k) /\
     _find_bedrock_on_side points river_elevation height_threshold
       slope_threshold min_consecutive point_spacing side_tag pid
       river_distance = Raise IndexError).
Proof.
  intros Point points re ht st mc ps side_tag pid rd Hmc Hps.
  pose proof (find_bedrock_spec points re ht st mc ps side_tag pid rd) as H.
  destruct (_find_bedrock_on_side points re ht st mc ps side_tag pid rd)
    as [[bp |] | e].
  - left. destruct H as (i & s & _ & _ & Hs & Hq & Hmin & ->).
    exists i, s.
    split; [exact Hs | split; [exact Hq | split; [| reflexivity]]].
    intros k Hk Hqk. destruct (Z_lt_ge_dec k 0) as [Hneg | Hpos].
    + destruct Hqk as [Hk0 _]. lia.
    + apply (Hmin k); [lia | exact Hqk].
  - exfalso. destruct H as [Hge _]. lia.
  - right. destruct H as [[_ Hz] | (-> & _ & Hnone)]; [contradiction |].
    split; [exact Hnone | reflexivity].
Qed.

Lemma X3_witness :
  _find_bedrock_on_side (@nil (Sample unit)) 100 3 8 0 15 "left" 1 0
  = Raise IndexError.
Proof.
  destruct (@X3_nonpositive_window_index_error unit [] 100 3 8 0 15 "left"
              1 0 ltac:(lia) ltac:(lra))
    as [(i & s & Hs & _) | [_ Hraise]].
  - exfalso. apply sample_at_Some_range in Hs. unfold len in Hs. cbn in Hs.
    lia.
  - exact Hraise.
Defined.

(** X4: with a slope threshold above 90 degrees, the only sample the
    classifier can return is the first of the side, where the slope is not
    tested: at every later index the slope, which never exceeds 90 degrees,
    is below the threshold. *)
Theorem X4_steep_threshold_only_first_sample :
  forall (Point : Type) (points : list (Sample Point))
         (river_elevation height_threshold slope_threshold : R)
         (min_consecutive : Z) (point_spacing : R)
         (side_tag : string) (pid : Z) (river_distance : R)
         (bp : BankPoint Point),
    (slope_threshold > 90)%R ->
    _find_bedrock_on_side points river_elevation height_threshold
      slope_threshold min_consecutive point_spacing side_tag pid
      river_distance = Ok (Some bp) ->
    exists first,
      sample_at points 0 = Some first /\
      bp = bank_point_of river_elevation first side_tag pid river_distance.
Proof.
  intros Point points re ht st mc ps side_tag pid rd bp Hst Hfind.
  pose proof (find_bedrock_spec points re ht st mc ps side_tag pid rd) as H.
  rewrite Hfind in H.
  destruct H as (i & s & Hi & _ & Hs & (_ & _ & Hsl & _) & _ & ->).
  destruct (Z.eq_dec i 0) as [-> | Hne].
  - exists s. split; [exact Hs | reflexivity].
  - exfalso. destruct (Hsl ltac:(lia)) as (c & p & _ & _ & Hd).
    pose proof (degrees_atan_lt_90 ((elevation c - elevation p) / ps)).
    lra.
Qed.

Lemma X4_witness :
  exists first,
    sample_at steep_side 0 = Some first /\
    mkBankPoint tt 110 (110 - 100) "right" 2 0
    = bank_point_of 100 first "right" 2 0.
Proof.
  apply (@X4_steep_threshold_only_first_sample unit steep_side 100 3 91 2 15
           "right" 2 0 (mkBankPoint tt 110 (110 - 100) "right" 2 0)).
  - lra.
  - apply steep_side_bank.
Defined.

(** ** The grouping dict and the river geometry *)

Section GroupingExtras.

Variable Point : Type.

Local Abbreviation dict := (profiles_dict Point).
Local Abbreviation total d := (List.length (List.concat (map snd d))).

Lemma total_new_key (k : Z) (d : dict) :
  total (d ++ [(k, @nil (Sample Point))]) = total d.
Proof.
  rewrite map_app, concat_app, List.length_app. cbn. lia.
Qed.

Lemma total_dict_append (k : Z) (s : Sample Point) (d : dict) :
  dict_mem k d = true -> total (dict_append k s d) = S (total d).
Proof.
  induction d as [| [k0 v0] d IH]; cbn [dict_mem dict_append];
    [discriminate |].
  destruct (k =? k0)%Z; intros Hm; cbn [map snd List.concat];
    rewrite !List.length_app.
  - cbn. lia.
  - rewrite (IH Hm). lia.
Qed.

Lemma dict_mem_after_insert (k : Z) (d : dict) :
  dict_mem k (if dict_mem k d then d else d ++ [(k, [])]) = true.
Proof.
  destruct (dict_mem k d) eqn:Hm; [exact Hm |].
  rewrite dict_mem_get, dict_get_new_key.
  rewrite dict_mem_get in Hm.
  destruct (dict_get k d); [discriminate |]. now rewrite Z.eqb_refl.
Qed.

(** One step of the grouping loop stores one sample for a feature that
    carries an elevation and none otherwise. *)
Lemma total_group_step (d : dict) (f : Feature Point) :
  total (group_step d f)
  = (total d + if has_elevation f then 1 else 0)%nat.
Proof.
  unfold group_step, has_elevation. cbv zeta.
  set (k := feature_profile_id f).
  assert (Hins : total (if dict_mem k d then d else d ++ [(k, [])])
                 = total d).
  { destruct (dict_mem k d); [reflexivity | apply total_new_key]. }
  destruct (attr_elev_1 f) as [e |]; cbn [negb];
    [| rewrite Nat.add_0_r; exact Hins].
  destruct (Reqb e (-9999)); cbn [negb];
    [rewrite Nat.add_0_r; exact Hins |].
  rewrite total_dict_append by apply dict_mem_after_insert.
  rewrite Nat.add_1_r. f_equal. exact Hins.
Qed.

Lemma total_fold_group_step (features : list (Feature Point)) :
  forall d : dict,
    total (fold_left (@group_step Point) features d)
    = (total d + List.length (filter (@has_elevation Point) features))%nat.
Proof.
  induction features as [| f features IH]; intros d; cbn [fold_left filter].
  - cbn. lia.
  - rewrite IH, total_group_step.
    destruct (has_elevation f); cbn [List.length]; lia.
Qed.

Lemma group_profiles_key_iff (features : list (Feature Point)) (pid : Z) :
  In pid (map fst (group_profiles features)) <->
  exists f, In f features /\ feature_profile_id f = pid.
Proof.
  pose proof (group_profiles_get pid features) as Hget.
  pose proof (dict_get_None_keys pid (group_profiles features)) as Hnone.
  destruct (existsb (fun f => (feature_profile_id f =? pid)%Z) features)
    eqn:Hex.
  - split.
    + intros _. apply existsb_exists in Hex. destruct Hex as (f & Hf & He).
      exists f. split; [exact Hf | now apply Z.eqb_eq].
    + intros _.
      destruct (in_dec Z.eq_dec pid (map fst (group_profiles features)))
        as [Hin | Hnotin]; [exact Hin |].
      apply Hnone in Hnotin. rewrite Hget in Hnotin. discriminate Hnotin.
  - split.
    + intros Hin. exfalso. apply (proj1 Hnone Hget). exact Hin.
    + intros (f & Hf & He). exfalso.
      assert (Ht : existsb (fun f => (feature_profile_id f =? pid)%Z)
                     features = true).
      { apply existsb_exists. exists f. split; [exact Hf | now apply Z.eqb_eq]. }
      rewrite Ht in Hex. discriminate Hex.
Qed.

End GroupingExtras.

(** X5: the grouping has an entry for every transect identifier that occurs
    in the input, whether or not its features carry an elevation, and for no
    other; a transect whose features all lack an elevation gets an empty
    profile. *)
Theorem X5_every_transect_gets_an_entry :
  forall (Point : Type) (features : list (Feature Point)) (pid : Z),
    (In pid (map fst (group_profiles features)) <->
     exists f, In f features /\ feature_profile_id f = pid)
    /\
    ((exists f, In f features /\ feature_profile_id f = pid) ->
     (forall f, In f features -> feature_profile_id f = pid ->
                has_elevation f = false) ->
     In (pid, []) (group_profiles features)).
Proof.
  intros Point features pid. split; [apply group_profiles_key_iff |].
  intros (f & Hf & Hid) Hnone.
  apply dict_get_Some_In. rewrite group_profiles_get.
  assert (Hex : existsb (fun f => (feature_profile_id f =? pid)%Z) features
                = true).
  { apply existsb_exists. exists f. split; [exact Hf | now apply Z.eqb_eq]. }
  rewrite Hex. f_equal.
  destruct (samples_of pid features) as [| s rest] eqn:Hs; [reflexivity |].
  exfalso.
  assert (Hin : In s (samples_of pid features)) by (rewrite Hs; now left).
  apply samples_of_In in Hin. destruct Hin as (f' & Hf' & Hid' & Hv).
  rewrite (valid_sample_has_elevation f' (Hnone f' Hf' Hid')) in Hv.
  discriminate Hv.
Qed.

Lemma X5_witness :
  In (4%Z, @nil (Sample unit))
     (group_profiles
        [mkFeature (Some 4%Z) None None 20 tt (Some (-9999)%R) 0;
         mkFeature None (Some 4%Z) None 21 tt None 15]).
Proof.
  apply (proj2 (@X5_every_transect_gets_an_entry unit
                  [mkFeature (Some 4%Z) None None 20 tt (Some (-9999)%R) 0;
                   mkFeature None (Some 4%Z) None 21 tt None 15] 4%Z)).
  - eexists. split; [left; reflexivity | reflexivity].
  - intros f [<- | [<- | []]] _; unfold has_elevation; cbn [attr_elev_1].
    + now rewrite Reqb_true.
    + reflexivity.
Defined.

(** X6: the grouping stores each feature that carries an elevation exactly
    once: the profiles together hold as many samples as the input has
    features with an elevation. *)
Theorem X6_grouping_conserves_samples :
  forall (Point : Type) (features : list (Feature Point)),
    List.length (List.concat (map snd (group_profiles features)))
    = List.length (filter (@has_elevation Point) features).
Proof.
  intros Point features. unfold group_profiles.
  rewrite total_fold_group_step. reflexivity.
Qed.

(** X7: the river geometry is absent exactly when the river layer has no
    feature; otherwise it is the geometry of the first feature combined with
    those of the others, one after the other from the left. *)
Theorem X7_river_geometry_is_a_left_fold :
  forall (Geometry : Type) (combine : Geometry -> Geometry -> Geometry)
         (rivers_layer : list Geometry),
    (river_geometry combine rivers_layer = None <-> rivers_layer = [])
    /\
    (forall g rest,
        rivers_layer = g :: rest ->
        river_geometry combine rivers_layer
        = Some (fold_left combine rest g)).
Proof.
  intros Geometry combine rivers.
  assert (Hfold : forall rest g,
            fold_left
              (fun river_geom x =>
                 match river_geom with
                 | None => Some x
                 | Some r => Some (combine r x)
                 end) rest (Some g)
            = Some (fold_left combine rest g)).
  { induction rest as [| x rest IH]; intros g; cbn [fold_left];
      [reflexivity | apply IH]. }
  split.
  - split.
    + destruct rivers as [| g rest]; [reflexivity |].
      unfold river_geometry. cbn [fold_left]. rewrite Hfold. discriminate.
    + intros ->. reflexivity.
  - intros g rest ->. unfold river_geometry. cbn [fold_left]. apply Hfold.
Qed.

(** ** What the analysis returns *)

Lemma getitem_In (A : Type) (l : list A) (k : Z) (a : A) :
  getitem l k = Ok a -> In a l.
Proof.
  unfold getitem.
  destruct ((if (k <? 0)%Z then (len l + k)%Z else k) <? 0)%Z;
    [discriminate |].
  destruct (nth_error l _) as [x |] eqn:Hn; [| discriminate].
  intros E. injection E as <-. eapply nth_error_In. exact Hn.
Qed.

Lemma In_slice_to (A : Type) (l : list A) (k : Z) (a : A) :
  In a (slice_to l k) -> In a l.
Proof.
  unfold slice_to. intros H.
  rewrite <- (firstn_skipn (slice_bound (len l) k) l).
  apply in_or_app. now left.
Qed.

Lemma In_slice_from (A : Type) (l : list A) (k : Z) (a : A) :
  In a (slice_from l k) -> In a l.
Proof.
  unfold slice_from. intros H.
  rewrite <- (firstn_skipn (slice_bound (len l) k) l).
  apply in_or_app. now right.
Qed.

Lemma sample_at_In (Point : Type) (points : list (Sample Point)) (i : Z)
    (s : Sample Point) :
  sample_at points i = Some s -> In s points.
Proof.
  unfold sample_at. destruct (i <? 0)%Z; [discriminate |].
  apply nth_error_In.
Qed.

Lemma one_per_side_sides (Point : Type) (found : list (BankPoint Point)) :
  one_per_side found ->
  Forall (fun b => side b = "left"%string \/ side b = "right"%string) found.
Proof.
  intros [-> | [(b & -> & Hb) | (bl & br & -> & Hl & Hr)]].
  - constructor.
  - constructor; [exact Hb | constructor].
  - constructor; [now left |]. constructor; [now right | constructor].
Qed.

Section AnalysisOutcome.

Variable Point Geometry : Type.
Variable truthy : Geometry -> bool.
Variable geom_distance : Point -> Geometry -> R.
Variable lineLocatePoint : Geometry -> Point -> R.
Variable river_geom : Geometry.
Variable height_threshold slope_threshold : R.
Variable min_consecutive : Z.
Variable point_spacing : R.

Local Abbreviation find_side :=
  (fun points river_elevation =>
     _find_bedrock_on_side points river_elevation height_threshold
       slope_threshold min_consecutive point_spacing).
Local Abbreviation sides :=
  (classify_sides height_threshold slope_threshold min_consecutive
     point_spacing).
Local Abbreviation analyze_one :=
  (analyze_profile truthy geom_distance lineLocatePoint river_geom
     height_threshold slope_threshold min_consecutive point_spacing).
Local Abbreviation analyze_all :=
  (analyze_profiles truthy geom_distance lineLocatePoint river_geom
     height_threshold slope_threshold min_consecutive point_spacing).
Local Abbreviation along_river :=
  (fun anchor : Sample Point =>
     if truthy river_geom
     then lineLocatePoint river_geom (point anchor)
     else 0%R).
Local Abbreviation reported :=
  (bank_of_profile height_threshold along_river).

(** What a bank point returned by the classifier is made of. *)
Lemma find_bedrock_found (points : list (Sample Point)) (re : R)
    (side_tag : string) (pid : Z) (rd : R) (bp : BankPoint Point) :
  find_side points re side_tag pid rd = Ok (Some bp) ->
  exists s, In s points /\
            bp = bank_point_of re s side_tag pid rd /\
            (elevation s - re >= height_threshold)%R.
Proof.
  intros Hfind.
  pose proof (find_bedrock_spec points re height_threshold slope_threshold
                min_consecutive point_spacing side_tag pid rd) as H.
  rewrite Hfind in H.
  destruct H as (i & s & _ & _ & Hs & (_ & (s' & Hs' & Hge) & _) & _ & ->).
  rewrite Hs in Hs'. injection Hs' as <-.
  exists s. split; [now apply sample_at_In with i | split; [reflexivity | exact Hge]].
Qed.

(** With [min_consecutive >= 1] and a spacing other than zero the classifier
    returns. *)
Lemma find_bedrock_returns (points : list (Sample Point)) (re : R)
    (side_tag : string) (pid : Z) (rd : R) :
  (1 <= min_consecutive)%Z -> point_spacing <> 0%R ->
  exists r, find_side points re side_tag pid rd = Ok r.
Proof.
  intros Hmc Hps.
  pose proof (find_bedrock_spec points re height_threshold slope_threshold
                min_consecutive point_spacing side_tag pid rd) as H.
  destruct (_find_bedrock_on_side points re height_threshold
              slope_threshold min_consecutive point_spacing side_tag pid rd)
    as [r | e]; [now exists r |].
  exfalso. destruct H as [[_ Hz] | (_ & Hle & _)]; [contradiction | lia].
Qed.

(** The two scans of one profile add nothing, one bank point, or a left and
    a right bank point, each built from a sample of the profile. *)
Lemma classify_sides_outcome (pid : Z) (profile : list (Sample Point))
    (a : Z) (re rd : R) (acc r : list (BankPoint Point)) :
  sides pid profile a re rd acc = Ok r ->
  exists found,
    r = acc ++ found /\ one_per_side found /\
    Forall (fun bp =>
              exists s, In s profile /\
                        bp = bank_point_of re s (side bp) pid rd /\
                        (elevation s - re >= height_threshold)%R)
           found.
Proof.
  unfold classify_sides.
  destruct (find_side (reversed (slice_to profile a)) re "left"%string pid rd)
    as [l | e] eqn:Hl; cbn [bind]; [| discriminate].
  destruct (find_side (slice_from profile (a + 1)) re "right"%string pid rd)
    as [r' | e] eqn:Hr; cbn [bind]; [| discriminate].
  intros E. injection E as <-.
  assert (HL : forall bl, l = Some bl ->
            side bl = "left"%string /\
            exists s, In s profile /\
                      bl = bank_point_of re s (side bl) pid rd /\
                      (elevation s - re >= height_threshold)%R).
  { intros bl ->. destruct (find_bedrock_found _ _ _ _ _ Hl)
      as (s & Hin & -> & Hge).
    split; [reflexivity |]. exists s.
    split; [| split; [reflexivity | exact Hge]].
    apply In_slice_to with a. unfold reversed in Hin.
    now apply in_rev. }
  assert (HR : forall br, r' = Some br ->
            side br = "right"%string /\
            exists s, In s profile /\
                      br = bank_point_of re s (side br) pid rd /\
                      (elevation s - re >= height_threshold)%R).
  { intros br ->. destruct (find_bedrock_found _ _ _ _ _ Hr)
      as (s & Hin & -> & Hge).
    split; [reflexivity |]. exists s.
    split; [| split; [reflexivity | exact Hge]].
    now apply In_slice_from with (a + 1)%Z. }
  destruct l as [bl |], r' as [br |]; cbn [append_if_found].
  - destruct (HL bl eq_refl) as [Hsl HbL].
    destruct (HR br eq_refl) as [Hsr HbR].
    exists [bl; br]. rewrite <- app_assoc.
    split; [reflexivity | split].
    + right. right. exists bl, br. repeat split; assumption.
    + constructor; [exact HbL | constructor; [exact HbR | constructor]].
  - destruct (HL bl eq_refl) as [Hsl HbL].
    exists [bl]. split; [reflexivity | split].
    + right. left. exists bl. split; [reflexivity | now left].
    + constructor; [exact HbL | constructor].
  - destruct (HR br eq_refl) as [Hsr HbR].
    exists [br]. split; [reflexivity | split].
    + right. left. exists br. split; [reflexivity | now right].
    + constructor; [exact HbR | constructor].
  - exists []. split; [now rewrite app_nil_r | split].
    + now left.
    + constructor.
Qed.

(** The analysis of one profile, when it returns. *)
Lemma analyze_profile_outcome (pid : Z) (profile : list (Sample Point))
    (acc r : list (BankPoint Point)) :
  analyze_one pid profile acc = Ok r ->
  exists found,
    r = acc ++ found /\ one_per_side found /\
    Forall (reported pid profile) found.
Proof.
  unfold analyze_profile.
  destruct (len profile <? min_consecutive + 1)%Z.
  - intros E. injection E as <-. exists [].
    split; [now rewrite app_nil_r | split; [now left | constructor]].
  - cbv zeta.
    destruct (getitem (sort_by_distance profile)
                (locate_river_idx truthy geom_distance river_geom
                   (sort_by_distance profile))) as [rp | e] eqn:Hrp;
      cbn [bind]; [| discriminate].
    intros Hc. apply classify_sides_outcome in Hc.
    destruct Hc as (found & -> & Hshape & Hall).
    exists found. split; [reflexivity | split; [exact Hshape |]].
    assert (Hback : forall s, In s (sort_by_distance profile) ->
                              In s profile).
    { intros s. apply Permutation_in, Permutation_sym,
        sort_by_distance_perm. }
    eapply Forall_impl; [| exact Hall].
    intros bp (s & Hs & Hbp & Hge).
    exists rp, s. rewrite Hbp. cbn.
    split; [apply Hback; now apply getitem_In with (k := locate_river_idx
              truthy geom_distance river_geom (sort_by_distance profile)) |].
    split; [now apply Hback |].
    repeat split; try reflexivity. exact Hge.
Qed.

(** The loop over the profiles, when it returns: one group of bank points
    per entry of the dict, in the order of the dict. *)
Lemma analyze_profiles_outcome (d : profiles_dict Point) :
  forall acc r,
    analyze_all d acc = Ok r ->
    exists founds,
      r = acc ++ List.concat founds /\
      Forall2 (fun entry found =>
                 one_per_side found /\
                 Forall (reported (fst entry) (snd entry)) found)
              d founds.
Proof.
  induction d as [| [pid profile] d IH]; intros acc r; cbn [analyze_profiles].
  - intros E. injection E as <-. exists [].
    split; [now rewrite app_nil_r | constructor].
  - destruct (analyze_one pid profile acc) as [acc' | e] eqn:Hone;
      cbn [bind]; [| discriminate].
    intros Hrest. apply analyze_profile_outcome in Hone.
    destruct Hone as (found & -> & Hshape & Hall).
    destruct (IH _ _ Hrest) as (founds & -> & Hf2).
    exists (found :: founds). cbn [List.concat].
    split; [now rewrite app_assoc |].
    constructor; [split; assumption | exact Hf2].
Qed.

(** The anchor index lies inside every non-empty profile. *)
Lemma locate_river_idx_range (profile : list (Sample Point)) :
  profile <> [] ->
  (0 <= locate_river_idx truthy geom_distance river_geom profile
   < len profile)%Z.
Proof.
  intros Hne. destruct (truthy river_geom) eqn:Ht.
  - destruct (locate_river_idx_nearest truthy geom_distance river_geom
                Ht Hne) as (s & Hs & _).
    now apply sample_at_Some_range in Hs.
  - rewrite locate_river_idx_midpoint by exact Ht.
    assert (Hpos : (0 < len profile)%Z).
    { destruct profile; [now contradiction Hne | unfold len; cbn; lia]. }
    split; [apply Z.div_pos; lia | apply Z.div_lt; lia].
Qed.

(** With [min_consecutive >= 1] and a spacing other than zero, the analysis
    of one profile returns. *)
Lemma analyze_profile_returns (pid : Z) (profile : list (Sample Point))
    (acc : list (BankPoint Point)) :
  (1 <= min_consecutive)%Z -> point_spacing <> 0%R ->
  exists r, analyze_one pid profile acc = Ok r.
Proof.
  intros Hmc Hps. unfold analyze_profile.
  destruct (Z.ltb_spec (len profile) (min_consecutive + 1)) as [_ | Hlong];
    [eexists; reflexivity |].
  cbv zeta.
  assert (Hne : sort_by_distance profile <> []).
  { intros Hnil. pose proof (sort_by_distance_len profile) as Hlen.
    rewrite Hnil in Hlen. unfold len in Hlen at 1. cbn in Hlen. lia. }
  pose proof (locate_river_idx_range Hne) as Hr.
  destruct (sample_at_in_range _ Hr) as [rp Hrp].
  rewrite (getitem_sample_at _ (proj1 Hr) Hrp). cbn [bind].
  unfold classify_sides.
  destruct (find_bedrock_returns
              (reversed (slice_to (sort_by_distance profile)
                 (locate_river_idx truthy geom_distance river_geom
                    (sort_by_distance profile))))
              (elevation rp) "left" pid
              (if truthy river_geom
               then lineLocatePoint river_geom (point rp) else 0%R)
              Hmc Hps) as [l Hl].
  rewrite Hl. cbn [bind].
  destruct (find_bedrock_returns
              (slice_from (sort_by_distance profile)
                 (locate_river_idx truthy geom_distance river_geom
                    (sort_by_distance profile) + 1))
              (elevation rp) "right" pid
              (if truthy river_geom
               then lineLocatePoint river_geom (point rp) else 0%R)
              Hmc Hps) as [r' Hr'].
  rewrite Hr'. cbn [bind]. eexists. reflexivity.
Qed.

Lemma analyze_profiles_returns (d : profiles_dict Point) :
  (1 <= min_consecutive)%Z -> point_spacing <> 0%R ->
  forall acc, exists r, analyze_all d acc = Ok r.
Proof.
  intros Hmc Hps. induction d as [| [pid profile] d IH]; intros acc;
    cbn [analyze_profiles]; [eexists; reflexivity |].
  destruct (analyze_profile_returns pid profile acc Hmc Hps) as [acc' Ha].
  rewrite Ha. cbn [bind]. apply IH.
Qed.

End AnalysisOutcome.

Lemma Forall2_concat_Forall (A B : Type) (Rel : A -> list B -> Prop)
    (Q : B -> Prop) (d : list A) (founds : list (list B)) :
  Forall2 Rel d founds ->
  (forall entry found, In entry d -> Rel entry found -> Forall Q found) ->
  Forall Q (List.concat founds).
Proof.
  induction 1 as [| entry found d founds Hrel Hrest IH]; intros Hq;
    cbn [List.concat]; [constructor |].
  apply Forall_app. split.
  - apply (Hq entry found); [now left | exact Hrel].
  - apply IH. intros e f He. apply Hq. now right.
Qed.

Lemma valid_sample_fields (Point : Type) (f : Feature Point)
    (s : Sample Point) :
  valid_sample f = Some s ->
  point s = geometry f /\ attr_elev_1 f = Some (elevation s) /\
  profile_id s = feature_profile_id f.
Proof.
  unfold valid_sample. destruct (attr_elev_1 f) as [e |]; [| discriminate].
  destruct (Reqb e (-9999)); [discriminate |].
  intros E. injection E as <-. cbn. repeat split.
Qed.

Lemma valid_sample_not_nodata (Point : Type) (f : Feature Point)
    (s : Sample Point) :
  valid_sample f = Some s -> elevation s <> (-9999)%R.
Proof.
  unfold valid_sample. destruct (attr_elev_1 f) as [e |]; [| discriminate].
  destruct (Reqb e (-9999)) eqn:Hnd; [discriminate |].
  intros E. injection E as <-. cbn. now apply Reqb_false_inv.
Qed.

Section PerTransect.

Variable Point : Type.

Local Abbreviation of_transect pid :=
  (fun bp : BankPoint Point => (bp_profile_id bp =? pid)%Z).

Lemma filter_all (pid : Z) (found : list (BankPoint Point)) :
  Forall (fun bp => bp_profile_id bp = pid) found ->
  filter (of_transect pid) found = found.
Proof.
  induction 1 as [| bp found Hbp _ IH]; cbn [filter]; [reflexivity |].
  rewrite Hbp, Z.eqb_refl, IH. reflexivity.
Qed.

Lemma filter_none (pid k : Z) (found : list (BankPoint Point)) :
  k <> pid ->
  Forall (fun bp => bp_profile_id bp = k) found ->
  filter (of_transect pid) found = [].
Proof.
  intros Hne. induction 1 as [| bp found Hbp _ IH]; cbn [filter];
    [reflexivity |].
  rewrite Hbp. destruct (Z.eqb_spec k pid); [contradiction | exact IH].
Qed.

(** Groups of bank points that carry the keys of a dict without repeated
    keys: the bank points of one transect are one of the groups. *)
Lemma filter_concat_groups (pid : Z) (d : profiles_dict Point)
    (founds : list (list (BankPoint Point))) :
  Forall2 (fun entry found =>
             one_per_side found /\
             Forall (fun bp => bp_profile_id bp = fst entry) found)
          d founds ->
  NoDup (map fst d) ->
  one_per_side (filter (of_transect pid) (List.concat founds)).
Proof.
  induction 1 as [| [k v] found d founds [Hshape Hids] Hrest IH];
    intros Hnd; cbn [List.concat].
  - now left.
  - cbn [map fst] in Hnd, Hids. inversion Hnd as [| ? ? Hnotin Hnd']; subst.
    rewrite filter_app.
    destruct (Z.eq_dec k pid) as [-> | Hne].
    + rewrite (filter_all Hids).
      assert (Hnil : filter (of_transect pid) (List.concat founds) = []).
      { clear IH Hshape Hids Hnd. induction Hrest
          as [| [k' v'] found' d' founds' [_ Hids'] _ IH'];
          cbn [List.concat]; [reflexivity |].
        cbn [map fst] in Hnotin, Hnd', Hids'.
        inversion Hnd' as [| ? ? _ Hnd'']; subst.
        rewrite filter_app, IH'.
        - rewrite (@filter_none pid k' found'); [reflexivity | | exact Hids'].
          intros ->. apply Hnotin. now left.
        - intros Hin. apply Hnotin. now right.
        - exact Hnd''. }
      rewrite Hnil, app_nil_r. exact Hshape.
    + rewrite (@filter_none pid k found Hne Hids). cbn [app].
      now apply IH.
Qed.

End PerTransect.

(** The analysis of [steep_layer] along one river feature. *)
Lemma group_steep_layer :
  group_profiles steep_layer = [(2%Z, steep_profile)].
Proof.
  unfold group_profiles, steep_layer. cbn [fold_left].
  repeat (erewrite group_step_valid; [| reflexivity | cbn; lra]).
  reflexivity.
Qed.

Lemma steep_profile_sorted : sort_by_distance steep_profile = steep_profile.
Proof.
  apply sort_by_distance_fixed. unfold steep_profile.
  repeat (constructor; [| first [constructor; unfold by_distance; cbn; lra
                              | constructor]]).
  constructor.
Qed.

Lemma steep_anchor :
  locate_river_idx always_truthy zero_distance tt steep_profile = 0%Z.
Proof.
  unfold locate_river_idx, steep_profile, always_truthy, zero_distance.
  cbn [nearest_loop lt_efloat].
  repeat (rewrite (@Rltb_false 0 0) by lra; cbn [nearest_loop lt_efloat]).
  reflexivity.
Qed.

Lemma steep_analysis :
  _analyze_transects_for_bedrock no_combine always_truthy zero_distance
    zero_locate steep_layer [tt] 3 8 2 15
  = Ok [mkBankPoint tt 110 (110 - 100) "right" 2 0].
Proof.
  unfold _analyze_transects_for_bedrock.
  change (river_geometry no_combine [tt]) with (Some tt).
  rewrite group_steep_layer. cbn [analyze_profiles].
  unfold analyze_profile.
  change (len steep_profile <? 2 + 1)%Z with false. cbv zeta.
  rewrite steep_profile_sorted, steep_anchor.
  change (getitem steep_profile 0) with (Ok (mkSample tt 100 0 2)).
  cbn [bind elevation point]. unfold classify_sides.
  change (reversed (slice_to steep_profile 0)) with (@nil (Sample unit)).
  change (slice_from steep_profile (0 + 1)) with steep_side.
  change (_find_bedrock_on_side (@nil (Sample unit)) 100 3 8 2 15 "left" 2
            (if always_truthy tt then zero_locate tt tt else 0%R))
    with (@Ok (option (BankPoint unit)) None).
  cbn [bind append_if_found].
  change (if always_truthy tt then zero_locate tt tt else 0%R) with 0%R.
  rewrite steep_side_bank. reflexivity.
Qed.

(** The analysis of [symmetric_layer] with a geometry that tests false: the
    anchor is the middle sample and each side has its bank at 104. *)
Lemma symmetric_analysis :
  _analyze_transects_for_bedrock no_combine never_truthy zero_distance
    zero_locate symmetric_layer [tt] 3 8 2 15
  = Ok [mkBankPoint tt 104 (104 - 100) "left" 1 0;
        mkBankPoint tt 104 (104 - 100) "right" 1 0].
Proof.
  assert (Hside : forall (d1 d2 : R) (tag : string),
            _find_bedrock_on_side
              [mkSample tt 104 d1 1; mkSample tt 105 d2 1] 100 3 8 2 15
              tag 1 0
            = Ok (Some (mkBankPoint tt 104 (104 - 100) tag 1 0))).
  { intros d1 d2 tag.
    rewrite (@find_bedrock_at unit
               [mkSample tt 104 d1 1; mkSample tt 105 d2 1] 100 3 8 2 15
               tag 1 0 0 (mkSample tt 104 d1 1)).
    - reflexivity.
    - lra.
    - reflexivity.
    - split; [lia | split; [| split]].
      + eexists. split; [reflexivity | cbn; lra].
      + intros Hpos. lia.
      + intros j Hj. replace j with 1%Z by lia.
        eexists. split; [reflexivity | cbn; lra].
    - intros k Hk. lia. }
  assert (Hgroup : group_profiles symmetric_layer
                   = [(1%Z, symmetric_profile)]).
  { unfold group_profiles, symmetric_layer. cbn [fold_left].
    repeat (erewrite group_step_valid; [| reflexivity | cbn; lra]).
    reflexivity. }
  assert (Hsorted : sort_by_distance symmetric_profile = symmetric_profile).
  { apply sort_by_distance_fixed. unfold symmetric_profile.
    repeat (constructor; [| first [constructor; unfold by_distance; cbn; lra
                                | constructor]]).
    constructor. }
  unfold _analyze_transects_for_bedrock.
  change (river_geometry no_combine [tt]) with (Some tt).
  rewrite Hgroup. cbn [analyze_profiles]. unfold analyze_profile.
  change (len symmetric_profile <? 2 + 1)%Z with false. cbv zeta.
  rewrite Hsorted.
  change (locate_river_idx never_truthy zero_distance tt symmetric_profile)
    with 2%Z.
  change (getitem symmetric_profile 2) with (Ok (mkSample tt 100 30 1)).
  cbn [bind elevation point]. unfold classify_sides.
  change (reversed (slice_to symmetric_profile 2))
    with [mkSample tt 104 15 1; mkSample tt 105 0 1].
  change (slice_from symmetric_profile (2 + 1))
    with [mkSample tt 104 45 1; mkSample tt 105 60 1].
  change (if never_truthy tt then zero_locate tt tt else 0%R) with 0%R.
  rewrite !Hside. reflexivity.
Qed.

(** X8: every bank point the analysis returns is a sampled point of the
    input: its position and elevation are those of a feature whose elevation
    is present and is not the NODATA value -9999, its height is measured from
    the elevation, also present and not -9999, of a feature of the same
    transect and is at least [height_threshold], its transect id is theirs,
    and its side is left or right. *)
Theorem X8_bank_points_are_input_samples :
  forall (Point Geometry : Type)
         (combine : Geometry -> Geometry -> Geometry)
         (truthy : Geometry -> bool)
         (geom_distance : Point -> Geometry -> R)
         (lineLocatePoint : Geometry -> Point -> R)
         (points_layer : list (Feature Point))
         (rivers_layer : list Geometry)
         (height_threshold slope_threshold : R) (min_consecutive : Z)
         (point_spacing : R) (bedrock_points : list (BankPoint Point)),
    _analyze_transects_for_bedrock combine truthy geom_distance
      lineLocatePoint points_layer rivers_layer height_threshold
      slope_threshold min_consecutive point_spacing = Ok bedrock_points ->
    Forall
      (fun bp =>
         (height_diff bp >= height_threshold)%R /\
         (side bp = "left"%string \/ side bp = "right"%string) /\
         exists f anchor anchor_elevation,
           In f points_layer /\ In anchor points_layer /\
           feature_profile_id f = bp_profile_id bp /\
           feature_profile_id anchor = bp_profile_id bp /\
           bp_point bp = geometry f /\
           attr_elev_1 f = Some (bp_elevation bp) /\
           bp_elevation bp <> (-9999)%R /\
           attr_elev_1 anchor = Some anchor_elevation /\
           anchor_elevation <> (-9999)%R /\
           height_diff bp = (bp_elevation bp - anchor_elevation)%R)
      bedrock_points.
Proof.
  intros Point Geometry combine truthy gd llp layer rivers ht st mc ps l.
  unfold _analyze_transects_for_bedrock.
  destruct (river_geometry combine rivers) as [g |].
  - intros Hall. apply analyze_profiles_outcome in Hall.
    destruct Hall as (founds & -> & Hf2). cbn [app].
    eapply Forall2_concat_Forall; [exact Hf2 |].
    intros [pid profile] found Hin [Hshape Hrep]. cbn [fst snd] in Hrep.
    apply group_profiles_entry in Hin. subst profile.
    pose proof (one_per_side_sides Hshape) as Hsides.
    rewrite Forall_forall in Hrep, Hsides |- *.
    intros bp Hbp. specialize (Hrep bp Hbp). specialize (Hsides bp Hbp).
    destruct Hrep as (a & s & Ha & Hs & Hpt & Hel & Hhd & Hge & Hid & _).
    apply samples_of_In in Ha. destruct Ha as (fa & Hfa & Hida & Hva).
    apply samples_of_In in Hs. destruct Hs as (fs & Hfs & Hids & Hvs).
    destruct (valid_sample_fields _ Hva) as (_ & Hea & _).
    destruct (valid_sample_fields _ Hvs) as (Hps & Hes & _).
    pose proof (valid_sample_not_nodata _ Hva) as Hna.
    pose proof (valid_sample_not_nodata _ Hvs) as Hns.
    split; [exact Hge | split; [exact Hsides |]].
    exists fs, fa, (elevation a).
    rewrite Hid, Hpt, Hel.
    split; [exact Hfs | split; [exact Hfa | split; [exact Hids |
    split; [exact Hida | split; [exact Hps | split; [exact Hes |
    split; [exact Hns | split; [exact Hea | split; [exact Hna |
    exact Hhd]]]]]]]]].
  - intros E. injection E as <-. constructor.
Qed.

Lemma X8_witness :
  Forall
    (fun bp : BankPoint unit =>
       (height_diff bp >= 3)%R /\
       (side bp = "left"%string \/ side bp = "right"%string) /\
       exists f anchor anchor_elevation,
         In f steep_layer /\ In anchor steep_layer /\
         feature_profile_id f = bp_profile_id bp /\
         feature_profile_id anchor = bp_profile_id bp /\
         bp_point bp = geometry f /\
         attr_elev_1 f = Some (bp_elevation bp) /\
         bp_elevation bp <> (-9999)%R /\
         attr_elev_1 anchor = Some anchor_elevation /\
         anchor_elevation <> (-9999)%R /\
         height_diff bp = (bp_elevation bp - anchor_elevation)%R)
    [mkBankPoint tt 110 (110 - 100) "right" 2 0].
Proof.
  exact (@X8_bank_points_are_input_samples unit unit no_combine
           always_truthy zero_distance zero_locate steep_layer [tt]
           3 8 2 15 _ steep_analysis).
Defined.

(** X9: the analysis returns at most two bank points per transect: for every
    transect id, the bank points that carry it are none, one, or a "left"
    one followed by a "right" one. *)
Theorem X9_at_most_one_bank_per_side :
  forall (Point Geometry : Type)
         (combine : Geometry -> Geometry -> Geometry)
         (truthy : Geometry -> bool)
         (geom_distance : Point -> Geometry -> R)
         (lineLocatePoint : Geometry -> Point -> R)
         (points_layer : list (Feature Point))
         (rivers_layer : list Geometry)
         (height_threshold slope_threshold : R) (min_consecutive : Z)
         (point_spacing : R) (bedrock_points : list (BankPoint Point))
         (pid : Z),
    _analyze_transects_for_bedrock combine truthy geom_distance
      lineLocatePoint points_layer rivers_layer height_threshold
      slope_threshold min_consecutive point_spacing = Ok bedrock_points ->
    one_per_side
      (filter (fun bp => (bp_profile_id bp =? pid)%Z) bedrock_points).
Proof.
  intros Point Geometry combine truthy gd llp layer rivers ht st mc ps l pid.
  unfold _analyze_transects_for_bedrock.
  destruct (river_geometry combine rivers) as [g |].
  - intros Hall. apply analyze_profiles_outcome in Hall.
    destruct Hall as (founds & -> & Hf2). cbn [app].
    apply filter_concat_groups with (d := group_profiles layer);
      [| apply group_profiles_keys].
    eapply Forall2_impl; [| exact Hf2].
    intros entry found [Hshape Hrep]. split; [exact Hshape |].
    eapply Forall_impl; [| exact Hrep].
    intros bp (a & s & _ & _ & _ & _ & _ & _ & Hid & _). exact Hid.
  - intros E. injection E as <-. now left.
Qed.

Lemma X9_witness :
  one_per_side
    (filter (fun bp : BankPoint unit => (bp_profile_id bp =? 1)%Z)
       [mkBankPoint tt 104 (104 - 100) "left" 1 0;
        mkBankPoint tt 104 (104 - 100) "right" 1 0]).
Proof.
  exact (@X9_at_most_one_bank_per_side unit unit no_combine never_truthy
           zero_distance zero_locate symmetric_layer [tt] 3 8 2 15 _ 1%Z
           symmetric_analysis).
Defined.

(** X10: the anchor lookup succeeds on every non-empty profile, with a
    sample of the profile, and raises [IndexError] on an empty one; so an
    empty profile that passes the length test, which takes
    [min_consecutive <= -1], makes the analysis of the profile raise
    [IndexError]. *)
Theorem X10_anchor_lookup :
  forall (Point Geometry : Type)
         (truthy : Geometry -> bool)
         (geom_distance : Point -> Geometry -> R)
         (lineLocatePoint : Geometry -> Point -> R)
         (river_geom : Geometry) (profile : list (Sample Point))
         (height_threshold slope_threshold : R) (min_consecutive : Z)
         (point_spacing : R) (pid : Z)
         (bedrock_points : list (BankPoint Point)),
    (profile <> [] ->
     exists anchor,
       getitem profile
         (locate_river_idx truthy geom_distance river_geom profile)
       = Ok anchor /\ In anchor profile)
    /\
    getitem (@nil (Sample Point))
      (locate_river_idx truthy geom_distance river_geom [])
    = Raise IndexError
    /\
    ((min_consecutive <= -1)%Z ->
     analyze_profile truthy geom_distance lineLocatePoint river_geom
       height_threshold slope_threshold min_consecutive point_spacing
       pid [] bedrock_points = Raise IndexError).
Proof.
  intros Point Geometry truthy gd llp g profile ht st mc ps pid acc.
  assert (Hempty : getitem (@nil (Sample Point))
                     (locate_river_idx truthy gd g []) = Raise IndexError).
  { unfold locate_river_idx. cbn [nearest_loop].
    destruct (truthy g); reflexivity. }
  split; [| split].
  - intros Hne.
    pose proof (@locate_river_idx_range Point Geometry truthy gd g profile
                  Hne) as Hr.
    destruct (sample_at_in_range _ Hr) as [s Hs].
    exists s. split; [now apply getitem_sample_at |].
    now apply sample_at_In with
      (locate_river_idx truthy gd g profile).
  - exact Hempty.
  - intros Hmc. unfold analyze_profile.
    destruct (Z.ltb_spec (len (@nil (Sample Point))) (mc + 1)) as [Hlt | _].
    + unfold len in Hlt. cbn in Hlt. lia.
    + cbv zeta. cbn [sort_by_distance]. rewrite Hempty. reflexivity.
Qed.

(** X11: with [min_consecutive >= 1] and a sample spacing other than zero,
    the analysis raises neither [IndexError] nor [ZeroDivisionError], the
    two exceptions of the classifier's own indexing and division, whatever
    the points layer and the river layer. *)
Theorem X11_analysis_raises_no_index_or_division_error :
  forall (Point Geometry : Type)
         (combine : Geometry -> Geometry -> Geometry)
         (truthy : Geometry -> bool)
         (geom_distance : Point -> Geometry -> R)
         (lineLocatePoint : Geometry -> Point -> R)
         (points_layer : list (Feature Point))
         (rivers_layer : list Geometry)
         (height_threshold slope_threshold : R) (min_consecutive : Z)
         (point_spacing : R),
    (1 <= min_consecutive)%Z ->
    point_spacing <> 0%R ->
    _analyze_transects_for_bedrock combine truthy geom_distance
      lineLocatePoint points_layer rivers_layer height_threshold
      slope_threshold min_consecutive point_spacing <> Raise IndexError /\
    _analyze_transects_for_bedrock combine truthy geom_distance
      lineLocatePoint points_layer rivers_layer height_threshold
      slope_threshold min_consecutive point_spacing
    <> Raise ZeroDivisionError.
Proof.
  intros Point Geometry combine truthy gd llp layer rivers ht st mc ps
    Hmc Hps.
  assert (Hok : exists bps,
             _analyze_transects_for_bedrock combine truthy gd llp layer
               rivers ht st mc ps = Ok bps).
  { unfold _analyze_transects_for_bedrock.
    destruct (river_geometry combine rivers) as [g |].
    - apply analyze_profiles_returns; assumption.
    - exists []. reflexivity. }
  destruct Hok as [bps ->]. split; discriminate.
Qed.

Lemma X11_witness :
  (1 <= 3)%Z /\ 15%R <> 0%R /\
  _analyze_transects_for_bedrock no_combine always_truthy zero_distance
    zero_locate rising_layer [tt; tt] 3 8 3 15 <> Raise IndexError /\
  _analyze_transects_for_bedrock no_combine always_truthy zero_distance
    zero_locate rising_layer [tt; tt] 3 8 3 15 <> Raise ZeroDivisionError.
Proof.
  split; [lia | split; [lra |]].
  apply X11_analysis_raises_no_index_or_division_error; [lia | lra].
Defined.

(** ** The points layer and the pipelines *)

(** X13: the points layer loses nothing: two lists of bank points that give
    the same layer are the same list. *)
Theorem X13_points_layer_is_lossless :
  forall (Point : Type) (l1 l2 : list (BankPoint Point)),
    _create_points_layer l1 = _create_points_layer l2 -> l1 = l2.
Proof.
  intros Point l1 l2 Heq. unfold _create_points_layer in Heq.
  injection Heq as Hmap. revert l2 Hmap.
  induction l1 as [| b1 l1 IH]; intros [| b2 l2] Hmap; cbn [map] in Hmap;
    try discriminate Hmap; [reflexivity |].
  injection Hmap as Hp He Hh Hs Hi Hd Hrest.
  f_equal; [| now apply IH].
  destruct b1, b2. cbn in *. congruence.
Qed.

Lemma X13_witness :
  [mkBankPoint tt 110 10 "right" 2 0] = [mkBankPoint tt 110 10 "right" 2 0].
Proof.
  apply X13_points_layer_is_lossless. reflexivity.
Defined.

Section PipelineOutcomes.

Variable Point Geometry : Type.
Variable combine : Geometry -> Geometry -> Geometry.
Variable truthy : Geometry -> bool.
Variable geom_distance : Point -> Geometry -> R.
Variable lineLocatePoint : Geometry -> Point -> R.
Variable QgsRasterLayer TransectsLayer PointsLayer : Type.
Variable native_transect :
  list Geometry -> R -> R -> Z -> R -> result TransectsLayer.
Variable native_pointsalonglines :
  TransectsLayer -> R -> Z -> Z -> result PointsLayer.
Variable native_rastersampling :
  PointsLayer -> QgsRasterLayer -> string -> result (list (Feature Point)).
Variable native_pointstopath :
  QgsVectorLayer Point -> string -> string -> result (QgsVectorLayer Point).
Variable native_smoothgeometry :
  QgsVectorLayer Point -> Z -> R -> Z -> string -> result unit.
Variable format_float : R -> string.
Variable format_int : Z -> string.

Local Abbreviation analyze :=
  (_analyze_transects_for_bedrock combine truthy geom_distance
     lineLocatePoint).
Local Abbreviation detect :=
  (detect_bedrock_banks combine truthy geom_distance lineLocatePoint
     native_transect native_pointsalonglines native_rastersampling
     native_pointstopath native_smoothgeometry format_float format_int).
Local Abbreviation build :=
  (build_bedrock_banks_layer combine truthy geom_distance lineLocatePoint
     native_transect native_pointsalonglines native_rastersampling
     native_pointstopath native_smoothgeometry format_float format_int).

(** X14: whenever the detection returns, the three sampling steps and the
    analysis have succeeded, and the layer returned is the empty memory
    layer exactly when the analysis found no bank point; otherwise it is the
    OGR layer on [output_path], written by the smoothing of the path built
    from the points layer of the bank points. *)
Theorem X14_detection_outcomes :
  forall (rivers_layer : list Geometry) (dem_layer : QgsRasterLayer)
         (output_path : string)
         (buffer_distance height_threshold slope_threshold : R)
         (transect_spacing point_spacing : R) (min_consecutive : Z)
         (stdout : list string) (layer : QgsVectorLayer Point),
    detect rivers_layer dem_layer output_path buffer_distance
      height_threshold slope_threshold transect_spacing point_spacing
      min_consecutive = Ok (stdout, layer) ->
    exists transects_layer points_layer points_with_z bedrock_points,
      native_transect rivers_layer buffer_distance 90 2 transect_spacing
      = Ok transects_layer /\
      native_pointsalonglines transects_layer point_spacing 0 0
      = Ok points_layer /\
      native_rastersampling points_layer dem_layer "elev_"
      = Ok points_with_z /\
      analyze points_with_z rivers_layer height_threshold slope_threshold
        min_consecutive point_spacing = Ok bedrock_points /\
      ((bedrock_points = [] /\
        layer = MemoryLayer "LineString?crs=EPSG:3857" "bedrock_banks" [] [])
       \/
       (bedrock_points <> [] /\
        layer = OgrLayer Point output_path "bedrock_banks" /\
        exists line_layer,
          native_pointstopath (_create_points_layer bedrock_points)
            "distance_along" "side" = Ok line_layer /\
          native_smoothgeometry line_layer 5 0.25 180 output_path
          = Ok tt)).
Proof.
  intros rivers dem out bd ht st ts ps mc stdout layer.
  unfold detect_bedrock_banks.
  destruct (native_transect rivers bd 90 2 ts) as [tl | e] eqn:Ht;
    cbn [bind]; [| discriminate].
  destruct (native_pointsalonglines tl ps 0 0) as [pl | e] eqn:Hp;
    cbn [bind]; [| discriminate].
  destruct (native_rastersampling pl dem "elev_") as [pz | e] eqn:Hr;
    cbn [bind]; [| discriminate].
  destruct (analyze pz rivers ht st mc ps) as [bps | e] eqn:Ha; cbn [bind];
    [| discriminate].
  intros Hd. exists tl, pl, pz, bps.
  split; [reflexivity | split; [exact Hp | split; [exact Hr |]]].
  split; [exact Ha |].
  destruct bps as [| bp bps].
  - left. injection Hd as _ <-. split; reflexivity.
  - right.
    destruct (native_pointstopath (_create_points_layer (bp :: bps))
                "distance_along" "side") as [line | e] eqn:Hl;
      cbn [bind] in Hd; [| discriminate].
    destruct (native_smoothgeometry line 5 0.25 180 out) as [[] | e] eqn:Hs;
      cbn [bind] in Hd; [| discriminate].
    injection Hd as _ <-.
    split; [discriminate | split; [reflexivity |]].
    exists line. split; [reflexivity | exact Hs].
Qed.

(** X15: the layer builder runs the detection with [min_consecutive = 3] and
    a spacing of 15, so an [IndexError] or a [ZeroDivisionError] that leaves
    the builder is not the classifier's: it was raised by one of the five
    processing steps of this run, called on the outputs of the steps before
    it, the analysis of the sampled points having returned its bank points
    before the last two. *)
Theorem X15_builder_exceptions_come_from_the_engine :
  forall (rivers_layer : list Geometry) (dem_layer : QgsRasterLayer)
         (output_path : string)
         (buffer_distance height_threshold slope_threshold : R) (e : exn),
    build rivers_layer dem_layer output_path buffer_distance
      height_threshold slope_threshold = Raise e ->
    e = IndexError \/ e = ZeroDivisionError ->
    native_transect rivers_layer buffer_distance 90 2 75 = Raise e \/
    (exists transects_layer,
        native_transect rivers_layer buffer_distance 90 2 75
        = Ok transects_layer /\
        native_pointsalonglines transects_layer 15 0 0 = Raise e) \/
    (exists transects_layer points_layer,
        native_transect rivers_layer buffer_distance 90 2 75
        = Ok transects_layer /\
        native_pointsalonglines transects_layer 15 0 0 = Ok points_layer /\
        native_rastersampling points_layer dem_layer "elev_" = Raise e) \/
    (exists transects_layer points_layer points_with_z bedrock_points,
        native_transect rivers_layer buffer_distance 90 2 75
        = Ok transects_layer /\
        native_pointsalonglines transects_layer 15 0 0 = Ok points_layer /\
        native_rastersampling points_layer dem_layer "elev_"
        = Ok points_with_z /\
        analyze points_with_z rivers_layer height_threshold slope_threshold
          3 15 = Ok bedrock_points /\
        bedrock_points <> [] /\
        (native_pointstopath (_create_points_layer bedrock_points)
           "distance_along" "side" = Raise e \/
         exists line_layer,
           native_pointstopath (_create_points_layer bedrock_points)
             "distance_along" "side" = Ok line_layer /\
           native_smoothgeometry line_layer 5 0.25 180 output_path
           = Raise e)).
Proof.
  intros rivers dem out bd ht st e.
  unfold build_bedrock_banks_layer, detect_bedrock_banks.
  destruct (native_transect rivers bd 90 2 75) as [tl | e1] eqn:Ht;
    cbn [bind];
    [| intros E _; injection E as ->; now left].
  destruct (native_pointsalonglines tl 15 0 0) as [pl | e2] eqn:Hp;
    cbn [bind];
    [| intros E _; injection E as ->; right; left; exists tl;
       split; [reflexivity | exact Hp]].
  destruct (native_rastersampling pl dem "elev_") as [pz | e3] eqn:Hr;
    cbn [bind];
    [| intros E _; injection E as ->; right; right; left; exists tl, pl;
       split; [reflexivity | split; [exact Hp | exact Hr]]].
  assert (Hok : exists bps, analyze pz rivers ht st 3 15 = Ok bps).
  { unfold _analyze_transects_for_bedrock.
    destruct (river_geometry combine rivers) as [g |];
      [| now exists []].
    apply analyze_profiles_returns; [lia | lra]. }
  destruct Hok as [bps Hbps]. rewrite Hbps. cbn [bind].
  destruct bps as [| bp bps]; [discriminate |].
  intros E _. right. right. right. exists tl, pl, pz, (bp :: bps).
  split; [reflexivity | split; [exact Hp | split; [exact Hr |]]].
  split; [exact Hbps | split; [discriminate |]].
  destruct (native_pointstopath (_create_points_layer (bp :: bps))
              "distance_along" "side") as [line | e4] eqn:Hl;
    cbn [bind] in E.
  - destruct (native_smoothgeometry line 5 0.25 180 out) as [[] | e5] eqn:Hs;
      cbn [bind] in E; [discriminate |].
    injection E as ->. right. exists line. split; [reflexivity | exact Hs].
  - injection E as ->. left. reflexivity.
Qed.

End PipelineOutcomes.

Lemma steep_detection :
  exists stdout,
    detect_bedrock_banks no_combine always_truthy zero_distance zero_locate
      ok_transect ok_pointsalonglines steep_rastersampling ok_pointstopath
      ok_smoothgeometry plain_float plain_int
      [tt] tt "banks.gpkg" 200 3 8 75 15 2
    = Ok (stdout, OgrLayer unit "banks.gpkg" "bedrock_banks").
Proof.
  unfold detect_bedrock_banks.
  change (ok_transect [tt] 200 90 2 75) with (@Ok unit tt). cbn [bind].
  change (ok_pointsalonglines tt 15 0 0) with (@Ok unit tt). cbn [bind].
  change (steep_rastersampling tt tt "elev_") with (Ok steep_layer).
  cbn [bind]. rewrite steep_analysis. cbn [bind].
  eexists. reflexivity.
Qed.

Lemma X14_witness :
  exists transects_layer points_layer points_with_z bedrock_points,
    ok_transect [tt] 200 90 2 75 = Ok transects_layer /\
    ok_pointsalonglines transects_layer 15 0 0 = Ok points_layer /\
    steep_rastersampling points_layer tt "elev_" = Ok points_with_z /\
    _analyze_transects_for_bedrock no_combine always_truthy zero_distance
      zero_locate points_with_z [tt] 3 8 2 15 = Ok bedrock_points /\
    ((bedrock_points = [] /\
      OgrLayer unit "banks.gpkg" "bedrock_banks"
      = MemoryLayer "LineString?crs=EPSG:3857" "bedrock_banks" [] [])
     \/
     (bedrock_points <> [] /\
      OgrLayer unit "banks.gpkg" "bedrock_banks"
      = OgrLayer unit "banks.gpkg" "bedrock_banks" /\
      exists line_layer,
        ok_pointstopath (_create_points_layer bedrock_points)
          "distance_along" "side" = Ok line_layer /\
        ok_smoothgeometry line_layer 5 0.25 180 "banks.gpkg" = Ok tt)).
Proof.
  destruct steep_detection as [stdout Hd].
  exact (@X14_detection_outcomes unit unit no_combine always_truthy
           zero_distance zero_locate unit unit unit ok_transect
           ok_pointsalonglines steep_rastersampling ok_pointstopath
           ok_smoothgeometry plain_float plain_int
           [tt] tt "banks.gpkg" 200 3 8 75 15 2 stdout _ Hd).
Defined.

Lemma X15_witness :
  (IndexError = IndexError \/ IndexError = ZeroDivisionError) /\
  (failing_transect [tt] 200 90 2 75 = Raise IndexError \/
   (exists transects_layer,
       failing_transect [tt] 200 90 2 75 = Ok transects_layer /\
       ok_pointsalonglines transects_layer 15 0 0 = Raise IndexError) \/
   (exists transects_layer points_layer,
       failing_transect [tt] 200 90 2 75 = Ok transects_layer /\
       ok_pointsalonglines transects_layer 15 0 0 = Ok points_layer /\
       ok_rastersampling points_layer tt "elev_" = Raise IndexError) \/
   (exists transects_layer points_layer points_with_z bedrock_points,
       failing_transect [tt] 200 90 2 75 = Ok transects_layer /\
       ok_pointsalonglines transects_layer 15 0 0 = Ok points_layer /\
       ok_rastersampling points_layer tt "elev_" = Ok points_with_z /\
       _analyze_transects_for_bedrock no_combine always_truthy zero_distance
         zero_locate points_with_z [tt] 3 8 3 15 = Ok bedrock_points /\
       bedrock_points <> [] /\
       (ok_pointstopath (_create_points_layer bedrock_points)
          "distance_along" "side" = Raise IndexError \/
        exists line_layer,
          ok_pointstopath (_create_points_layer bedrock_points)
            "distance_along" "side" = Ok line_layer /\
          ok_smoothgeometry line_layer 5 0.25 180 "banks.gpkg"
          = Raise IndexError))).
Proof.
  split; [now left |].
  apply (@X15_builder_exceptions_come_from_the_engine unit unit no_combine
           always_truthy zero_distance zero_locate unit unit unit
           failing_transect ok_pointsalonglines ok_rastersampling
           ok_pointstopath ok_smoothgeometry plain_float plain_int
           [tt] tt "banks.gpkg" 200 3 8 IndexError).
  - reflexivity.
  - now left.
Defined.

(** ** The underground channel *)

Section UndergroundOutcome.

Variable Point Geometry : Type.
Variable QgsRasterLayer BufferLayer GridLayer HullLayer QgsRectangle : Type.
Variable native_buffer :
  list Geometry -> R -> Z -> Z -> Z -> Z -> bool -> result BufferLayer.
Variable layer_extent : BufferLayer -> QgsRectangle.
Variable native_pixelstopoints :
  QgsRasterLayer -> Z -> string -> result GridLayer.
Variable native_clip : GridLayer -> BufferLayer -> result GridLayer.
Variable qgis_basicstatisticsforfields :
  GridLayer -> string -> result FieldStatistics.
Variable native_extractbyexpression :
  GridLayer -> string -> result GridLayer.
Variable qgis_concavehull :
  GridLayer -> R -> bool -> bool -> result HullLayer.
Variable smooth_hull : HullLayer -> Z -> R -> Z -> string -> result unit.
Variable format_threshold : R -> string.

Local Abbreviation detect_channel :=
  (@detect_underground_channel Point Geometry QgsRasterLayer BufferLayer
     GridLayer HullLayer QgsRectangle native_buffer layer_extent
     native_pixelstopoints native_clip qgis_basicstatisticsforfields
     native_extractbyexpression qgis_concavehull smooth_hull
     format_threshold).

(** X16: whenever the detection of the underground channel returns, it
    returns the OGR layer on [output_path], and the seven steps of this run
    have succeeded in order, each on the outputs of the steps before it: the
    buffer of the rivers, the grid of the raster, the clip of the grid by the
    buffer, the statistics of the clipped points, the extraction from the
    clipped points with the threshold of line 96 computed from these
    statistics, the hull of the extracted points and its smoothing into
    [output_path]. The threshold is not below the least elevation of the
    statistics when that is at most the greatest. *)
Theorem X16_channel_detection_outcome :
  forall (rivers_layer : list Geometry) (dem_layer : QgsRasterLayer)
         (output_path : string) (buffer_distance : R)
         (layer : QgsVectorLayer Point),
    detect_channel rivers_layer dem_layer output_path buffer_distance
    = Ok layer ->
    layer = OgrLayer Point output_path "underground_channel_raw" /\
    exists buffer_layer grid_points points_in_buffer stats low_points
           channel_hull,
      native_buffer rivers_layer buffer_distance 20 0 0 2 true
      = Ok buffer_layer /\
      native_pixelstopoints dem_layer 1 "elevation" = Ok grid_points /\
      native_clip grid_points buffer_layer = Ok points_in_buffer /\
      qgis_basicstatisticsforfields points_in_buffer "elevation"
      = Ok stats /\
      native_extractbyexpression points_in_buffer
        (low_elevation_expression format_threshold (percentile_30 stats))
      = Ok low_points /\
      qgis_concavehull low_points 0.5 true false = Ok channel_hull /\
      smooth_hull channel_hull 5 0.25 180 output_path = Ok tt /\
      ((stat_MIN stats <= stat_MAX stats)%R ->
       (stat_MIN stats <= percentile_30 stats)%R).
Proof.
  intros rivers dem out bd layer. unfold detect_underground_channel.
  destruct (native_buffer rivers bd 20 0 0 2 true) as [buf | e] eqn:Hbuf;
    cbn [bind]; [| discriminate].
  destruct (native_pixelstopoints dem 1 "elevation") as [grid | e] eqn:Hgrid;
    cbn [bind]; [| discriminate].
  destruct (native_clip grid buf) as [pts | e] eqn:Hclip; cbn [bind];
    [| discriminate].
  destruct (qgis_basicstatisticsforfields pts "elevation") as [stats | e]
    eqn:Hstats; cbn [bind]; [| discriminate].
  cbv zeta.
  destruct (native_extractbyexpression pts
              (low_elevation_expression format_threshold
                 (percentile_30 stats))) as [low | e] eqn:Hlow;
    cbn [bind]; [| discriminate].
  destruct (qgis_concavehull low 0.5 true false) as [hull | e] eqn:Hhull;
    cbn [bind]; [| discriminate].
  destruct (smooth_hull hull 5 0.25 180 out) as [[] | e] eqn:Hsm;
    cbn [bind]; [| discriminate].
  intros E. injection E as <-. split; [reflexivity |].
  exists buf, grid, pts, stats, low, hull.
  split; [reflexivity | split; [reflexivity | split; [exact Hclip |]]].
  split; [exact Hstats | split; [exact Hlow | split; [exact Hhull |]]].
  split; [exact Hsm |].
  unfold percentile_30. intros H. lra.
Qed.

End UndergroundOutcome.

Lemma X16_witness :
  OgrLayer unit "channel.gpkg" "underground_channel_raw"
  = OgrLayer unit "channel.gpkg" "underground_channel_raw" /\
  exists buffer_layer grid_points points_in_buffer stats low_points
         channel_hull,
    ok_buffer [tt] 50 20 0 0 2 true = Ok buffer_layer /\
    ok_pixelstopoints tt 1 "elevation" = Ok grid_points /\
    ok_clip grid_points buffer_layer = Ok points_in_buffer /\
    ok_statistics points_in_buffer "elevation" = Ok stats /\
    ok_extract points_in_buffer
      (low_elevation_expression plain_float (percentile_30 stats))
    = Ok low_points /\
    ok_concavehull low_points 0.5 true false = Ok channel_hull /\
    ok_smooth_hull channel_hull 5 0.25 180 "channel.gpkg" = Ok tt /\
    ((stat_MIN stats <= stat_MAX stats)%R ->
     (stat_MIN stats <= percentile_30 stats)%R).
Proof.
  apply (@X16_channel_detection_outcome unit unit unit unit unit unit
           unit ok_buffer unit_extent ok_pixelstopoints ok_clip
           ok_statistics ok_extract ok_concavehull ok_smooth_hull
           plain_float [tt] tt "channel.gpkg" 50).
  reflexivity.
Defined.

(** ** One anchor per transect, the order of the transects, the two sides *)

Section SharedAnchor.

Variable Point Geometry : Type.
Variable truthy : Geometry -> bool.
Variable geom_distance : Point -> Geometry -> R.
Variable lineLocatePoint : Geometry -> Point -> R.
Variable river_geom : Geometry.
Variable height_threshold slope_threshold : R.
Variable min_consecutive : Z.
Variable point_spacing : R.

(** The bank points of one group carry the transect id [pid] and share the
    along-river distance and the elevation their height is measured from. *)
Local Abbreviation same_anchor pid found :=
  (exists re rd : R,
      Forall (fun bp : BankPoint Point =>
                bp_profile_id bp = pid /\ distance_along bp = rd /\
                (bp_elevation bp - height_diff bp)%R = re)
             found).

Lemma analyze_profile_same_anchor (pid : Z) (profile : list (Sample Point))
    (acc r : list (BankPoint Point)) :
  analyze_profile truthy geom_distance lineLocatePoint river_geom
    height_threshold slope_threshold min_consecutive point_spacing
    pid profile acc = Ok r ->
  exists found, r = acc ++ found /\ same_anchor pid found.
Proof.
  unfold analyze_profile.
  destruct (len profile <? min_consecutive + 1)%Z.
  - intros E. injection E as <-. exists [].
    split; [now rewrite app_nil_r |]. exists 0%R, 0%R. constructor.
  - cbv zeta.
    destruct (getitem (sort_by_distance profile) _) as [rp | e];
      cbn [bind]; [| discriminate].
    intros Hc. apply classify_sides_outcome in Hc.
    destruct Hc as (found & -> & _ & Hall).
    exists found. split; [reflexivity |].
    exists (elevation rp),
      (if truthy river_geom
       then lineLocatePoint river_geom (point rp) else 0%R).
    eapply Forall_impl; [| exact Hall].
    intros bp (s & _ & Hbp & _). rewrite Hbp. cbn.
    split; [reflexivity | split; [reflexivity |]].
    lra.
Qed.

Lemma analyze_profiles_same_anchor (d : profiles_dict Point) :
  forall acc r,
    analyze_profiles truthy geom_distance lineLocatePoint river_geom
      height_threshold slope_threshold min_consecutive point_spacing
      d acc = Ok r ->
    exists founds,
      r = acc ++ List.concat founds /\
      Forall2 (fun entry found => same_anchor (fst entry) found) d founds.
Proof.
  induction d as [| [pid profile] d IH]; intros acc r; cbn [analyze_profiles].
  - intros E. injection E as <-. exists [].
    split; [now rewrite app_nil_r | constructor].
  - destruct (analyze_profile truthy geom_distance lineLocatePoint
                river_geom height_threshold slope_threshold min_consecutive
                point_spacing pid profile acc) as [acc' | e] eqn:Hone;
      cbn [bind]; [| discriminate].
    intros Hrest. apply analyze_profile_same_anchor in Hone.
    destruct Hone as (found & -> & Hsame).
    destruct (IH _ _ Hrest) as (founds & -> & Hf2).
    exists (found :: founds). cbn [List.concat].
    split; [now rewrite app_assoc |].
    constructor; [exact Hsame | exact Hf2].
Qed.

Lemma group_member_key (d : profiles_dict Point)
    (founds : list (list (BankPoint Point))) (b : BankPoint Point) :
  Forall2 (fun entry found => same_anchor (fst entry) found) d founds ->
  In b (List.concat founds) -> In (bp_profile_id b) (map fst d).
Proof.
  induction 1 as [| [k v] found d founds (re & rd & Hall) _ IH];
    cbn [List.concat map fst]; [intros [] |].
  intros Hin. apply in_app_or in Hin. destruct Hin as [Hin | Hin].
  - left. rewrite Forall_forall in Hall.
    destruct (Hall b Hin) as [Hid _]. now rewrite Hid.
  - right. now apply IH.
Qed.

Lemma groups_share_anchor (d : profiles_dict Point)
    (founds : list (list (BankPoint Point))) :
  Forall2 (fun entry found => same_anchor (fst entry) found) d founds ->
  NoDup (map fst d) ->
  forall b1 b2,
    In b1 (List.concat founds) -> In b2 (List.concat founds) ->
    bp_profile_id b1 = bp_profile_id b2 ->
    distance_along b1 = distance_along b2 /\
    (bp_elevation b1 - height_diff b1)%R
    = (bp_elevation b2 - height_diff b2)%R.
Proof.
  induction 1 as [| [k v] found d founds Hsame Hrest IH];
    intros Hnd b1 b2; cbn [List.concat]; [intros [] |].
  cbn [map fst] in Hnd. inversion Hnd as [| ? ? Hnotin Hnd']; subst.
  intros H1 H2 Hid.
  apply in_app_or in H1. apply in_app_or in H2.
  pose proof Hsame as (re & rd & Hall). cbn [fst] in Hall.
  rewrite Forall_forall in Hall.
  destruct H1 as [H1 | H1], H2 as [H2 | H2].
  - destruct (Hall b1 H1) as (_ & Hd1 & He1).
    destruct (Hall b2 H2) as (_ & Hd2 & He2).
    split; congruence.
  - exfalso. apply Hnotin.
    destruct (Hall b1 H1) as (Hk & _). rewrite <- Hk, Hid.
    now apply group_member_key with founds.
  - exfalso. apply Hnotin.
    destruct (Hall b2 H2) as (Hk & _). rewrite <- Hk, <- Hid.
    now apply group_member_key with founds.
  - now apply IH.
Qed.

End SharedAnchor.

(** X17: the bank points the analysis returns for one transect share their
    anchor: two bank points with the same transect id have the same
    along-river distance, and their heights are measured from the same
    elevation. *)
Theorem X17_one_anchor_per_transect :
  forall (Point Geometry : Type)
         (combine : Geometry -> Geometry -> Geometry)
         (truthy : Geometry -> bool)
         (geom_distance : Point -> Geometry -> R)
         (lineLocatePoint : Geometry -> Point -> R)
         (points_layer : list (Feature Point))
         (rivers_layer : list Geometry)
         (height_threshold slope_threshold : R) (min_consecutive : Z)
         (point_spacing : R) (bedrock_points : list (BankPoint Point))
         (b1 b2 : BankPoint Point),
    _analyze_transects_for_bedrock combine truthy geom_distance
      lineLocatePoint points_layer rivers_layer height_threshold
      slope_threshold min_consecutive point_spacing = Ok bedrock_points ->
    In b1 bedrock_points -> In b2 bedrock_points ->
    bp_profile_id b1 = bp_profile_id b2 ->
    distance_along b1 = distance_along b2 /\
    (bp_elevation b1 - height_diff b1)%R
    = (bp_elevation b2 - height_diff b2)%R.
Proof.
  intros Point Geometry combine truthy gd llp layer rivers ht st mc ps l
    b1 b2.
  unfold _analyze_transects_for_bedrock.
  destruct (river_geometry combine rivers) as [g |].
  - intros Hall. apply analyze_profiles_same_anchor in Hall.
    destruct Hall as (founds & -> & Hf2). cbn [app].
    apply (groups_share_anchor Hf2). apply group_profiles_keys.
  - intros E. injection E as <-. intros [].
Qed.

Lemma X17_witness :
  distance_along (mkBankPoint tt 104 (104 - 100) "left" 1 0)
  = distance_along (mkBankPoint tt 104 (104 - 100) "right" 1 0) /\
  (bp_elevation (mkBankPoint tt 104 (104 - 100) "left" 1 0)
   - height_diff (mkBankPoint tt 104 (104 - 100) "left" 1 0))%R
  = (bp_elevation (mkBankPoint tt 104 (104 - 100) "right" 1 0)
     - height_diff (mkBankPoint tt 104 (104 - 100) "right" 1 0))%R.
Proof.
  apply (@X17_one_anchor_per_transect unit unit no_combine never_truthy
           zero_distance zero_locate symmetric_layer [tt] 3 8 2 15 _
           (mkBankPoint tt 104 (104 - 100) "left" 1 0)
           (mkBankPoint tt 104 (104 - 100) "right" 1 0) symmetric_analysis);
    [now left | right; now left | reflexivity].
Defined.

(** X18: the dict keeps the transects in the order of their first feature:
    a further feature adds its transect id at the end when no earlier
    feature has that id, and leaves the order of the ids alone otherwise. *)
Theorem X18_transects_in_order_of_first_appearance :
  forall (Point : Type) (features : list (Feature Point))
         (f : Feature Point),
    map fst (group_profiles (features ++ [f]))
    = if existsb (fun f' => (feature_profile_id f' =? feature_profile_id f)%Z)
           features
      then map fst (group_profiles features)
      else map fst (group_profiles features) ++ [feature_profile_id f].
Proof.
  intros Point features f. unfold group_profiles.
  rewrite fold_left_app. cbn [fold_left].
  fold (group_profiles features).
  pose proof (group_profiles_get (feature_profile_id f) features) as Hget.
  assert (Hkeys :
    map fst (group_step (group_profiles features) f)
    = map fst (if dict_mem (feature_profile_id f) (group_profiles features)
               then group_profiles features
               else group_profiles features ++ [(feature_profile_id f, [])])).
  { unfold group_step. cbv zeta.
    destruct (attr_elev_1 f) as [e |]; [| reflexivity].
    destruct (Reqb e (-9999)); [reflexivity | apply dict_append_keys]. }
  rewrite Hkeys, dict_mem_get, Hget.
  destruct (existsb _ features); [reflexivity |].
  rewrite map_app. reflexivity.
Qed.

(** X19: the anchor and the two sides the analysis scans make up the whole
    profile: the left side read backwards, then the anchor, then the right
    side, is the profile itself, so every sample but the anchor is scanned
    on exactly one side. *)
Theorem X19_sides_and_anchor_partition_the_profile :
  forall (Point : Type) (profile : list (Sample Point)) (river_idx : Z)
         (river_point : Sample Point),
    (0 <= river_idx)%Z ->
    getitem profile river_idx = Ok river_point ->
    rev (reversed (slice_to profile river_idx)) ++ [river_point]
      ++ slice_from profile (river_idx + 1)
    = profile.
Proof.
  intros Point profile a rp Ha Hget.
  assert (Hnth : nth_error profile (Z.to_nat a) = Some rp).
  { unfold getitem in Hget.
    destruct (Z.ltb_spec a 0) as [Hneg | _]; [lia |].
    destruct (Z.ltb_spec a 0) as [Hneg | _]; [lia |].
    destruct (nth_error profile (Z.to_nat a)); [congruence | discriminate]. }
  assert (Hlt : (Z.to_nat a < List.length profile)%nat).
  { apply nth_error_Some. congruence. }
  unfold reversed, slice_to, slice_from, slice_bound.
  destruct (Z.ltb_spec a 0) as [Hneg | _]; [lia |].
  destruct (Z.ltb_spec (a + 1) 0) as [Hneg | _]; [lia |].
  rewrite rev_involutive.
  rewrite Z.min_l by (unfold len; lia).
  rewrite Z.min_l by (unfold len; lia).
  replace (Z.to_nat (a + 1)) with (S (Z.to_nat a)) by lia.
  clear Ha Hget Hlt. revert profile Hnth.
  induction (Z.to_nat a) as [| n IH]; intros [| x profile] Hnth;
    cbn in Hnth; try discriminate Hnth.
  - injection Hnth as ->. reflexivity.
  - cbn [firstn skipn app]. f_equal. now apply IH.
Qed.

Lemma X19_witness :
  rev (reversed (slice_to steep_profile 1)) ++ [mkSample tt 110 15 2]
    ++ slice_from steep_profile (1 + 1)
  = steep_profile.
Proof.
  apply X19_sides_and_anchor_partition_the_profile; [lia | reflexivity].
Defined.
